(** * csm-api-server: the /health and /infer handlers of [api.py]

  A shallow embedding of [src/api.py] and the properties of its
  request-scoped scratch directory, its command runner and its handlers.

  Python text is modelled as [string] (UTF-8 bytes), the file system as a
  finite map from path strings to nodes, and the handlers as computations
  in a state-and-exception monad whose state holds the file system, the
  list of spawned child processes and the log.  [mkdir] makes the missing
  directories above its path, and the constructor of the response raises
  for a result that does not render as a JSON body.  Library behaviour
  that the program does not fix (what the child process does, whether the
  operating system refuses a call, the text of a library exception) is a
  field of the environment record [Env]; every theorem holds for all
  environments. *)

From Stdlib Require Import ZArith String Ascii List Lia Bool.
From stdpp Require Import base gmap strings list fin_maps pretty.

Open Scope string_scope.
Open Scope list_scope.
Open Scope Z_scope.

(** ** Python strings *)

Module PyStr.

(** [needle in hay] *)
Fixpoint str_in (needle hay : string) : bool :=
  String.prefix needle hay ||
  match hay with
  | EmptyString => false
  | String _ hay' => str_in needle hay'
  end.

(** [s.startswith(p)] *)
Definition startswith (s p : string) : bool := String.prefix p s.

(** Truthiness of a [str]. *)
Definition truthy (s : string) : bool :=
  match s with EmptyString => false | _ => true end.

Definition snoc (s : string) (c : ascii) : string := s +:+ String c "".

Definition is_digit (c : ascii) : bool :=
  let n := nat_of_ascii c in (48 <=? n)%nat && (n <=? 57)%nat.

Fixpoint all_digits (s : string) : bool :=
  match s with
  | EmptyString => true
  | String c s' => is_digit c && all_digits s'
  end.

(** Value of a string of decimal digits, most significant first. *)
Fixpoint digits_value (acc : Z) (s : string) : Z :=
  match s with
  | EmptyString => acc
  | String c s' => digits_value (10 * acc + (Z.of_nat (nat_of_ascii c) - 48)) s'
  end.

End PyStr.

(** ** Exceptions

  Only instances of [Exception] are modelled ([KeyboardInterrupt] and the
  like are not). *)

Inductive exn : Type :=
| RuntimeError (msg : string)
| ValueError (msg : string)
| KeyError (key : string)
| IndexError (index : Z)
| TimeoutExpired (cmd : string) (timeout : Z)
| HTTPException (status_code : Z) (detail : string)
| OSError (cls : string) (filename : string)
| OtherException (cls : string) (msg : string).

Inductive result (A : Type) : Type :=
| Ok (a : A)
| Raise (e : exn).
Arguments Ok {A} a.
Arguments Raise {A} e.

(** ** [str.format] with the keyword arguments [input] and [output]

  The scanner follows CPython's [MarkupIterator_next] and [parse_field]
  one character at a time; a state records what has been read of the
  current replacement field. *)

Module Format.
Import PyStr.

Inductive fstate : Type :=
| FLit (out : string)                       (* literal text *)
| FOpen (out : string)                      (* a '{' was read in literal text *)
| FClose (out : string)                     (* a '}' was read in literal text *)
| FName (out name : string)                 (* in a field name *)
| FBracket (out name : string)              (* in a field name, inside [...] *)
| FConv (out name : string)                 (* after '!' *)
| FConvEnd (out name : string) (conv : ascii)   (* after the conversion character *)
| FSpec (out name : string) (conv : option ascii) (spec : string) (depth : nat)
| FFail (e : exn).

Definition PY_SSIZE_T_MAX : Z := 2 ^ 63 - 1.

(** [field_name_split]: the part of the field name before the first '.'
    or '[', and the rest. *)
Fixpoint field_name_split (name : string) : string * string :=
  match name with
  | EmptyString => ("", "")
  | String c name' =>
      if (Ascii.eqb c "." || Ascii.eqb c "[")%bool then ("", name)
      else let (first, rest) := field_name_split name' in (String c first, rest)
  end.

(** [get_field_object], first step: [format] is called with no positional
    argument and the keywords [input] and [output]. *)
Definition get_field_object (first input output : string) : result string :=
  match first with
  | EmptyString => Raise (IndexError 0)
  | _ =>
      if all_digits first then
        if PY_SSIZE_T_MAX <? digits_value 0 first
        then Raise (ValueError "Too many decimal digits in format string")
        else Raise (IndexError (digits_value 0 first))
      else if String.eqb first "input" then Ok input
      else if String.eqb first "output" then Ok output
      else Raise (KeyError first)
  end.

Section WithFieldFormatter.

(** What Python makes of a field of [input] or [output] that has
    attribute or index accessors, a conversion or a format
    specification: [format_ext value accessors conversion spec]. *)
Variable format_ext : string -> string -> option ascii -> string -> result string.
Variables input output : string.

(** [output_markup] *)
Definition render_field (out name : string) (conv : option ascii) (spec : string) : fstate :=
  let (first, rest) := field_name_split name in
  match get_field_object first input output with
  | Raise e => FFail e
  | Ok v =>
      match rest, conv, spec with
      | EmptyString, None, EmptyString => FLit (out +:+ v)
      | _, _, _ =>
          match format_ext v rest conv spec with
          | Ok s => FLit (out +:+ s)
          | Raise e => FFail e
          end
      end
  end.

Definition in_name (out name : string) (c : ascii) : fstate :=
  if Ascii.eqb c "{" then FFail (ValueError "unexpected '{' in field name")
  else if Ascii.eqb c "[" then FBracket out (snoc name c)
  else if Ascii.eqb c "}" then render_field out name None ""
  else if Ascii.eqb c ":" then FSpec out name None "" 1
  else if Ascii.eqb c "!" then FConv out name
  else FName out (snoc name c).

Definition step (st : fstate) (c : ascii) : fstate :=
  match st with
  | FLit out =>
      if Ascii.eqb c "{" then FOpen out
      else if Ascii.eqb c "}" then FClose out
      else FLit (snoc out c)
  | FOpen out =>
      if Ascii.eqb c "{" then FLit (snoc out c) else in_name out "" c
  | FClose out =>
      if Ascii.eqb c "}" then FLit (snoc out c)
      else FFail (ValueError "Single '}' encountered in format string")
  | FName out name => in_name out name c
  | FBracket out name =>
      if Ascii.eqb c "]" then FName out (snoc name c) else FBracket out (snoc name c)
  | FConv out name => FConvEnd out name c
  | FConvEnd out name conv =>
      if Ascii.eqb c "}" then render_field out name (Some conv) ""
      else if Ascii.eqb c ":" then FSpec out name (Some conv) "" 1
      else FFail (ValueError "expected ':' after conversion specifier")
  | FSpec out name conv spec depth =>
      if Ascii.eqb c "{" then FSpec out name conv (snoc spec c) (S depth)
      else if Ascii.eqb c "}" then
        match depth with
        | 1%nat => render_field out name conv spec
        | _ => FSpec out name conv (snoc spec c) (Nat.pred depth)
        end
      else FSpec out name conv (snoc spec c) depth
  | FFail e => FFail e
  end.

Fixpoint scan (st : fstate) (tmpl : string) : fstate :=
  match tmpl with
  | EmptyString => st
  | String c tmpl' => scan (step st c) tmpl'
  end.

Definition finish (st : fstate) : result string :=
  match st with
  | FLit out => Ok out
  | FOpen _ => Raise (ValueError "Single '{' encountered in format string")
  | FClose _ => Raise (ValueError "Single '}' encountered in format string")
  | FName _ _ | FBracket _ _ => Raise (ValueError "expected '}' before end of string")
  | FConv _ _ =>
      Raise (ValueError "end of string while looking for conversion specifier")
  | FConvEnd _ _ _ | FSpec _ _ _ _ _ => Raise (ValueError "unmatched '{' in format spec")
  | FFail e => Raise e
  end.

(** [tmpl.format(input=input, output=output)] *)
Definition format (tmpl : string) : result string := finish (scan (FLit "") tmpl).

End WithFieldFormatter.

End Format.

(** ** Python values read by [json.loads] *)

Local Set Warnings "-register-all".

Inductive pyobj : Type :=
| PyNone
| PyBool (b : bool)
| PyInt (n : Z)
| PyFloat (lit : string)      (* the float that Python reads from the literal *)
| PyStr (s : string)
| PyList (items : list pyobj)
| PyDict (items : list (string * pyobj)).

(** [d[key] = v] on a dict kept in insertion order. *)
Fixpoint dict_set (d : list (string * pyobj)) (key : string) (v : pyobj)
  : list (string * pyobj) :=
  match d with
  | [] => [(key, v)]
  | (k, w) :: d' =>
      if String.eqb k key then (k, v) :: d' else (k, w) :: dict_set d' key v
  end.

(** ** Text decoding *)

Module Utf8.

Inductive ustate : Type :=
| UStart
| UCont (more : nat) (lo hi : N)   (* next byte in [lo, hi], then [more] others *)
| UBad.

Definition ustep (st : ustate) (c : ascii) : ustate :=
  let b := N_of_ascii c in
  match st with
  | UStart =>
      if (b <? 128)%N then UStart
      else if (b <? 194)%N then UBad
      else if (b <? 224)%N then UCont 0 128 191
      else if (b =? 224)%N then UCont 1 160 191
      else if (b =? 237)%N then UCont 1 128 159
      else if (b <? 240)%N then UCont 1 128 191
      else if (b =? 240)%N then UCont 2 144 191
      else if (b <? 244)%N then UCont 2 128 191
      else if (b =? 244)%N then UCont 2 128 143
      else UBad
  | UCont more lo hi =>
      if ((lo <=? b) && (b <=? hi))%N then
        match more with
        | O => UStart
        | S more' => UCont more' 128 191
        end
      else UBad
  | UBad => UBad
  end.

Fixpoint urun (st : ustate) (s : string) : ustate :=
  match s with
  | EmptyString => st
  | String c s' => urun (ustep st c) s'
  end.

(** Whether [bytes.decode] with the strict UTF-8 codec accepts the bytes. *)
Definition valid (s : string) : bool :=
  match urun UStart s with UStart => true | _ => false end.

(** The bytes of one code point; a lone surrogate is written in the same
    three-byte form. *)
Definition encode (cp : N) : string :=
  let byte n := String (ascii_of_N n) "" in
  (if cp <? 128 then byte cp
   else if cp <? 2048 then byte (192 + cp / 64) +:+ byte (128 + cp mod 64)
   else if cp <? 65536 then
     byte (224 + cp / 4096) +:+ byte (128 + (cp / 64) mod 64) +:+ byte (128 + cp mod 64)
   else
     byte (240 + cp / 262144) +:+ byte (128 + (cp / 4096) mod 64)
       +:+ byte (128 + (cp / 64) mod 64) +:+ byte (128 + cp mod 64))%N.

End Utf8.

(** ** [json.loads]

    The decoder of the standard library (the C scanner that CPython uses by
    default), read one character at a time with an explicit stack of the
    containers under construction.  An integer literal of more digits
    than the interpreter converts is refused, as [int] does; the recursion
    limit of the interpreter, which depends on the depth of the call stack,
    is not modelled. *)

Module Json.
Import PyStr.
Local Open Scope char_scope.

Inductive frame : Type :=
| FrList (items : list pyobj)
| FrDict (items : list (string * pyobj)) (key : string).

(** Inside a string literal. *)
Inductive smode : Type :=
| SChars
| SEscape
| SHex (nread : nat) (acc : N)
| SHigh (hi : N)
| SHighEscape (hi : N)
| SHighHex (hi : N) (nread : nat) (acc : N).

(** Inside a number literal. *)
Inductive nmode : Type :=
| NMinus | NZero | NInt | NDot | NFrac | NExp | NExpSign | NExpDigits.

Inductive pmode : Type :=
| PValue (may_close : bool)
| PKey (may_close : bool)
| PColon
| PAfter
| PDone (v : pyobj)
| PString (is_key : bool) (acc : string) (m : smode)
| PNumber (lit : string) (m : nmode)
| PWord (expect : string) (v : pyobj)
| PFail.

Record pstate : Type := mk_pstate { stack : list frame; mode : pmode }.

Definition fail : pstate := mk_pstate [] PFail.

Definition is_ws (c : ascii) : bool :=
  match c with
  | " " | "009" | "010" | "013" => true
  | _ => false
  end.

Definition hex_value (c : ascii) : option N :=
  let n := N_of_ascii c in
  if ((48 <=? n) && (n <=? 57))%N then Some (n - 48)%N
  else if ((65 <=? n) && (n <=? 70))%N then Some (n - 55)%N
  else if ((97 <=? n) && (n <=? 102))%N then Some (n - 87)%N
  else None.

Definition is_high_surrogate (u : N) : bool := ((55296 <=? u) && (u <=? 56319))%N.
Definition is_low_surrogate (u : N) : bool := ((56320 <=? u) && (u <=? 57343))%N.
Definition join_surrogates (hi lo : N) : N :=
  (65536 + ((hi - 55296) * 1024 + (lo - 56320)))%N.

(** A finished value goes to the innermost open container, or is the
    result. *)
Definition deliver (stk : list frame) (v : pyobj) : pstate :=
  match stk with
  | [] => mk_pstate [] (PDone v)
  | FrList items :: stk' => mk_pstate (FrList (items ++ [v]) :: stk') PAfter
  | FrDict items key :: stk' => mk_pstate (FrDict (dict_set items key v) key :: stk') PAfter
  end.

(** After a value: a separator, the end of the container, or trailing
    white space. *)
Definition after_value (st : pstate) (c : ascii) : pstate :=
  if is_ws c then st
  else
    match mode st, stack st with
    | PAfter, FrList items :: stk' =>
        match c with
        | "," => mk_pstate (stack st) (PValue false)
        | "]" => deliver stk' (PyList items)
        | _ => fail
        end
    | PAfter, FrDict items _ :: stk' =>
        match c with
        | "," => mk_pstate (stack st) (PKey false)
        | "}" => deliver stk' (PyDict items)
        | _ => fail
        end
    | _, _ => fail
    end.

Definition end_string (stk : list frame) (is_key : bool) (s : string) : pstate :=
  if is_key then
    match stk with
    | FrDict items _ :: stk' => mk_pstate (FrDict items s :: stk') PColon
    | _ => fail
    end
  else deliver stk (PyStr s).

Definition string_char (stk : list frame) (is_key : bool) (acc : string) (c : ascii)
  : pstate :=
  match c with
  | "034" => end_string stk is_key acc
  | "\" => mk_pstate stk (PString is_key acc SEscape)
  | _ =>
      if (N_of_ascii c <? 32)%N then fail
      else mk_pstate stk (PString is_key (snoc acc c) SChars)
  end.

Definition string_escape (stk : list frame) (is_key : bool) (acc : string) (c : ascii)
  : pstate :=
  let put b := mk_pstate stk (PString is_key (snoc acc b) SChars) in
  match c with
  | "034" => put "034"
  | "\" => put "\"
  | "/" => put "/"
  | "b" => put "008"
  | "f" => put "012"
  | "n" => put "010"
  | "r" => put "013"
  | "t" => put "009"
  | "u" => mk_pstate stk (PString is_key acc (SHex 0 0))
  | _ => fail
  end.

(** A decoded [\uXXXX]: a high surrogate waits for its pair. *)
Definition code_unit (stk : list frame) (is_key : bool) (acc : string) (u : N) : pstate :=
  if is_high_surrogate u then mk_pstate stk (PString is_key acc (SHigh u))
  else mk_pstate stk (PString is_key (acc +:+ Utf8.encode u) SChars).

Definition in_string (stk : list frame) (is_key : bool) (acc : string) (m : smode)
  (c : ascii) : pstate :=
  match m with
  | SChars => string_char stk is_key acc c
  | SEscape => string_escape stk is_key acc c
  | SHex nread u =>
      match hex_value c with
      | None => fail
      | Some d =>
          let u' := (16 * u + d)%N in
          match nread with
          | 3%nat => code_unit stk is_key acc u'
          | _ => mk_pstate stk (PString is_key acc (SHex (S nread) u'))
          end
      end
  | SHigh hi =>
      match c with
      | "\" => mk_pstate stk (PString is_key acc (SHighEscape hi))
      | _ => string_char stk is_key (acc +:+ Utf8.encode hi) c
      end
  | SHighEscape hi =>
      match c with
      | "u" => mk_pstate stk (PString is_key acc (SHighHex hi 0 0))
      | _ => string_escape stk is_key (acc +:+ Utf8.encode hi) c
      end
  | SHighHex hi nread u =>
      match hex_value c with
      | None => fail
      | Some d =>
          let u' := (16 * u + d)%N in
          match nread with
          | 3%nat =>
              if is_low_surrogate u' then
                mk_pstate stk
                  (PString is_key (acc +:+ Utf8.encode (join_surrogates hi u')) SChars)
              else code_unit stk is_key (acc +:+ Utf8.encode hi) u'
          | _ => mk_pstate stk (PString is_key acc (SHighHex hi (S nread) u'))
          end
      end
  end.

(** [int(lit)] for a literal matched as an integer. *)
Definition int_of_literal (lit : string) : Z :=
  match lit with
  | String "-" digits => - digits_value 0 digits
  | _ => digits_value 0 lit
  end.

(** [sys.get_int_max_str_digits()], as the interpreter starts with it. *)
Definition max_str_digits : nat := 4300.

(** The digits of an integer literal, without its sign. *)
Definition int_digits (lit : string) : nat :=
  match lit with
  | String "-" digits => String.length digits
  | _ => String.length lit
  end.

(** The value of a number literal that ends in mode [m], if it may end
    there and [int] converts it. *)
Definition number_value (lit : string) (m : nmode) : option pyobj :=
  match m with
  | NZero | NInt =>
      if (max_str_digits <? int_digits lit)%nat then None
      else Some (PyInt (int_of_literal lit))
  | NFrac | NExpDigits => Some (PyFloat lit)
  | _ => None
  end.

Definition in_number (stk : list frame) (lit : string) (m : nmode) (c : ascii) : pstate :=
  let go m' := mk_pstate stk (PNumber (snoc lit c) m') in
  let stop :=
    match number_value lit m with
    | Some v => after_value (deliver stk v) c
    | None => fail
    end in
  match m with
  | NMinus =>
      match c with
      | "0" => go NZero
      | "I" => mk_pstate stk (PWord "nfinity" (PyFloat "-Infinity"))
      | _ => if is_digit c then go NInt else fail
      end
  | NZero =>
      match c with
      | "." => go NDot
      | "e" | "E" => go NExp
      | _ => stop
      end
  | NInt =>
      match c with
      | "." => go NDot
      | "e" | "E" => go NExp
      | _ => if is_digit c then go NInt else stop
      end
  | NDot => if is_digit c then go NFrac else fail
  | NFrac =>
      match c with
      | "e" | "E" => go NExp
      | _ => if is_digit c then go NFrac else stop
      end
  | NExp =>
      match c with
      | "+" | "-" => go NExpSign
      | _ => if is_digit c then go NExpDigits else fail
      end
  | NExpSign => if is_digit c then go NExpDigits else fail
  | NExpDigits => if is_digit c then go NExpDigits else stop
  end.

Definition start_value (stk : list frame) (may_close : bool) (c : ascii) : pstate :=
  if is_ws c then mk_pstate stk (PValue may_close)
  else
    match c with
    | "034" => mk_pstate stk (PString false "" SChars)
    | "{" => mk_pstate (FrDict [] "" :: stk) (PKey true)
    | "[" => mk_pstate (FrList [] :: stk) (PValue true)
    | "]" =>
        match may_close, stk with
        | true, FrList items :: stk' => deliver stk' (PyList items)
        | _, _ => fail
        end
    | "n" => mk_pstate stk (PWord "ull" PyNone)
    | "t" => mk_pstate stk (PWord "rue" (PyBool true))
    | "f" => mk_pstate stk (PWord "alse" (PyBool false))
    | "N" => mk_pstate stk (PWord "aN" (PyFloat "NaN"))
    | "I" => mk_pstate stk (PWord "nfinity" (PyFloat "Infinity"))
    | "-" => mk_pstate stk (PNumber "-" NMinus)
    | "0" => mk_pstate stk (PNumber "0" NZero)
    | _ => if is_digit c then mk_pstate stk (PNumber (String c "") NInt) else fail
    end.

Definition start_key (stk : list frame) (may_close : bool) (c : ascii) : pstate :=
  if is_ws c then mk_pstate stk (PKey may_close)
  else
    match c with
    | "034" => mk_pstate stk (PString true "" SChars)
    | "}" =>
        match may_close, stk with
        | true, FrDict items _ :: stk' => deliver stk' (PyDict items)
        | _, _ => fail
        end
    | _ => fail
    end.

Definition step (st : pstate) (c : ascii) : pstate :=
  match mode st with
  | PValue may_close => start_value (stack st) may_close c
  | PKey may_close => start_key (stack st) may_close c
  | PColon =>
      if is_ws c then st
      else match c with
           | ":" => mk_pstate (stack st) (PValue false)
           | _ => fail
           end
  | PAfter | PDone _ => after_value st c
  | PString is_key acc m => in_string (stack st) is_key acc m c
  | PNumber lit m => in_number (stack st) lit m c
  | PWord expect v =>
      match expect with
      | String e EmptyString => if Ascii.eqb c e then deliver (stack st) v else fail
      | String e expect' =>
          if Ascii.eqb c e then mk_pstate (stack st) (PWord expect' v) else fail
      | EmptyString => fail
      end
  | PFail => fail
  end.

Fixpoint run (st : pstate) (s : string) : pstate :=
  match s with
  | EmptyString => st
  | String c s' => run (step st c) s'
  end.

(** The document is complete when one value was read and nothing but white
    space follows; a number may run up to the end of the text. *)
Definition finish (st : pstate) : result pyobj :=
  match mode st, stack st with
  | PDone v, [] => Ok v
  | PNumber lit m, [] =>
      match number_value lit m with
      | Some v => Ok v
      | None => Raise (ValueError "JSONDecodeError")
      end
  | _, _ => Raise (ValueError "JSONDecodeError")
  end.

(** [json.loads(s)] *)
Definition loads (s : string) : result pyobj := finish (run (mk_pstate [] (PValue false)) s).

(** [json.load(f)] for a file opened in text mode with [encoding="utf-8"]:
    reading decodes the bytes (and fails on bytes that are not UTF-8), the
    text is then parsed.  The newline translation of text mode maps one
    white-space character to another and is left out. *)
Definition load (content : string) : result pyobj :=
  if Utf8.valid content then loads content
  else Raise (OtherException "UnicodeDecodeError" "invalid start byte").

End Json.

(** ** [json.dumps] and the encoding of a response body

    What Starlette's [JSONResponse] does with its content when it is built:
    [json.dumps(content, ensure_ascii=False, allow_nan=False, indent=None,
    separators=(",", ":")).encode("utf-8")].  Only whether the two steps
    raise is modelled, not the bytes of the body. *)

Module Render.
Import PyStr.
Local Open Scope char_scope.

(** Decimal values from here on are read as infinity by [float]: the middle
    between the largest double and [2^1024], which rounds to even, that is,
    up. *)
Definition overflow_threshold : Z := 2 ^ 1024 - 2 ^ 970.

Inductive dphase : Type := DInt | DFrac | DExp.

(** The digits of a float literal of JSON ([-]int[.frac][e[+-]exp]) as a
    mantissa and a power of ten: the literal stands for [mant * 10 ^ pow],
    up to its sign. *)
Fixpoint decimal (ph : dphase) (mant frac : Z) (eneg : bool) (e : Z) (s : string)
  : Z * Z :=
  match s with
  | EmptyString => (mant, (if eneg then - e else e) - frac)
  | String c s' =>
      let d := Z.of_nat (nat_of_ascii c) - 48 in
      match ph with
      | DInt =>
          if is_digit c then decimal DInt (10 * mant + d) frac eneg e s'
          else match c with
               | "." => decimal DFrac mant frac eneg e s'
               | "e" | "E" => decimal DExp mant frac eneg e s'
               | _ => decimal DInt mant frac eneg e s'
               end
      | DFrac =>
          if is_digit c then decimal DFrac (10 * mant + d) (frac + 1) eneg e s'
          else match c with
               | "e" | "E" => decimal DExp mant frac eneg e s'
               | _ => decimal DFrac mant frac eneg e s'
               end
      | DExp =>
          if is_digit c then decimal DExp mant frac eneg (10 * e + d) s'
          else match c with
               | "-" => decimal DExp mant frac true e s'
               | _ => decimal DExp mant frac eneg e s'
               end
      end
  end.

(** [math.isinf(float(lit))] for a decimal literal. *)
Definition overflows (lit : string) : bool :=
  let (mant, pow) := decimal DInt 0 0 false 0 lit in
  if Z.eqb mant 0 then false
  else if Z.leb 0 pow then Z.leb overflow_threshold (mant * 10 ^ pow)
  else Z.leb (overflow_threshold * 10 ^ (- pow)) mant.

(** [math.isfinite(x)] for the float read from [lit]. *)
Definition is_finite (lit : string) : bool :=
  negb (String.eqb lit "NaN" || String.eqb lit "Infinity" || String.eqb lit "-Infinity")
  && negb (overflows lit).

(** [json.dumps(v, allow_nan=False)] does not raise: every float in [v] is
    finite. *)
Fixpoint finite_floats (v : pyobj) : bool :=
  match v with
  | PyFloat lit => is_finite lit
  | PyList items => forallb finite_floats items
  | PyDict items => forallb (fun kv => finite_floats (snd kv)) items
  | _ => true
  end.

(** [text.encode("utf-8")] does not raise: no string of [v], key or value,
    holds a lone surrogate. *)
Fixpoint encodable (v : pyobj) : bool :=
  match v with
  | PyStr s => Utf8.valid s
  | PyList items => forallb encodable items
  | PyDict items => forallb (fun kv => Utf8.valid (fst kv) && encodable (snd kv)) items
  | _ => true
  end.

End Render.

(** ** The file system, the process state and the environment *)

Inductive node : Type :=
| Dir
| File (content : string).

Inductive syscall : Type :=
| SysMkdir (path : string)
| SysOpenWrite (path : string)
| SysStat (path : string)
| SysOpenRead (path : string)
| SysRmtree (path : string).

Inductive level : Type := INFO | WARNING | ERROR.

(** The file system maps a path to its node; [spawned] lists the calls of
    [subprocess.run] (command line and timeout), [log] the records handed
    to the logger. *)
Record State : Type := mk_state {
  fs : gmap string node;
  spawned : list (string * Z);
  log : list (level * string)
}.

(** The captured output is text ([text=True]): it is given by its UTF-8
    bytes. *)
Record CompletedProcess : Type := mk_completed {
  returncode : Z;
  stdout : string;
  stderr : string
}.

(** What the program takes from its surroundings. *)
Record Env : Type := mk_env {
  (** the process environment read by [os.getenv] at import time *)
  environ : gmap string string;
  (** [subprocess.run(cmd, shell=True, capture_output=True, text=True,
      timeout=timeout)] on a file system: its result (a completed process,
      [TimeoutExpired] or another exception) and the file system the child
      leaves behind *)
  shell : string -> Z -> gmap string node -> result CompletedProcess * gmap string node;
  (** a call that the operating system refuses (permissions, a full disk) *)
  os_fault : syscall -> option exn;
  (** [str.format] on a field with accessors, a conversion or a format
      specification *)
  format_ext : string -> string -> option ascii -> string -> result string;
  (** [str(e)] for the exceptions of the libraries *)
  py_str : exn -> string
}.

Definition dq : string := String "034" "".

Definition getenv (env : Env) (name default : string) : string :=
  match environ env !! name with
  | Some v => v
  | None => default
  end.

Definition DEFAULT_INFERENCE_CMD : string :=
  "echo '{" +:+ dq +:+ "ok" +:+ dq +:+ ": true, " +:+ dq +:+ "note" +:+ dq +:+ ": "
  +:+ dq +:+ "Set INFERENCE_CMD to your CSM transcribe command" +:+ dq
  +:+ "}' > {output}".

Definition INFERENCE_CMD (env : Env) : string :=
  getenv env "INFERENCE_CMD" DEFAULT_INFERENCE_CMD.

(** [WORK_DIR], as the string of the path (taken in the form in which
    [pathlib] keeps it, and not the root directory). *)
Definition WORK_DIR (env : Env) : string := getenv env "WORK_DIR" "/tmp/csm_api".

(** [str(e)]: the message, for an exception built from one message. *)
Definition exn_str (env : Env) (e : exn) : string :=
  match e with
  | RuntimeError msg => msg
  | _ => py_str env e
  end.

(** ** Computations: state and exceptions *)

Definition M (A : Type) : Type := State -> result A * State.

Definition ret {A} (a : A) : M A := fun s => (Ok a, s).

Definition raise {A} (e : exn) : M A := fun s => (Raise e, s).

Definition bind {A B} (m : M A) (k : A -> M B) : M B :=
  fun s =>
    match m s with
    | (Ok a, s') => k a s'
    | (Raise e, s') => (Raise e, s')
    end.

Notation "'do' x <- m ; k" := (bind m (fun x => k))
  (at level 10, x name, m at level 100, k at level 200).
Notation "'do_' m ; k" := (bind m (fun _ => k))
  (at level 10, m at level 100, k at level 200).

Definition lift {A} (r : result A) : M A := fun s => (r, s).

(** [try: m  except Exception as e: h e] *)
Definition try_except {A} (m : M A) (h : exn -> M A) : M A :=
  fun s =>
    match m s with
    | (Ok a, s') => (Ok a, s')
    | (Raise e, s') => h e s'
    end.

(** [try: m  finally: c]: [c] runs on every way out of [m]; an exception
    of [c] replaces the outcome of [m]. *)
Definition try_finally {A} (m : M A) (c : M unit) : M A :=
  fun s =>
    let (r, s1) := m s in
    match c s1 with
    | (Ok _, s2) => (r, s2)
    | (Raise e, s2) => (Raise e, s2)
    end.

Definition logger (lvl : level) (msg : string) : M unit :=
  fun s => (Ok tt, mk_state (fs s) (spawned s) (log s ++ [(lvl, msg)])).

Definition get_fs : M (gmap string node) := fun s => (Ok (fs s), s).

Definition put_fs (fs' : gmap string node) : M unit :=
  fun s => (Ok tt, mk_state fs' (spawned s) (log s)).

(** The operating system may refuse the call. *)
Definition os_guard (env : Env) (c : syscall) : M unit :=
  match os_fault env c with
  | Some e => raise e
  | None => ret tt
  end.

(** ** Library calls on the file system *)

Module OS.

(** [path] lies below the directory [d]. *)
Definition under (d path : string) : bool := String.prefix (d +:+ "/") path.

(** [Path(p).parents], outermost first and without the root: the proper
    prefixes of [p] that end before a slash. *)
Fixpoint parents_from (pre rest : string) : list string :=
  match rest with
  | EmptyString => []
  | String c rest' =>
      (if (Ascii.eqb c "/" && negb (String.eqb pre ""))%bool then [pre] else [])
      ++ parents_from (PyStr.snoc pre c) rest'
  end.

Definition parents (p : string) : list string := parents_from "" p.

(** The part of [Path(p).mkdir(parents=True, exist_ok=True)] that makes the
    directories above [p]: each missing one is made with [os.mkdir], from
    the outermost on; those made stay when a later call raises. *)
Fixpoint make_parents (env : Env) (p : string) (qs : list string) : M unit :=
  match qs with
  | [] => ret tt
  | q :: qs' =>
      do m <- get_fs;
      match m !! q with
      | Some Dir => make_parents env p qs'
      | Some (File _) => raise (OSError "NotADirectoryError" p)
      | None =>
          do_ os_guard env (SysMkdir q);
          do_ put_fs (<[q := Dir]> m);
          make_parents env p qs'
      end
  end.

(** [Path(p).mkdir(parents=True, exist_ok=True)], on a file system in which
    whatever exists lies in directories that exist: a directory at [p] is
    accepted, a file is not, and where nothing is at [p] the missing
    directories above it are made before [p] itself. *)
Definition mkdir (env : Env) (p : string) : M unit :=
  do m <- get_fs;
  match m !! p with
  | Some Dir => ret tt
  | Some (File _) => raise (OSError "FileExistsError" p)
  | None =>
      do_ make_parents env p (parents p);
      do_ os_guard env (SysMkdir p);
      do m' <- get_fs;
      put_fs (<[p := Dir]> m')
  end.

(** [with open(p, "wb") as f: f.write(data)] *)
Definition write_bytes (env : Env) (p : string) (data : string) : M unit :=
  do_ os_guard env (SysOpenWrite p);
  do m <- get_fs;
  match m !! p with
  | Some Dir => raise (OSError "IsADirectoryError" p)
  | _ => put_fs (<[p := File data]> m)
  end.

(** [Path(p).stat().st_size]; the size of a directory depends on the
    platform. *)
Definition stat_size (env : Env) (p : string) : M Z :=
  do_ os_guard env (SysStat p);
  do m <- get_fs;
  match m !! p with
  | Some (File content) => ret (Z.of_nat (String.length content))
  | Some Dir => ret 4096
  | None => raise (OSError "FileNotFoundError" p)
  end.

(** [os.path.exists(p)] *)
Definition exists_ (p : string) : M bool :=
  do m <- get_fs;
  ret (match m !! p with Some _ => true | None => false end).

(** [open(p, "r", encoding="utf-8")]: the bytes that the file object will
    read. *)
Definition open_read (env : Env) (p : string) : M string :=
  do_ os_guard env (SysOpenRead p);
  do m <- get_fs;
  match m !! p with
  | Some (File content) => ret content
  | Some Dir => raise (OSError "IsADirectoryError" p)
  | None => raise (OSError "FileNotFoundError" p)
  end.

(** What is left when the tree at [d] is deleted. *)
Definition remove_tree (d : string) (m : gmap string node) : gmap string node :=
  filter (fun kv => kv.1 <> d /\ under d kv.1 = false) m.

(** [shutil.rmtree(d)].  A refused call leaves the tree as it is. *)
Definition rmtree (env : Env) (d : string) : M unit :=
  do_ os_guard env (SysRmtree d);
  do m <- get_fs;
  match m !! d with
  | Some Dir => put_fs (remove_tree d m)
  | Some (File _) => raise (OSError "NotADirectoryError" d)
  | None => raise (OSError "FileNotFoundError" d)
  end.

(** [subprocess.run(cmd, shell=True, capture_output=True, text=True,
    timeout=timeout)] *)
Definition subprocess_run (env : Env) (cmd : string) (timeout : Z) : M CompletedProcess :=
  fun s =>
    let (r, fs') := shell env cmd timeout (fs s) in
    (r, mk_state fs' (spawned s ++ [(cmd, timeout)]) (log s)).

End OS.

(** ** [pathlib]: the suffix of a file name *)

Module Pathlib.

(** The text after the last [sep] of [s], and whether there is a [sep]. *)
Fixpoint after_last (sep : ascii) (s : string) : string * bool :=
  match s with
  | EmptyString => ("", false)
  | String c s' =>
      match after_last sep s' with
      | (tail, true) => (tail, true)
      | (tail, false) => if Ascii.eqb c sep then (tail, true) else (String c tail, false)
      end
  end.

(** The parts of a POSIX path: empty parts and [.] are dropped. *)
Fixpoint parts (cur : string) (s : string) : list string :=
  let close := if (String.eqb cur "" || String.eqb cur ".")%bool then [] else [cur] in
  match s with
  | EmptyString => close
  | String c s' =>
      if Ascii.eqb c "/" then close ++ parts "" s' else parts (PyStr.snoc cur c) s'
  end.

(** [Path(p).name] *)
Definition name (p : string) : string := List.last (parts "" p) "".

(** [Path(p).suffix]: from the last dot of the name on, when that dot is
    neither the first nor the last character of the name. *)
Definition suffix (p : string) : string :=
  let n := name p in
  match after_last "." n with
  | (tail, true) =>
      let i := (String.length n - String.length tail - 1)%nat in
      if ((0 <? i)%nat && (0 <? String.length tail)%nat)%bool
      then String "." tail else ""
  | (_, false) => ""
  end.

End Pathlib.

(** ** The application: [api.py] *)


(** The response object: its content and its status. *)
Record JSONResponse : Type := mk_response {
  content : pyobj;
  status_code : Z
}.

(** The response can be built from [v]: its body renders. *)
Definition renders (v : pyobj) : bool := Render.finite_floats v && Render.encodable v.

(** [JSONResponse(value)]: the constructor renders the body at once, and
    raises what [json.dumps] or [str.encode] raises; otherwise the response
    has the default status. *)
Definition JSONResponse_of (value : pyobj) : result JSONResponse :=
  if negb (Render.finite_floats value)
  then Raise (ValueError "Out of range float values are not JSON compliant")
  else if negb (Render.encodable value)
  then Raise (OtherException "UnicodeEncodeError" "surrogates not allowed")
  else Ok (mk_response value 200).

Record UploadFile : Type := mk_upload {
  filename : option string;
  content_type : option string;
  body : string                  (* what [await file.read()] returns *)
}.

(** [s[:n]] on text: the first [n] characters (a character is one byte
    that starts it and the continuation bytes after it). *)
Fixpoint text_prefix (n : nat) (s : string) : string :=
  match s with
  | EmptyString => ""
  | String c s' =>
      if ((128 <=? N_of_ascii c) && (N_of_ascii c <? 192))%N
      then String c (text_prefix n s')
      else match n with
           | O => ""
           | S n' => String c (text_prefix n' s')
           end
  end.

(** [{"stdout": text}] *)
Definition stdout_dict (text : string) : pyobj := PyDict [("stdout", PyStr text)].

Definition placeholders_msg : string :=
  "INFERENCE_CMD must contain {input} and {output} placeholders".

Definition failed_msg (rc : Z) (err : string) : string :=
  "Inference command failed (rc=" +:+ pretty rc +:+ "): " +:+ err.


(** The [try] of [run_inference_cli]: run the command and read its result. *)
Definition run_try (env : Env) (cmd output_path : string) (timeout : Z) : M pyobj :=
  do completed <- OS.subprocess_run env cmd timeout;
  do_ logger INFO ("[stdout] " +:+ text_prefix 2000 (stdout completed));
  do_ logger INFO ("[stderr] " +:+ text_prefix 2000 (stderr completed));
  if negb (returncode completed =? 0)
  then raise (RuntimeError (failed_msg (returncode completed) (stderr completed)))
  else
    do present <- OS.exists_ output_path;
    if present then
      do f <- OS.open_read env output_path;
      try_except (lift (Json.load f)) (fun _ => ret (stdout_dict (stdout completed)))
    else
      try_except (lift (Json.loads (stdout completed)))
        (fun _ => ret (stdout_dict (stdout completed))).

Definition timed_out_msg : string := "Inference command timed out".

(** [run_inference_cli(input_path, output_path, timeout)] *)
Definition run_inference_cli (env : Env) (input_path output_path : string) (timeout : Z)
  : M pyobj :=
  if (negb (PyStr.str_in "{input}" (INFERENCE_CMD env))
      || negb (PyStr.str_in "{output}" (INFERENCE_CMD env)))%bool
  then raise (RuntimeError placeholders_msg)
  else
    do cmd <- lift (Format.format (format_ext env) input_path output_path (INFERENCE_CMD env));
    do_ logger INFO ("Running inference command: " +:+ cmd);
    try_except (run_try env cmd output_path timeout)
      (fun e =>
         match e with
         | TimeoutExpired _ _ => raise (RuntimeError timed_out_msg)
         | _ => raise e
         end).

(** The default of the [timeout] parameter. *)
Definition default_timeout : Z := 3600.

Definition req_dir_of (env : Env) (req_id : string) : string :=
  WORK_DIR env +:+ "/" +:+ req_id.

Definition input_path_of (env : Env) (req_id : string) (fname : string) : string :=
  let suffix := if PyStr.truthy (Pathlib.suffix fname) then Pathlib.suffix fname else ".wav" in
  req_dir_of env req_id +:+ "/" +:+ "input" +:+ suffix.

Definition output_path_of (env : Env) (req_id : string) : string :=
  req_dir_of env req_id +:+ "/" +:+ "out.json".

(** The body of the [try] of [infer]. *)
Definition infer_body (env : Env) (input_path output_path : string) (file : UploadFile)
  : M JSONResponse :=
  do_ OS.write_bytes env input_path (body file);
  do size <- OS.stat_size env input_path;
  if size =? 0 then raise (HTTPException 400 "Uploaded file is empty")
  else
    do result <-
      try_except (run_inference_cli env input_path output_path default_timeout)
        (fun e =>
           do_ logger ERROR "Inference failed";
           raise (HTTPException 500 ("Inference error: " +:+ exn_str env e)));
    lift (JSONResponse_of result).

(** The [finally] of [infer]: best-effort cleanup. *)
Definition cleanup (env : Env) (req_dir : string) : M unit :=
  try_except (OS.rmtree env req_dir) (fun _ => ret tt).

(** [POST /infer]; [req_id] is the value of [uuid.uuid4().hex] drawn for the
    request. *)
Definition infer (env : Env) (req_id : string) (file : UploadFile) : M JSONResponse :=
  match filename file with
  | None | Some EmptyString => raise (HTTPException 400 "No filename provided")
  | Some fname =>
      do_ match content_type file with
          | Some ct =>
              if (PyStr.truthy ct && negb (PyStr.startswith ct "audio"))%bool
              then logger WARNING ("Unexpected content-type: " +:+ ct)
              else ret tt
          | None => ret tt
          end;
      let req_dir := req_dir_of env req_id in
      do_ OS.mkdir env req_dir;
      try_finally
        (infer_body env (input_path_of env req_id fname) (output_path_of env req_id) file)
        (cleanup env req_dir)
  end.

(** What the server sends for the outcome of a handler: the status of the
    response, the status of an [HTTPException], or 500 for any other
    exception. *)
Definition http_status (r : result JSONResponse) : Z :=
  match r with
  | Ok resp => status_code resp
  | Raise (HTTPException code _) => code
  | Raise _ => 500
  end.

(** ** Requests that reach the command runner *)

(** The record that [infer] logs for the declared content type. *)
Definition content_type_warning (file : UploadFile) : list (level * string) :=
  match content_type file with
  | Some ct =>
      if (PyStr.truthy ct && negb (PyStr.startswith ct "audio"))%bool
      then [(WARNING, "Unexpected content-type: " +:+ ct)]
      else []
  | None => []
  end.

(** The scratch directory is created (or found): [mkdir] does not raise. *)
Definition scratch_created (env : Env) (req_id : string) (st : State) : bool :=
  match fst (OS.mkdir env (req_dir_of env req_id) st) with
  | Ok _ => true
  | Raise _ => false
  end.

(** The upload is persisted: neither [mkdir] nor the write nor [stat]
    raises. *)
Definition upload_persists (env : Env) (req_id fname : string) (st : State) : bool :=
  scratch_created env req_id st &&
  match os_fault env (SysOpenWrite (input_path_of env req_id fname)),
        os_fault env (SysStat (input_path_of env req_id fname)),
        fs st !! input_path_of env req_id fname with
  | None, None, (None | Some (File _)) => true
  | _, _, _ => false
  end.

(** The file system with a directory at [q], if nothing is there. *)
Definition with_dir (m : gmap string node) (q : string) : gmap string node :=
  match m !! q with
  | Some _ => m
  | None => <[q := Dir]> m
  end.

(** The file system that a [mkdir] of [d] that does not raise leaves. *)
Definition mkdir_fs (d : string) (m : gmap string node) : gmap string node :=
  match m !! d with
  | Some _ => m
  | None => <[d := Dir]> (fold_left with_dir (OS.parents d) m)
  end.

(** The state in which [infer] calls the runner. *)
Definition persisted (env : Env) (req_id fname : string) (file : UploadFile) (st : State)
  : State :=
  mk_state
    (<[input_path_of env req_id fname := File (body file)]>
       (mkdir_fs (req_dir_of env req_id) (fs st)))
    (spawned st)
    (log st ++ content_type_warning file).

(** The state after the [except] clause of [infer] has logged the failure. *)
Definition log_failure (st : State) : State :=
  mk_state (fs st) (spawned st) (log st ++ [(ERROR, "Inference failed")]).

(** How the runner reads the result of a command that has exited with
    status zero, on the file system [m] that the command left. *)
Definition read_result (env : Env) (m : gmap string node) (output_path : string)
  (completed : CompletedProcess) : result pyobj :=
  let fallback (r : result pyobj) : result pyobj :=
    match r with
    | Ok v => Ok v
    | Raise _ => Ok (stdout_dict (stdout completed))
    end in
  match m !! output_path with
  | None => fallback (Json.loads (stdout completed))
  | Some nd =>
      match os_fault env (SysOpenRead output_path), nd with
      | Some e, _ => Raise e
      | None, File f => fallback (Json.load f)
      | None, Dir => Raise (OSError "IsADirectoryError" output_path)
      end
  end.

(** The records of the logger for a completed process. *)
Definition output_log (completed : CompletedProcess) : list (level * string) :=
  [(INFO, "[stdout] " +:+ text_prefix 2000 (stdout completed));
   (INFO, "[stderr] " +:+ text_prefix 2000 (stderr completed))].

(** [part in msg], as a decomposition of [msg]. *)
Definition includes (msg part : string) : Prop :=
  exists pre post, msg = pre +:+ part +:+ post.

(** [path] is a node of the file system at or below [d]. *)
Definition in_tree (d path : string) : Prop := path = d \/ OS.under d path = true.

(** Whatever lies below [d] lies in a directory [d]. *)
Definition tree_rooted (d : string) (m : gmap string node) : Prop :=
  forall p, OS.under d p = true -> is_Some (m !! p) -> m !! d = Some Dir.

(** The state after the runner has logged the command line. *)
Definition announced (cmd : string) (st : State) : State :=
  mk_state (fs st) (spawned st) (log st ++ [(INFO, "Running inference command: " +:+ cmd)]).

(** The state after [subprocess.run] has returned [completed] and left the
    file system [m]. *)
Definition completed_state (cmd : string) (timeout : Z) (completed : CompletedProcess)
  (m : gmap string node) (st : State) : State :=
  mk_state m (spawned (announced cmd st) ++ [(cmd, timeout)])
    (log (announced cmd st) ++ output_log completed).

(** A character that goes on with a field name: not one of the characters
    at which [parse_field] stops or fails. *)
Definition field_char (c : ascii) : bool :=
  negb (Ascii.eqb c "{" || Ascii.eqb c "[" || Ascii.eqb c "}" || Ascii.eqb c ":"
        || Ascii.eqb c "!").

Fixpoint field_chars (name : string) : bool :=
  match name with
  | EmptyString => true
  | String c name' => field_char c && field_chars name'
  end.

(** A character that ends a field name. *)
Definition field_end (c : ascii) : bool :=
  Ascii.eqb c "}" || Ascii.eqb c ":" || Ascii.eqb c "!".

(** The field does not refer to [input] or [output]. *)
Definition unknown_field (name : string) : bool :=
  negb (String.eqb (Format.field_name_split name).1 "input") &&
  negb (String.eqb (Format.field_name_split name).1 "output").

(** A JSON object, as Python reads it. *)
Definition is_object (v : pyobj) : bool :=
  match v with
  | PyDict _ => true
  | _ => false
  end.

(** The state with one more record in the log. *)
Definition logged (lvl : level) (msg : string) (st : State) : State :=
  mk_state (fs st) (spawned st) (log st ++ [(lvl, msg)]).

(** Both placeholders occur in the configured template. *)
Definition has_placeholders (env : Env) : Prop :=
  PyStr.str_in "{input}" (INFERENCE_CMD env) = true /\
  PyStr.str_in "{output}" (INFERENCE_CMD env) = true.

(** The text [{"ok": true}]. *)
Definition ok_json : string := "{" +:+ dq +:+ "ok" +:+ dq +:+ ": true}".

(** The scanner states from which the field [name] is rendered, or an
    error. *)
Definition doomed (name : string) (st : Format.fstate) : Prop :=
  match st with
  | Format.FConv _ n | Format.FConvEnd _ n _ | Format.FSpec _ n _ _ _ => n = name
  | Format.FFail _ => True
  | _ => False
  end.

(** ** Sample environments and requests *)

Module Sample.

(** A value of [uuid.uuid4().hex]. *)
Definition req_id : string := "0f8fad5bd9cb469fa16570867728950e".

Definition scratch : string := "/tmp/csm_api/" +:+ req_id.
Definition in_wav : string := scratch +:+ "/input.wav".
Definition out_json : string := scratch +:+ "/out.json".

Definition clip : UploadFile := mk_upload (Some "clip.wav") (Some "audio/wav") "RIFF".
Definition empty_clip : UploadFile := mk_upload (Some "clip.wav") (Some "audio/wav") "".
Definition nameless : UploadFile := mk_upload None (Some "audio/wav") "".
Definition notes : UploadFile := mk_upload (Some "notes.wav") (Some "text/plain") "RIFF".

Definition idle : State := mk_state ∅ [] [].

Definition no_fault : syscall -> option exn := fun _ => None.

Definition locked_tree : syscall -> option exn :=
  fun c =>
    match c with
    | SysRmtree d => Some (OSError "PermissionError" d)
    | _ => None
    end.

Definition no_ext : string -> string -> option ascii -> string -> result string :=
  fun _ _ _ _ => Raise (ValueError "Invalid format specifier").

Definition show_exn (e : exn) : string :=
  match e with
  | RuntimeError msg | ValueError msg | OtherException _ msg => msg
  | KeyError key => "'" +:+ key +:+ "'"
  | IndexError i =>
      "Replacement index " +:+ pretty i +:+ " out of range for positional args tuple"
  | TimeoutExpired cmd t =>
      "Command '" +:+ cmd +:+ "' timed out after " +:+ pretty t +:+ " seconds"
  | HTTPException code detail => pretty code +:+ ": " +:+ detail
  | OSError cls f => cls +:+ ": '" +:+ f +:+ "'"
  end.

(** A child that exits with [rc] after printing [out] and [err] and
    changing the file system by [effect]. *)
Definition exits (rc : Z) (out err : string)
  (effect : gmap string node -> gmap string node)
  : string -> Z -> gmap string node -> result CompletedProcess * gmap string node :=
  fun _ _ m => (Ok (mk_completed rc out err), effect m).


Definition transcribe : string := "transcribe --in {input} --out {output}".

Definition with_cmd (tmpl : string)
  (sh : string -> Z -> gmap string node -> result CompletedProcess * gmap string node)
  (faults : syscall -> option exn) : Env :=
  mk_env {["INFERENCE_CMD" := tmpl]} sh faults no_ext show_exn.

(** The command writes [{"ok": true}] to the output path. *)
Definition env_writes_ok : Env :=
  with_cmd transcribe (exits 0 "" "" (fun m => <[out_json := File ok_json]> m)) no_fault.

(** The command prints text that is not JSON and writes no file. *)
Definition env_prints_text : Env :=
  with_cmd transcribe (exits 0 "hello world" "" (fun m => m)) no_fault.

(** The command prints a JSON array and writes no file. *)
Definition env_prints_array : Env :=
  with_cmd transcribe (exits 0 "[1, 2]" "" (fun m => m)) no_fault.

(** The command prints a JSON number that no double holds and writes no
    file. *)
Definition env_prints_huge : Env :=
  with_cmd transcribe (exits 0 "1e999" "" (fun m => m)) no_fault.

(** The command prints [NaN], which [json.loads] accepts, and writes no
    file. *)
Definition env_prints_nan : Env :=
  with_cmd transcribe (exits 0 "NaN" "" (fun m => m)) no_fault.

(** The text [{"score": NaN}]. *)
Definition nan_json : string := "{" +:+ dq +:+ "score" +:+ dq +:+ ": NaN}".

(** The command writes [{"score": NaN}] to the output path. *)
Definition env_writes_nan : Env :=
  with_cmd transcribe (exits 0 "" "" (fun m => <[out_json := File nan_json]> m)) no_fault.

(** The command prints a JSON string with the escape of a lone surrogate. *)
Definition env_prints_surrogate : Env :=
  with_cmd transcribe (exits 0 (dq +:+ "\ud800" +:+ dq) "" (fun m => m)) no_fault.

(** An integer literal of [n] digits. *)
Fixpoint nines (n : nat) : string :=
  match n with
  | O => ""
  | S n' => String "9" (nines n')
  end.

(** The command fails. *)
Definition env_fails : Env :=
  with_cmd transcribe (exits 2 "" "model not found" (fun m => m)) no_fault.


(** The template has no [{output}]. *)
Definition env_no_output : Env :=
  with_cmd "transcribe --in {input}" (exits 0 "" "" (fun m => m)) no_fault.

(** No [INFERENCE_CMD] in the environment: the default applies. *)
Definition env_default : Env :=
  mk_env ∅ (exits 0 "" "" (fun m => <[out_json := File ok_json]> m)) no_fault no_ext show_exn.

(** The command makes a directory at the output path. *)
Definition env_output_dir : Env :=
  with_cmd transcribe (exits 0 "" "" (fun m => <[out_json := Dir]> m)) no_fault.

(** The operating system refuses to delete the scratch directory. *)
Definition env_locked : Env :=
  with_cmd transcribe (exits 0 "" "" (fun m => <[out_json := File ok_json]> m)) locked_tree.

(** The template holds JSON with doubled (escaped) braces. *)
Definition env_escaped : Env :=
  with_cmd ("transcribe --opts '{{" +:+ dq +:+ "beam" +:+ dq +:+ ": 4}}' {input} {output}")
    (exits 0 "" "" (fun m => <[out_json := File ok_json]> m)) no_fault.

(** The template holds JSON with single braces. *)
Definition env_json_braces : Env :=
  with_cmd ("transcribe --opts '{" +:+ dq +:+ "beam" +:+ dq +:+ ": 4}' {input} {output}")
    (exits 0 "" "" (fun m => <[out_json := File ok_json]> m)) no_fault.

End Sample.

(** ** More of the handler: every way through a request *)

(** The state in which the [try] of [infer] starts: the warning is logged
    and the scratch directory is there. *)
Definition start_state (env : Env) (req_id : string) (file : UploadFile) (st : State)
  : State :=
  mk_state (mkdir_fs (req_dir_of env req_id) (fs st)) (spawned st)
    (log st ++ content_type_warning file).

(** The state after the upload is written to [ip]. *)
Definition written (ip : string) (file : UploadFile) (s : State) : State :=
  mk_state (<[ip := File (body file)]> (fs s)) (spawned s) (log s).

(** [isinstance(e, subprocess.TimeoutExpired)] *)
Definition is_timeout (e : exn) : bool :=
  match e with
  | TimeoutExpired _ _ => true
  | _ => false
  end.

(** What the [except] clauses of the runner make of an exception. *)
Definition reraised (e : exn) : exn :=
  if is_timeout e then RuntimeError timed_out_msg else e.

(** The text holds no [c]. *)
Fixpoint lacks (c : ascii) (s : string) : bool :=
  match s with
  | EmptyString => true
  | String x s' => negb (Ascii.eqb x c) && lacks c s'
  end.

(** The text holds no brace. *)
Definition brace_free (s : string) : bool := lacks "{" s && lacks "}" s.

(** The number of characters of a text: the bytes that start one. *)
Fixpoint text_length (s : string) : nat :=
  match s with
  | EmptyString => O
  | String c s' =>
      if ((128 <=? N_of_ascii c) && (N_of_ascii c <? 192))%N
      then text_length s'
      else S (text_length s')
  end.

(** The child process works inside the scratch directory [d] only: it
    leaves [d] a directory and every node outside of it as it was. *)
Definition child_stays_inside (env : Env) (d : string) : Prop :=
  forall cmd t m,
    m !! d = Some Dir ->
    (shell env cmd t m).2 !! d = Some Dir /\
    forall p, ~ in_tree d p -> (shell env cmd t m).2 !! p = m !! p.

Module Cases.

(** The disk is full: the write of the upload is refused. *)
Definition disk_full : syscall -> option exn :=
  fun c =>
    match c with
    | SysOpenWrite p => Some (OSError "OSError" p)
    | _ => None
    end.

Definition env_disk_full : Env :=
  Sample.with_cmd Sample.transcribe
    (Sample.exits 0 "" "" (fun m => <[Sample.out_json := File ok_json]> m)) disk_full.

(** The scratch root is read-only: [mkdir] is refused. *)
Definition read_only_root : syscall -> option exn :=
  fun c =>
    match c with
    | SysMkdir p => Some (OSError "PermissionError" p)
    | _ => None
    end.

Definition env_read_only : Env :=
  Sample.with_cmd Sample.transcribe
    (Sample.exits 0 "" "" (fun m => <[Sample.out_json := File ok_json]> m)) read_only_root.

(** [subprocess.run] cannot start the shell. *)
Definition env_no_shell : Env :=
  Sample.with_cmd Sample.transcribe
    (fun _ _ m => (Raise (OSError "FileNotFoundError" "/bin/sh"), m)) Sample.no_fault.

(** The placeholders of the template are written with doubled braces. *)
Definition env_doubled : Env :=
  Sample.with_cmd "transcribe --in {{input}} --out {{output}}"
    (Sample.exits 0 "" "" (fun m => m)) Sample.no_fault.

(** Another request's files. *)
Definition other_id : string := "7c9e6679742540de944be07fc1f90ae7".
Definition other_wav : string := "/tmp/csm_api/" +:+ other_id +:+ "/input.wav".

(** The scratch root is there, and another request is at work. *)
Definition busy : State :=
  mk_state
    (<[other_wav := File "RIFF"]>
       (<["/tmp/csm_api/" +:+ other_id := Dir]>
          (<["/tmp/csm_api" := Dir]> (<["/tmp" := Dir]> ∅)))) [] [].

(** A file stands where the scratch root should be. *)
Definition blocked : State :=
  mk_state (<["/tmp/csm_api" := File ""]> (<["/tmp" := Dir]> ∅)) [] [].

(** [/tmp] can be made, what is below it cannot. *)
Definition tmp_only : syscall -> option exn :=
  fun c =>
    match c with
    | SysMkdir p => if String.eqb p "/tmp" then None else Some (OSError "PermissionError" p)
    | _ => None
    end.

Definition env_tmp_only : Env :=
  Sample.with_cmd Sample.transcribe
    (Sample.exits 0 "" "" (fun m => <[Sample.out_json := File ok_json]> m)) tmp_only.

End Cases.

(** The state after [infer] has logged what it has to say on the content
    type. *)
Definition warned (file : UploadFile) (st : State) : State :=
  mk_state (fs st) (spawned st) (log st ++ content_type_warning file).

(** [m'] is [m] with some of the missing directories above [d] made. *)
Definition parents_made (d : string) (m m' : gmap string node) : Prop :=
  forall p,
    m' !! p = m !! p \/ (In p (OS.parents d) /\ m !! p = None /\ m' !! p = Some Dir).

(** The errors of a [mkdir] of [d] on the file system [m]: a call of
    [os.mkdir] is refused, for [d] or for a directory above it; a file
    stands at [d]; a file stands where a directory above [d] should be. *)
Definition mkdir_raises (env : Env) (d : string) (m : gmap string node) (e : exn) : Prop :=
  (exists q, (q = d \/ In q (OS.parents d)) /\ os_fault env (SysMkdir q) = Some e) \/
  ((exists f, m !! d = Some (File f)) /\ e = OSError "FileExistsError" d) \/
  ((exists q f, In q (OS.parents d) /\ m !! q = Some (File f)) /\
   e = OSError "NotADirectoryError" d).

(** ** Templates by their pieces *)

(** A piece of a command template: text without braces, one of the two
    placeholders, or an escaped brace. *)
Inductive piece : Type :=
| Text (s : string)
| Input
| Output
| LBrace
| RBrace.

(** The template that the pieces spell. *)
Fixpoint template_of (ps : list piece) : string :=
  match ps with
  | [] => ""
  | Text s :: ps' => s +:+ template_of ps'
  | Input :: ps' => "{input}" +:+ template_of ps'
  | Output :: ps' => "{output}" +:+ template_of ps'
  | LBrace :: ps' => "{{" +:+ template_of ps'
  | RBrace :: ps' => "}}" +:+ template_of ps'
  end.

(** The command line that the pieces stand for. *)
Fixpoint command_of (input output : string) (ps : list piece) : string :=
  match ps with
  | [] => ""
  | Text s :: ps' => s +:+ command_of input output ps'
  | Input :: ps' => input +:+ command_of input output ps'
  | Output :: ps' => output +:+ command_of input output ps'
  | LBrace :: ps' => "{" +:+ command_of input output ps'
  | RBrace :: ps' => "}" +:+ command_of input output ps'
  end.

(** The texts among the pieces hold no brace. *)
Fixpoint plain_pieces (ps : list piece) : bool :=
  match ps with
  | [] => true
  | Text s :: ps' => brace_free s && plain_pieces ps'
  | _ :: ps' => plain_pieces ps'
  end.

(** * Properties *)

(** ** The library models on known inputs *)

Example format_substitutes :
  Format.format Sample.no_ext "a.wav" "o.json" "run {input} > {output}"
  = Ok "run a.wav > o.json".
Proof. reflexivity. Qed.

Example format_doubled_braces :
  Format.format Sample.no_ext "a.wav" "o.json" "{{input}} }}{{" = Ok "{input} }{".
Proof. reflexivity. Qed.

Example format_positional_field :
  Format.format Sample.no_ext "a.wav" "o.json" "run {} {input}" = Raise (IndexError 0).
Proof. reflexivity. Qed.

Example format_single_brace :
  Format.format Sample.no_ext "a.wav" "o.json" "run {input} }"
  = Raise (ValueError "Single '}' encountered in format string").
Proof. reflexivity. Qed.

Example format_default_template :
  Format.format Sample.no_ext "a.wav" "o.json" DEFAULT_INFERENCE_CMD
  = Raise (KeyError (dq +:+ "ok" +:+ dq)).
Proof. reflexivity. Qed.

Example loads_object :
  Json.loads ("{" +:+ dq +:+ "a" +:+ dq +:+ ": [1, -2.5e3, null], " +:+ dq +:+ "a" +:+ dq
              +:+ ": false}")
  = Ok (PyDict [("a", PyBool false)]).
Proof. reflexivity. Qed.

Example loads_scalars :
  Json.loads " [12, -0, 1.5, NaN, -Infinity, true] "
  = Ok (PyList [PyInt 12; PyInt 0; PyFloat "1.5"; PyFloat "NaN"; PyFloat "-Infinity";
                PyBool true]).
Proof. reflexivity. Qed.

(** An integer literal is converted up to 4300 digits, whatever its sign;
    a float literal has no such bound. *)
Example long_integers_are_refused :
  Json.number_value (Sample.nines 4301) Json.NInt = None /\
  Json.number_value ("-" +:+ Sample.nines 4301) Json.NInt = None /\
  Json.int_digits ("-" +:+ Sample.nines 4300) = 4300%nat /\
  Json.number_value (Sample.nines 4301 +:+ ".0") Json.NFrac
  = Some (PyFloat (Sample.nines 4301 +:+ ".0")) /\
  Json.loads "[12345678901234567890, -7]" = Ok (PyList [PyInt 12345678901234567890; PyInt (-7)]).
Proof. repeat split; vm_compute; reflexivity. Qed.

(** The floats that [json.dumps(allow_nan=False)] accepts. *)
Example finite_literals :
  Render.is_finite "1.5" = true /\
  Render.is_finite "-2.5e3" = true /\
  Render.is_finite "1.7976931348623157e308" = true /\
  Render.is_finite "1.7976931348623158e308" = true /\
  Render.is_finite "1.7976931348623159e308" = false /\
  Render.is_finite "-1e309" = false /\
  Render.is_finite "1e999" = false /\
  Render.is_finite "0e999" = true /\
  Render.is_finite "1e-999" = true /\
  Render.is_finite "0.00001E+313" = true /\
  Render.is_finite "0.00001E+314" = false /\
  Render.is_finite "NaN" = false /\
  Render.is_finite "Infinity" = false /\
  Render.is_finite "-Infinity" = false.
Proof. repeat split; vm_compute; reflexivity. Qed.

(** What a response can be built from. *)
Example rendering :
  JSONResponse_of (PyDict [("ok", PyBool true); ("scores", PyList [PyFloat "0.25"; PyInt 3])])
  = Ok (mk_response
          (PyDict [("ok", PyBool true); ("scores", PyList [PyFloat "0.25"; PyInt 3])]) 200) /\
  JSONResponse_of (PyDict [("scores", PyList [PyFloat "0.25"; PyFloat "NaN"])])
  = Raise (ValueError "Out of range float values are not JSON compliant") /\
  JSONResponse_of (PyList [PyStr (Utf8.encode 55357)])
  = Raise (OtherException "UnicodeEncodeError" "surrogates not allowed") /\
  JSONResponse_of (PyDict [(Utf8.encode 57000, PyNone)])
  = Raise (OtherException "UnicodeEncodeError" "surrogates not allowed") /\
  JSONResponse_of (PyStr (Utf8.encode 128512)) = Ok (mk_response (PyStr (Utf8.encode 128512)) 200).
Proof. repeat split; vm_compute; reflexivity. Qed.

Example loads_rejects :
  map Json.loads ["hello world"; ""; "[1,]"; "01"; "1."; "nul"; "[1] x"]
  = repeat (Raise (ValueError "JSONDecodeError")) 7.
Proof. reflexivity. Qed.

Example loads_surrogate_pair :
  Json.loads (dq +:+ "\ud83d\ude00" +:+ dq) = Ok (PyStr (Utf8.encode 128512)).
Proof. reflexivity. Qed.

Example suffixes :
  map Pathlib.suffix ["clip.wav"; "clip"; ".hidden"; "clip."; "a/b.tar.gz"; "a.d/b"]
  = [".wav"; ""; ""; ""; ".gz"; ""].
Proof. reflexivity. Qed.

(** ** Running the computations *)

Ltac run_M := unfold bind, ret, raise, lift, try_except, logger, get_fs, put_fs, os_guard; simpl.

Section Runner.
Context (env : Env).

(** The [try] of the runner, by the outcome of [subprocess.run]. *)
Lemma run_try_raises cmd op t s e m' :
  shell env cmd t (fs s) = (Raise e, m') ->
  run_try env cmd op t s = (Raise e, mk_state m' (spawned s ++ [(cmd, t)]) (log s)).
Proof.
  intros Hsh. unfold run_try, OS.subprocess_run. run_M. rewrite Hsh. reflexivity.
Qed.

Lemma run_try_nonzero cmd op t s c m' :
  shell env cmd t (fs s) = (Ok c, m') ->
  returncode c <> 0 ->
  run_try env cmd op t s =
    (Raise (RuntimeError (failed_msg (returncode c) (stderr c))),
     mk_state m' (spawned s ++ [(cmd, t)]) (log s ++ output_log c)).
Proof.
  intros Hsh Hrc. unfold run_try, OS.subprocess_run. run_M. rewrite Hsh.
  apply Z.eqb_neq in Hrc. rewrite Hrc. simpl.
  unfold output_log. rewrite <- app_assoc. reflexivity.
Qed.

Lemma run_try_zero cmd op t s c m' :
  shell env cmd t (fs s) = (Ok c, m') ->
  returncode c = 0 ->
  run_try env cmd op t s =
    (read_result env m' op c,
     mk_state m' (spawned s ++ [(cmd, t)]) (log s ++ output_log c)).
Proof.
  intros Hsh Hrc. unfold run_try, OS.subprocess_run, OS.exists_, OS.open_read, read_result.
  run_M. rewrite Hsh, Hrc. simpl.
  unfold output_log. rewrite <- app_assoc. simpl.
  destruct (m' !! op) as [nd|] eqn:Hop; simpl.
  - destruct (os_fault env (SysOpenRead op)); simpl; [reflexivity|].
    rewrite Hop. destruct nd as [|f]; simpl; [reflexivity|].
    destruct (Json.load f); reflexivity.
  - destruct (Json.loads (stdout c)); reflexivity.
Qed.

End Runner.

Section RunnerCases.
Context (env : Env).

Lemma runner_missing ip op t s :
  PyStr.str_in "{input}" (INFERENCE_CMD env) = false \/
  PyStr.str_in "{output}" (INFERENCE_CMD env) = false ->
  run_inference_cli env ip op t s = (Raise (RuntimeError placeholders_msg), s).
Proof.
  intros H. unfold run_inference_cli.
  destruct H as [H|H]; rewrite H; simpl; [|rewrite orb_true_r]; reflexivity.
Qed.

Lemma runner_format_raises ip op t s e :
  has_placeholders env ->
  Format.format (format_ext env) ip op (INFERENCE_CMD env) = Raise e ->
  run_inference_cli env ip op t s = (Raise e, s).
Proof.
  intros [Hi Ho] Hf. unfold run_inference_cli. rewrite Hi, Ho, Hf. reflexivity.
Qed.

Lemma runner_runs ip op t s cmd :
  has_placeholders env ->
  Format.format (format_ext env) ip op (INFERENCE_CMD env) = Ok cmd ->
  run_inference_cli env ip op t s =
    match run_try env cmd op t (announced cmd s) with
    | (Raise (TimeoutExpired _ _), s') => (Raise (RuntimeError timed_out_msg), s')
    | other => other
    end.
Proof.
  intros [Hi Ho] Hf. unfold run_inference_cli. rewrite Hi, Ho, Hf. run_M.
  fold (announced cmd s).
  destruct (run_try env cmd op t (announced cmd s)) as [[v|e] s']; [reflexivity|].
  destruct e; reflexivity.
Qed.

Lemma runner_zero ip op t s cmd c m' :
  has_placeholders env ->
  Format.format (format_ext env) ip op (INFERENCE_CMD env) = Ok cmd ->
  shell env cmd t (fs s) = (Ok c, m') ->
  returncode c = 0 ->
  run_inference_cli env ip op t s =
    (match read_result env m' op c with
     | Raise (TimeoutExpired _ _) => Raise (RuntimeError timed_out_msg)
     | r => r
     end, completed_state cmd t c m' s).
Proof.
  intros Hp Hf Hsh Hrc. rewrite (runner_runs _ _ _ _ cmd Hp Hf).
  rewrite (run_try_zero env cmd op t (announced cmd s) c m' Hsh Hrc).
  fold (completed_state cmd t c m' s).
  destruct (read_result env m' op c) as [v|e]; [reflexivity|destruct e; reflexivity].
Qed.

Lemma runner_nonzero ip op t s cmd c m' :
  has_placeholders env ->
  Format.format (format_ext env) ip op (INFERENCE_CMD env) = Ok cmd ->
  shell env cmd t (fs s) = (Ok c, m') ->
  returncode c <> 0 ->
  run_inference_cli env ip op t s =
    (Raise (RuntimeError (failed_msg (returncode c) (stderr c))),
     completed_state cmd t c m' s).
Proof.
  intros Hp Hf Hsh Hrc. rewrite (runner_runs _ _ _ _ cmd Hp Hf).
  rewrite (run_try_nonzero env cmd op t (announced cmd s) c m' Hsh Hrc).
  reflexivity.
Qed.


End RunnerCases.

(** ** Cleanup *)

Section Cleanup.
Context (env : Env).

Lemma cleanup_spec d s :
  cleanup env d s =
    (Ok tt,
     match os_fault env (SysRmtree d), fs s !! d with
     | None, Some Dir => mk_state (OS.remove_tree d (fs s)) (spawned s) (log s)
     | _, _ => s
     end).
Proof.
  unfold cleanup, OS.rmtree. run_M.
  destruct (os_fault env (SysRmtree d)); simpl; [reflexivity|].
  destruct (fs s !! d) as [[|f]|]; reflexivity.
Qed.

Lemma cleanup_ok d s : fst (cleanup env d s) = Ok tt.
Proof. rewrite cleanup_spec. reflexivity. Qed.

Lemma cleanup_spawned d s : spawned (snd (cleanup env d s)) = spawned s.
Proof.
  rewrite cleanup_spec. simpl.
  destruct (os_fault env (SysRmtree d)); [reflexivity|].
  destruct (fs s !! d) as [[|f]|]; reflexivity.
Qed.

Lemma try_finally_cleanup {A} (m : M A) d s :
  try_finally m (cleanup env d) s = (fst (m s), snd (cleanup env d (snd (m s)))).
Proof.
  unfold try_finally. destruct (m s) as [r s1]. simpl.
  rewrite cleanup_spec. reflexivity.
Qed.

Lemma remove_tree_lookup d (m : gmap string node) p :
  in_tree d p -> OS.remove_tree d m !! p = None.
Proof.
  intros Hin. unfold OS.remove_tree.
  apply map_lookup_filter_None. right. intros x _ [Hne Hu]. simpl in *.
  destruct Hin as [->|Hin]; [congruence|]. rewrite Hin in Hu. discriminate.
Qed.

End Cleanup.

(** ** Paths of a request *)

Lemma append_cons (c : ascii) (a b : string) : String c a +:+ b = String c (a +:+ b).
Proof. reflexivity. Qed.

Lemma length_append_str (a b : string) :
  String.length (a +:+ b) = (String.length a + String.length b)%nat.
Proof.
  induction a as [|c a IH]; [reflexivity|].
  rewrite append_cons. simpl. rewrite IH. reflexivity.
Qed.

Lemma append_assoc_str (a b c : string) : (a +:+ b) +:+ c = a +:+ b +:+ c.
Proof.
  induction a as [|x a IH]; [reflexivity|].
  rewrite !append_cons, IH. reflexivity.
Qed.

Lemma append_slash_ne (d rest : string) : d +:+ "/" +:+ rest <> d.
Proof.
  intros H. apply (f_equal String.length) in H.
  rewrite !length_append_str in H. simpl in H. lia.
Qed.

Lemma input_path_ne env req_id fname :
  input_path_of env req_id fname <> req_dir_of env req_id.
Proof. unfold input_path_of. apply append_slash_ne. Qed.

Lemma prefix_append (a b : string) : String.prefix a (a +:+ b) = true.
Proof.
  induction a as [|c a IH]; [destruct b; reflexivity|].
  rewrite append_cons. simpl. rewrite IH.
  destruct (ascii_dec c c); [reflexivity|congruence].
Qed.

Lemma prefix_split (u p : string) : String.prefix u p = true -> exists r, p = u +:+ r.
Proof.
  revert p. induction u as [|c u IH]; intros p H; [exists p; reflexivity|].
  destruct p as [|x p]; simpl in H; [discriminate|].
  destruct (ascii_dec c x) as [->|]; [|discriminate].
  destruct (IH p H) as [r ->]. exists r. reflexivity.
Qed.

Lemma input_path_under env req_id fname :
  OS.under (req_dir_of env req_id) (input_path_of env req_id fname) = true.
Proof.
  unfold OS.under, input_path_of.
  rewrite <- append_assoc_str. apply prefix_append.
Qed.

Lemma output_path_under env req_id :
  OS.under (req_dir_of env req_id) (output_path_of env req_id) = true.
Proof.
  unfold OS.under, output_path_of.
  rewrite <- append_assoc_str. apply prefix_append.
Qed.

(** ** The directories above a path *)

Lemma parents_from_split pre s q :
  In q (OS.parents_from pre s) -> exists rest, pre +:+ s = q +:+ "/" +:+ rest.
Proof.
  revert pre. induction s as [|c s IH]; intros pre Hin; [destruct Hin|].
  simpl in Hin. apply in_app_or in Hin as [Hin|Hin].
  - destruct (Ascii.eqb c "/" && negb (String.eqb pre ""))%bool eqn:Hc; [|destruct Hin].
    destruct Hin as [<-|[]]. apply andb_true_iff in Hc as [Hc _].
    apply Ascii.eqb_eq in Hc as ->. exists s. reflexivity.
  - destruct (IH _ Hin) as [rest Hr]. exists rest. rewrite <- Hr.
    unfold PyStr.snoc. rewrite append_assoc_str. reflexivity.
Qed.

Lemma parents_split d q : In q (OS.parents d) -> exists rest, d = q +:+ "/" +:+ rest.
Proof. intros Hin. exact (parents_from_split "" d q Hin). Qed.

Lemma parents_shorter d q : In q (OS.parents d) -> (String.length q < String.length d)%nat.
Proof.
  intros Hin. destruct (parents_split d q Hin) as [rest ->].
  rewrite !length_append_str. simpl. lia.
Qed.

Lemma in_tree_longer d p : in_tree d p -> (String.length d <= String.length p)%nat.
Proof.
  intros [->|Hu]; [lia|]. unfold OS.under in Hu.
  destruct (prefix_split _ _ Hu) as [r ->]. rewrite !length_append_str. lia.
Qed.

(** A directory above [d] is not at or below [d]. *)
Lemma parents_outside d q : In q (OS.parents d) -> ~ in_tree d q.
Proof. intros Hin Ht. apply parents_shorter in Hin. apply in_tree_longer in Ht. lia. Qed.

Lemma with_dir_frame (m : gmap string node) q x :
  with_dir m q !! x = m !! x \/ (x = q /\ m !! x = None /\ with_dir m q !! x = Some Dir).
Proof.
  unfold with_dir. destruct (m !! q) eqn:Hq; [left; reflexivity|].
  destruct (decide (x = q)) as [->|Hne].
  - right. rewrite lookup_insert_eq. auto.
  - left. apply lookup_insert_ne. congruence.
Qed.

Lemma fold_with_dir_frame qs (m : gmap string node) x :
  fold_left with_dir qs m !! x = m !! x \/
  (In x qs /\ m !! x = None /\ fold_left with_dir qs m !! x = Some Dir).
Proof.
  revert m. induction qs as [|q qs IH]; intros m; [left; reflexivity|].
  simpl. destruct (IH (with_dir m q)) as [H|(Hin & Hn & Hd)].
  - rewrite H. destruct (with_dir_frame m q x) as [H'|(-> & Hn & Hd)]; [left; exact H'|].
    right. split; [left; reflexivity|]. split; [exact Hn|exact Hd].
  - destruct (with_dir_frame m q x) as [H'|(-> & Hn' & Hd')].
    + right. rewrite H' in Hn. split; [right; exact Hin|]. split; assumption.
    + congruence.
Qed.

(** [mkdir] makes directories where nothing was, at [d] and above it, and
    changes nothing else. *)
Lemma mkdir_fs_frame d (m : gmap string node) x :
  mkdir_fs d m !! x = m !! x \/
  ((x = d \/ In x (OS.parents d)) /\ m !! x = None /\ mkdir_fs d m !! x = Some Dir).
Proof.
  unfold mkdir_fs. destruct (m !! d) eqn:Hd; [left; reflexivity|].
  destruct (decide (x = d)) as [->|Hne].
  - right. rewrite lookup_insert_eq. auto.
  - rewrite lookup_insert_ne by congruence.
    destruct (fold_with_dir_frame (OS.parents d) m x) as [H|(Hin & Hn & Hx)]; [left; exact H|].
    right. auto.
Qed.

Lemma mkdir_fs_other d (m : gmap string node) p :
  p <> d -> ~ In p (OS.parents d) \/ is_Some (m !! p) -> mkdir_fs d m !! p = m !! p.
Proof.
  intros Hne Hp. destruct (mkdir_fs_frame d m p) as [H|([->|Hin] & Hn & _)];
    [exact H|congruence|].
  destruct Hp as [Hp|[nd Hp]]; [contradiction|congruence].
Qed.

(** What lies below [d] is not touched by the [mkdir] of [d]. *)
Lemma mkdir_fs_inside d (m : gmap string node) p :
  OS.under d p = true -> mkdir_fs d m !! p = m !! p.
Proof.
  intros Hu. apply mkdir_fs_other.
  - intros ->. unfold OS.under in Hu. destruct (prefix_split _ _ Hu) as [r Hr].
    apply (f_equal String.length) in Hr. rewrite !length_append_str in Hr. simpl in Hr. lia.
  - left. intros Hin. apply (parents_outside d p Hin). right. exact Hu.
Qed.

Section Mkdir.
Context (env : Env).

Lemma make_parents_spec p qs (m : gmap string node) :
  exists r m',
    (forall sp lg, OS.make_parents env p qs (mk_state m sp lg) = (r, mk_state m' sp lg)) /\
    (forall x, m' !! x = m !! x \/ (In x qs /\ m !! x = None /\ m' !! x = Some Dir)) /\
    (r = Ok tt -> m' = fold_left with_dir qs m) /\
    (forall e, r = Raise e ->
       (exists q, In q qs /\ os_fault env (SysMkdir q) = Some e) \/
       ((exists q f, In q qs /\ m !! q = Some (File f)) /\
        e = OSError "NotADirectoryError" p)).
Proof.
  revert m. induction qs as [|q qs IH]; intros m.
  - exists (Ok tt), m. split; [reflexivity|]. split; [left; reflexivity|].
    split; [reflexivity|discriminate].
  - destruct (m !! q) as [[|f]|] eqn:Hq.
    + destruct (IH m) as (r & m' & Hrun & Hfr & Hok & Hraise). exists r, m'.
      split; [|split; [|split]].
      * intros sp lg. cbn [OS.make_parents]. run_M. rewrite Hq. apply Hrun.
      * intros x. destruct (Hfr x) as [H|(Hin & H)]; [left; exact H|].
        right. split; [right; exact Hin|exact H].
      * intros Hr. simpl. unfold with_dir at 2. rewrite Hq. apply Hok, Hr.
      * intros e He. destruct (Hraise e He) as [(q' & Hin & Hf)|[(q' & f & Hin & Hf) ->]].
        -- left. exists q'. split; [right; exact Hin|exact Hf].
        -- right. split; [|reflexivity]. exists q', f. split; [right; exact Hin|exact Hf].
    + exists (Raise (OSError "NotADirectoryError" p)), m.
      split; [|split; [|split]].
      * intros sp lg. cbn [OS.make_parents]. run_M. rewrite Hq. reflexivity.
      * left. reflexivity.
      * discriminate.
      * intros e [= <-]. right. split; [|reflexivity].
        exists q, f. split; [left; reflexivity|exact Hq].
    + destruct (os_fault env (SysMkdir q)) as [e0|] eqn:Hf.
      * exists (Raise e0), m. split; [|split; [|split]].
        -- intros sp lg. cbn [OS.make_parents]. run_M. rewrite Hq. run_M. rewrite Hf.
           reflexivity.
        -- left. reflexivity.
        -- discriminate.
        -- intros e [= <-]. left. exists q. split; [left; reflexivity|exact Hf].
      * destruct (IH (<[q := Dir]> m)) as (r & m' & Hrun & Hfr & Hok & Hraise).
        exists r, m'. split; [|split; [|split]].
        -- intros sp lg. cbn [OS.make_parents]. run_M. rewrite Hq. run_M. rewrite Hf.
           simpl. apply Hrun.
        -- intros x. destruct (decide (x = q)) as [->|Hne].
           ++ right. split; [left; reflexivity|]. split; [exact Hq|].
              destruct (Hfr q) as [H|(_ & H & _)]; rewrite lookup_insert_eq in H;
                [exact H|discriminate].
           ++ destruct (Hfr x) as [H|(Hin & Hn & Hd)];
                rewrite lookup_insert_ne in * by congruence; [left; exact H|].
              right. split; [right; exact Hin|]. split; assumption.
        -- intros Hr. simpl. unfold with_dir at 2. rewrite Hq. apply Hok, Hr.
        -- intros e He. destruct (Hraise e He) as [(q' & Hin & Hf')|[(q' & f & Hin & Hf') ->]].
           ++ left. exists q'. split; [right; exact Hin|exact Hf'].
           ++ right. split; [|reflexivity]. exists q', f. split; [right; exact Hin|].
              destruct (decide (q' = q)) as [->|Hne].
              ** rewrite lookup_insert_eq in Hf'. discriminate.
              ** rewrite lookup_insert_ne in Hf' by congruence. exact Hf'.
Qed.

(** [mkdir], by its outcome: the result and the file system left depend on
    the file system only. *)
Lemma mkdir_spec d (m : gmap string node) :
  exists r m',
    (forall sp lg, OS.mkdir env d (mk_state m sp lg) = (r, mk_state m' sp lg)) /\
    (r = Ok tt -> m' = mkdir_fs d m /\ m' !! d = Some Dir) /\
    (forall e, r = Raise e ->
       m' !! d = m !! d /\ parents_made d m m' /\ mkdir_raises env d m e).
Proof.
  destruct (m !! d) as [[|f]|] eqn:Hd.
  - exists (Ok tt), m. split; [|split].
    + intros sp lg. unfold OS.mkdir. run_M. rewrite Hd. reflexivity.
    + intros _. unfold mkdir_fs. rewrite Hd. auto.
    + discriminate.
  - exists (Raise (OSError "FileExistsError" d)), m. split; [|split].
    + intros sp lg. unfold OS.mkdir. run_M. rewrite Hd. reflexivity.
    + discriminate.
    + intros e [= <-]. split; [congruence|]. split; [intros x; left; reflexivity|].
      right. left. split; [exists f; exact Hd|reflexivity].
  - destruct (make_parents_spec d (OS.parents d) m) as (r & m1 & Hrun & Hfr & Hok & Hraise).
    assert (Hd1 : m1 !! d = None).
    { destruct (Hfr d) as [H|(Hin & _)]; [congruence|].
      apply parents_shorter in Hin. lia. }
    destruct r as [[]|e1].
    + destruct (os_fault env (SysMkdir d)) as [e0|] eqn:Hf.
      * exists (Raise e0), m1. split; [|split].
        -- intros sp lg. unfold OS.mkdir. run_M. rewrite Hd, Hrun. simpl. rewrite Hf.
           reflexivity.
        -- discriminate.
        -- intros e [= <-]. split; [congruence|]. split; [exact Hfr|].
           left. exists d. split; [left; reflexivity|exact Hf].
      * exists (Ok tt), (<[d := Dir]> m1). split; [|split].
        -- intros sp lg. unfold OS.mkdir. run_M. rewrite Hd, Hrun. simpl. rewrite Hf.
           reflexivity.
        -- intros _. unfold mkdir_fs. rewrite Hd, (Hok eq_refl).
           split; [reflexivity|apply lookup_insert_eq].
        -- discriminate.
    + exists (Raise e1), m1. split; [|split].
      * intros sp lg. unfold OS.mkdir. run_M. rewrite Hd, Hrun. reflexivity.
      * discriminate.
      * intros e [= <-]. split; [congruence|]. split; [exact Hfr|].
        destruct (Hraise e1 eq_refl) as [(q & Hin & Hf)|[H ->]].
        -- left. exists q. split; [right; exact Hin|exact Hf].
        -- right. right. split; [exact H|reflexivity].
Qed.

Lemma mkdir_created req_id st :
  scratch_created env req_id st = true ->
  (forall sp lg,
      OS.mkdir env (req_dir_of env req_id) (mk_state (fs st) sp lg) =
        (Ok tt, mk_state (mkdir_fs (req_dir_of env req_id) (fs st)) sp lg)) /\
  mkdir_fs (req_dir_of env req_id) (fs st) !! req_dir_of env req_id = Some Dir.
Proof.
  intros Hc. unfold scratch_created in Hc.
  destruct (mkdir_spec (req_dir_of env req_id) (fs st)) as (r & m' & Hrun & Hok & _).
  destruct st as [m sp0 lg0]. simpl in *. rewrite Hrun in Hc.
  destruct r as [[]|e]; [|discriminate].
  destruct (Hok eq_refl) as [-> Hd]. split; [exact Hrun|exact Hd].
Qed.

Lemma mkdir_not_created req_id st :
  scratch_created env req_id st = false ->
  exists e m',
    (forall sp lg,
        OS.mkdir env (req_dir_of env req_id) (mk_state (fs st) sp lg) =
          (Raise e, mk_state m' sp lg)) /\
    m' !! req_dir_of env req_id = fs st !! req_dir_of env req_id /\
    parents_made (req_dir_of env req_id) (fs st) m' /\
    mkdir_raises env (req_dir_of env req_id) (fs st) e.
Proof.
  intros Hc. unfold scratch_created in Hc.
  destruct (mkdir_spec (req_dir_of env req_id) (fs st)) as (r & m' & Hrun & _ & Hraise).
  destruct st as [m sp0 lg0]. simpl in *. rewrite Hrun in Hc.
  destruct r as [[]|e]; [discriminate|].
  exists e, m'. split; [exact Hrun|]. apply Hraise. reflexivity.
Qed.

End Mkdir.

(** ** The response *)

Lemma JSONResponse_of_renders v :
  renders v = true -> JSONResponse_of v = Ok (mk_response v 200).
Proof.
  unfold renders, JSONResponse_of. intros H. apply andb_true_iff in H as [-> ->].
  reflexivity.
Qed.

(** A result that does not render is an error that is not an
    [HTTPException]: the server answers 500. *)
Lemma JSONResponse_of_raises v :
  renders v = false ->
  exists e, JSONResponse_of v = Raise e /\ http_status (Raise e) = 500.
Proof.
  unfold renders, JSONResponse_of. intros H.
  destruct (Render.finite_floats v); simpl in *; [|eexists; split; reflexivity].
  rewrite H. simpl. eexists; split; reflexivity.
Qed.

Lemma JSONResponse_of_inv v resp :
  JSONResponse_of v = Ok resp -> resp = mk_response v 200 /\ renders v = true.
Proof.
  intros H. destruct (renders v) eqn:Hr.
  - rewrite (JSONResponse_of_renders v Hr) in H. injection H as <-. auto.
  - destruct (JSONResponse_of_raises v Hr) as (e & He & _). congruence.
Qed.

Lemma JSONResponse_of_status v :
  http_status (JSONResponse_of v) = 200 \/ http_status (JSONResponse_of v) = 500.
Proof.
  destruct (renders v) eqn:Hr.
  - left. rewrite (JSONResponse_of_renders v Hr). reflexivity.
  - right. destruct (JSONResponse_of_raises v Hr) as (e & -> & He). exact He.
Qed.

(** ** The handler up to the call of the runner *)

Section Handler.
Context (env : Env).

Lemma infer_no_filename req_id file st :
  filename file = None \/ filename file = Some "" ->
  infer env req_id file st = (Raise (HTTPException 400 "No filename provided"), st).
Proof. intros [H|H]; unfold infer; rewrite H; reflexivity. Qed.

(** With a file name, [infer] logs the content-type warning and goes on
    with [mkdir]. *)
Lemma infer_mkdir req_id fname file st :
  filename file = Some fname -> fname <> "" ->
  infer env req_id file st =
    bind (OS.mkdir env (req_dir_of env req_id))
      (fun _ =>
         try_finally
           (infer_body env (input_path_of env req_id fname) (output_path_of env req_id) file)
           (cleanup env (req_dir_of env req_id)))
      (warned file st).
Proof.
  intros Hf Hne. unfold infer. rewrite Hf.
  destruct fname as [|c0 fname]; [congruence|].
  unfold warned, content_type_warning.
  destruct st as [m sp lg]. simpl.
  assert (Hlog : forall (b : bool) (msg : string) (k : unit -> M JSONResponse),
    bind (if b then logger WARNING msg else ret tt) k (mk_state m sp lg) =
    k tt (mk_state m sp (lg ++ (if b then [(WARNING, msg)] else [])))).
  { intros [] msg k; run_M; [reflexivity|]. rewrite app_nil_r. reflexivity. }
  destruct (content_type file) as [ct|].
  - rewrite Hlog. reflexivity.
  - unfold bind at 1, ret. rewrite app_nil_r. reflexivity.
Qed.

(** When [mkdir] raises, its error leaves the handler after the
    content-type warning: nothing is written, nothing runs and nothing is
    removed; directories above the scratch directory that were made are
    left. *)
Lemma infer_not_created req_id fname st :
  fname <> "" ->
  scratch_created env req_id st = false ->
  exists e m',
    (forall file,
        filename file = Some fname ->
        infer env req_id file st =
          (Raise e, mk_state m' (spawned st) (log st ++ content_type_warning file))) /\
    m' !! req_dir_of env req_id = fs st !! req_dir_of env req_id /\
    parents_made (req_dir_of env req_id) (fs st) m' /\
    mkdir_raises env (req_dir_of env req_id) (fs st) e.
Proof.
  intros Hne Hc.
  destruct (mkdir_not_created env req_id st Hc) as (e & m' & Hrun & Hrest).
  exists e, m'. split; [|exact Hrest].
  intros file Hf. rewrite (infer_mkdir req_id fname file st Hf Hne).
  unfold bind, warned. rewrite Hrun. reflexivity.
Qed.

(** With a file name, [infer] logs the content-type warning, creates the
    scratch directory and runs its [try] and [finally]. *)
Lemma infer_created req_id fname file st :
  filename file = Some fname -> fname <> "" ->
  scratch_created env req_id st = true ->
  infer env req_id file st =
    try_finally
      (infer_body env (input_path_of env req_id fname) (output_path_of env req_id) file)
      (cleanup env (req_dir_of env req_id))
      (mk_state (mkdir_fs (req_dir_of env req_id) (fs st)) (spawned st)
         (log st ++ content_type_warning file)).
Proof.
  intros Hf Hne Hc. rewrite (infer_mkdir req_id fname file st Hf Hne).
  destruct (mkdir_created env req_id st Hc) as [Hrun _].
  unfold bind, warned. rewrite Hrun. reflexivity.
Qed.

Lemma upload_created req_id fname st :
  upload_persists env req_id fname st = true -> scratch_created env req_id st = true.
Proof. unfold upload_persists. intros H. apply andb_true_iff in H. tauto. Qed.

(** The [try] of [infer] once the upload is on disk. *)
Lemma infer_body_persisted req_id fname file st :
  upload_persists env req_id fname st = true ->
  infer_body env (input_path_of env req_id fname) (output_path_of env req_id) file
    (mk_state (mkdir_fs (req_dir_of env req_id) (fs st)) (spawned st)
       (log st ++ content_type_warning file)) =
  match body file with
  | EmptyString =>
      (Raise (HTTPException 400 "Uploaded file is empty"), persisted env req_id fname file st)
  | _ =>
      match run_inference_cli env (input_path_of env req_id fname)
              (output_path_of env req_id) default_timeout
              (persisted env req_id fname file st) with
      | (Ok v, s3) => (JSONResponse_of v, s3)
      | (Raise e, s3) =>
          (Raise (HTTPException 500 ("Inference error: " +:+ exn_str env e)), log_failure s3)
      end
  end.
Proof.
  intros Hp. unfold upload_persists in Hp. apply andb_true_iff in Hp as [_ Hp].
  set (d := req_dir_of env req_id) in *.
  set (ip := input_path_of env req_id fname) in *.
  set (op := output_path_of env req_id) in *.
  destruct (os_fault env (SysOpenWrite ip)) eqn:Hw; [discriminate|].
  destruct (os_fault env (SysStat ip)) eqn:Hs; [discriminate|].
  assert (Hip : mkdir_fs d (fs st) !! ip = fs st !! ip)
    by (apply mkdir_fs_inside, input_path_under).
  unfold infer_body, OS.write_bytes, OS.stat_size, persisted. fold d ip op.
  run_M. rewrite Hw. simpl. rewrite Hip.
  assert (Hwrite : forall X (a b : X),
     match fs st !! ip with Some Dir => a | _ => b end = b).
  { intros X a b. destruct (fs st !! ip) as [[|f]|]; try discriminate; reflexivity. }
  rewrite Hwrite. rewrite Hs. simpl. rewrite lookup_insert_eq.
  destruct (body file) as [|c0 b] eqn:Hb; simpl; [reflexivity|].
  destruct (run_inference_cli env ip op default_timeout _) as [[v|e] s3]; reflexivity.
Qed.

End Handler.

Section Outcome.
Context (env : Env).

(** A request with a file name and a non-empty body that is persisted
    reaches the runner; the response is built from what the runner returns
    or raises, and the cleanup runs on the state the runner left. *)
Lemma infer_outcome req_id fname file st :
  filename file = Some fname -> fname <> "" -> body file <> "" ->
  upload_persists env req_id fname st = true ->
  infer env req_id file st =
    match run_inference_cli env (input_path_of env req_id fname)
            (output_path_of env req_id) default_timeout
            (persisted env req_id fname file st) with
    | (Ok v, s3) =>
        (JSONResponse_of v, snd (cleanup env (req_dir_of env req_id) s3))
    | (Raise e, s3) =>
        (Raise (HTTPException 500 ("Inference error: " +:+ exn_str env e)),
         snd (cleanup env (req_dir_of env req_id) (log_failure s3)))
    end.
Proof.
  intros Hf Hne Hb Hp.
  rewrite (infer_created env req_id fname file st Hf Hne (upload_created env _ _ _ Hp)).
  rewrite try_finally_cleanup, (infer_body_persisted env req_id fname file st Hp).
  destruct (body file) as [|c0 b]; [congruence|].
  destruct (run_inference_cli env _ _ default_timeout _) as [[v|e] s3]; reflexivity.
Qed.

Lemma infer_empty req_id fname file st :
  filename file = Some fname -> fname <> "" -> body file = "" ->
  upload_persists env req_id fname st = true ->
  infer env req_id file st =
    (Raise (HTTPException 400 "Uploaded file is empty"),
     snd (cleanup env (req_dir_of env req_id) (persisted env req_id fname file st))).
Proof.
  intros Hf Hne Hb Hp.
  rewrite (infer_created env req_id fname file st Hf Hne (upload_created env _ _ _ Hp)).
  rewrite try_finally_cleanup, (infer_body_persisted env req_id fname file st Hp).
  rewrite Hb. reflexivity.
Qed.

Lemma run_try_spawned cmd op t s :
  spawned (snd (run_try env cmd op t s)) = spawned s ++ [(cmd, t)].
Proof.
  destruct (shell env cmd t (fs s)) as [[c|e] m'] eqn:Hsh.
  - destruct (Z.eq_dec (returncode c) 0) as [Hrc|Hrc].
    + rewrite (run_try_zero env cmd op t s c m' Hsh Hrc). reflexivity.
    + rewrite (run_try_nonzero env cmd op t s c m' Hsh Hrc). reflexivity.
  - rewrite (run_try_raises env cmd op t s e m' Hsh). reflexivity.
Qed.

Lemma runner_spawned ip op t s cmd :
  has_placeholders env ->
  Format.format (format_ext env) ip op (INFERENCE_CMD env) = Ok cmd ->
  spawned (snd (run_inference_cli env ip op t s)) = spawned s ++ [(cmd, t)].
Proof.
  intros Hp Hf. rewrite (runner_runs env ip op t s cmd Hp Hf).
  pose proof (run_try_spawned cmd op t (announced cmd s)) as H.
  destruct (run_try env cmd op t (announced cmd s)) as [[v|e] s']; simpl in *;
    [exact H|destruct e; exact H].
Qed.

End Outcome.

Lemma includes_intro (pre part post : string) : includes (pre +:+ part +:+ post) part.
Proof. exists pre, post. reflexivity. Qed.

Lemma includes_suffix (pre part : string) : includes (pre +:+ part) part.
Proof.
  exists pre, "". f_equal. induction part as [|c p IH]; [reflexivity|].
  rewrite append_cons. f_equal. exact IH.
Qed.

Lemma includes_append_l (pre msg part : string) :
  includes msg part -> includes (pre +:+ msg) part.
Proof.
  intros (a & b & ->). exists (pre +:+ a), b. rewrite append_assoc_str. reflexivity.
Qed.

(** ** The scanner of [str.format] *)

Section Scanner.
Context (fe : string -> string -> option ascii -> string -> result string).
Context (i o : string).

Local Abbreviation scan := (Format.scan fe i o).
Local Abbreviation step := (Format.step fe i o).
Local Abbreviation render_field := (Format.render_field fe i o).

Lemma scan_app st a b : scan st (a +:+ b) = scan (scan st a) b.
Proof.
  revert st. induction a as [|c a IH]; intros st; [reflexivity|].
  rewrite append_cons. simpl. apply IH.
Qed.

Lemma format_ok_scan tmpl s :
  Format.format fe i o tmpl = Ok s -> scan (Format.FLit "") tmpl = Format.FLit s.
Proof.
  unfold Format.format. destruct (scan (Format.FLit "") tmpl); simpl; congruence.
Qed.

(** A field that names neither keyword raises when it is rendered. *)
Lemma unknown_field_raises name :
  unknown_field name = true ->
  forall out conv spec, exists e, render_field out name conv spec = Format.FFail e.
Proof.
  unfold unknown_field, Format.render_field. intros H out conv spec.
  destruct (Format.field_name_split name) as [first rest]. simpl in H.
  apply andb_true_iff in H as [Hi Ho].
  apply negb_true_iff in Hi, Ho.
  unfold Format.get_field_object. rewrite Hi, Ho.
  destruct first as [|c first]; [eexists; reflexivity|].
  destruct (PyStr.all_digits (String c first));
    [destruct (Format.PY_SSIZE_T_MAX <? _)|]; eexists; reflexivity.
Qed.

Lemma field_char_in_name out name c :
  field_char c = true ->
  Format.in_name fe i o out name c = Format.FName out (PyStr.snoc name c).
Proof.
  unfold field_char, Format.in_name. intros H. apply negb_true_iff in H.
  repeat (apply orb_false_iff in H as [H ?]).
  destruct (Ascii.eqb c "{"); [discriminate|].
  destruct (Ascii.eqb c "["); [discriminate|].
  destruct (Ascii.eqb c "}"); [discriminate|].
  destruct (Ascii.eqb c ":"); [discriminate|].
  destruct (Ascii.eqb c "!"); [discriminate|]. reflexivity.
Qed.

Lemma snoc_append acc c rest : PyStr.snoc acc c +:+ rest = acc +:+ String c rest.
Proof. unfold PyStr.snoc. rewrite append_assoc_str. reflexivity. Qed.

Lemma scan_name out acc name :
  field_chars name = true ->
  scan (Format.FName out acc) name = Format.FName out (acc +:+ name).
Proof.
  revert acc. induction name as [|c name IH]; intros acc H.
  - simpl. f_equal. clear. induction acc as [|x acc IH]; [reflexivity|].
    rewrite append_cons. f_equal. exact IH.
  - simpl in H. apply andb_true_iff in H as [Hc Hn]. simpl.
    rewrite (field_char_in_name out acc c Hc), (IH _ Hn), snoc_append. reflexivity.
Qed.

Lemma doomed_step name st c :
  unknown_field name = true -> doomed name st -> doomed name (step st c).
Proof.
  intros Hu Hd. destruct st; simpl in Hd; try contradiction; subst; simpl.
  - reflexivity.
  - destruct (Ascii.eqb c "}").
    + destruct (unknown_field_raises name Hu out (Some conv) "") as [e ->]. exact I.
    + destruct (Ascii.eqb c ":"); [reflexivity|exact I].
  - destruct (Ascii.eqb c "{"); [reflexivity|].
    destruct (Ascii.eqb c "}"); [|reflexivity].
    destruct depth as [|[|depth]]; try reflexivity.
    destruct (unknown_field_raises name Hu out conv spec) as [e ->]. exact I.
  - exact I.
Qed.

Lemma doomed_scan name st s :
  unknown_field name = true -> doomed name st -> doomed name (scan st s).
Proof.
  intros Hu. revert st. induction s as [|c s IH]; intros st Hd; [exact Hd|].
  simpl. apply IH, doomed_step; assumption.
Qed.

Lemma doomed_finish name st : doomed name st -> exists e, Format.finish st = Raise e.
Proof. destruct st; simpl; try contradiction; intros _; eexists; reflexivity. Qed.

Lemma doomed_after_name name out c :
  unknown_field name = true -> field_end c = true ->
  doomed name (Format.in_name fe i o out name c).
Proof.
  intros Hu Hc. unfold Format.in_name, field_end in *.
  destruct (Ascii.eqb c "{") eqn:E1; [exact I|].
  destruct (Ascii.eqb c "[") eqn:E2.
  { apply Ascii.eqb_eq in E2. subst c. discriminate. }
  destruct (Ascii.eqb c "}").
  { destruct (unknown_field_raises name Hu out None "") as [e ->]. exact I. }
  destruct (Ascii.eqb c ":"); [reflexivity|].
  destruct (Ascii.eqb c "!"); [reflexivity|discriminate].
Qed.

(** A template whose text, after a well-formed beginning, opens a field
    that names neither [input] nor [output] does not format. *)
Lemma format_unknown_field pre name c post s0 :
  Format.format fe i o pre = Ok s0 ->
  field_chars name = true -> unknown_field name = true -> field_end c = true ->
  exists e, Format.format fe i o (pre +:+ "{" +:+ name +:+ String c post) = Raise e.
Proof.
  intros Hpre Hn Hu Hc. unfold Format.format.
  rewrite scan_app, (format_ok_scan pre s0 Hpre).
  change ("{" +:+ name +:+ String c post) with (String "{" (name +:+ String c post)).
  simpl.
  apply (doomed_finish name).
  assert (Hend : forall st, doomed name st -> doomed name (scan st post))
    by (intros st; apply doomed_scan; exact Hu).
  destruct name as [|n0 name].
  - simpl.
    assert (Hne : Ascii.eqb c "{" = false).
    { unfold field_end in Hc. destruct (Ascii.eqb c "{") eqn:E; [|reflexivity].
      apply Ascii.eqb_eq in E. subst c. discriminate. }
    rewrite Hne. apply Hend, doomed_after_name; assumption.
  - rewrite append_cons. simpl.
    simpl in Hn. apply andb_true_iff in Hn as [Hn0 Hn].
    assert (Hne : Ascii.eqb n0 "{" = false).
    { unfold field_char in Hn0. destruct (Ascii.eqb n0 "{"); [discriminate|reflexivity]. }
    rewrite Hne, (field_char_in_name s0 "" n0 Hn0), scan_app, (scan_name _ _ _ Hn).
    simpl. apply Hend.
    replace (PyStr.snoc "" n0 +:+ name) with (String n0 name) by reflexivity.
    apply doomed_after_name; assumption.
Qed.

End Scanner.

(** * The claims *)


(** C3: when the command template lacks [{input}] or [{output}], the runner
    raises the configuration error at once, in the state in which it was
    called (so no child process is spawned), and [/infer] answers a
    persisted non-empty upload with 500 and the message about the missing
    placeholders. *)
Theorem missing_placeholder_is_config_error (env : Env) (req_id fname : string)
  (file : UploadFile) (st : State) :
  PyStr.str_in "{input}" (INFERENCE_CMD env) = false \/
  PyStr.str_in "{output}" (INFERENCE_CMD env) = false ->
  filename file = Some fname -> fname <> "" -> body file <> "" ->
  upload_persists env req_id fname st = true ->
  (forall ip op t s,
      run_inference_cli env ip op t s = (Raise (RuntimeError placeholders_msg), s)) /\
  fst (infer env req_id file st) =
    Raise (HTTPException 500
             "Inference error: INFERENCE_CMD must contain {input} and {output} placeholders") /\
  http_status (fst (infer env req_id file st)) = 500 /\
  spawned (snd (infer env req_id file st)) = spawned st.
Proof.
  intros Hmiss Hf Hne Hb Hp.
  assert (Hrun : forall ip op t s,
    run_inference_cli env ip op t s = (Raise (RuntimeError placeholders_msg), s))
    by (intros; apply runner_missing; exact Hmiss).
  split; [exact Hrun|].
  rewrite (infer_outcome env req_id fname file st Hf Hne Hb Hp), Hrun. simpl.
  repeat split. rewrite cleanup_spawned. reflexivity.
Qed.

Lemma missing_placeholder_witness :
  fst (infer Sample.env_no_output Sample.req_id Sample.clip Sample.idle) =
    Raise (HTTPException 500
             "Inference error: INFERENCE_CMD must contain {input} and {output} placeholders") /\
  spawned (snd (infer Sample.env_no_output Sample.req_id Sample.clip Sample.idle)) = [].
Proof.
  pose proof (missing_placeholder_is_config_error Sample.env_no_output Sample.req_id
                "clip.wav" Sample.clip Sample.idle) as H.
  destruct H as (_ & H1 & _ & H2).
  - right. vm_compute. reflexivity.
  - reflexivity.
  - discriminate.
  - discriminate.
  - vm_compute. reflexivity.
  - split; [exact H1|exact H2].
Defined.

(** C5: whenever the child process exits with a non-zero status, the runner
    raises an error whose message holds the exit code and the captured
    standard error, and [/infer] answers 500 with a detail that holds the
    captured standard error. *)
Theorem nonzero_exit_is_reported (env : Env) (ip op : string) (t : Z) (s : State)
  (cmd : string) (c : CompletedProcess) (m' : gmap string node) :
  has_placeholders env ->
  Format.format (format_ext env) ip op (INFERENCE_CMD env) = Ok cmd ->
  shell env cmd t (fs s) = (Ok c, m') ->
  returncode c <> 0 ->
  let msg := "Inference command failed (rc=" +:+ pretty (returncode c) +:+ "): " +:+ stderr c in
  fst (run_inference_cli env ip op t s) = Raise (RuntimeError msg) /\
  includes msg (pretty (returncode c)) /\
  includes msg (stderr c) /\
  (forall req_id fname file st,
      ip = input_path_of env req_id fname -> op = output_path_of env req_id ->
      t = default_timeout -> s = persisted env req_id fname file st ->
      filename file = Some fname -> fname <> "" -> body file <> "" ->
      upload_persists env req_id fname st = true ->
      fst (infer env req_id file st) =
        Raise (HTTPException 500 ("Inference error: " +:+ msg)) /\
      includes ("Inference error: " +:+ msg) (stderr c)).
Proof.
  intros Hp Hfmt Hsh Hrc msg.
  pose proof (runner_nonzero env ip op t s cmd c m' Hp Hfmt Hsh Hrc) as Hrun.
  fold (failed_msg (returncode c) (stderr c)) in msg.
  assert (Herr : includes msg (stderr c)).
  { unfold msg, failed_msg. rewrite <- !append_assoc_str. apply includes_suffix. }
  split; [rewrite Hrun; reflexivity|].
  split; [apply includes_intro|].
  split; [exact Herr|].
  intros req_id fname file st -> -> -> -> Hf Hne Hb Hup.
  split; [|apply includes_append_l; exact Herr].
  rewrite (infer_outcome env req_id fname file st Hf Hne Hb Hup), Hrun. reflexivity.
Qed.

Lemma nonzero_exit_witness :
  fst (infer Sample.env_fails Sample.req_id Sample.clip Sample.idle) =
    Raise (HTTPException 500
             "Inference error: Inference command failed (rc=2): model not found").
Proof.
  pose proof (nonzero_exit_is_reported Sample.env_fails Sample.in_wav Sample.out_json
                default_timeout
                (persisted Sample.env_fails Sample.req_id "clip.wav" Sample.clip Sample.idle)
                ("transcribe --in " +:+ Sample.in_wav +:+ " --out " +:+ Sample.out_json)
                (mk_completed 2 "" "model not found")
                (fs (persisted Sample.env_fails Sample.req_id "clip.wav" Sample.clip
                       Sample.idle))) as H.
  destruct H as (_ & _ & _ & H).
  - split; vm_compute; reflexivity.
  - vm_compute. reflexivity.
  - reflexivity.
  - discriminate.
  - destruct (H Sample.req_id "clip.wav" Sample.clip Sample.idle) as [Hinf _].
    + vm_compute. reflexivity.
    + vm_compute. reflexivity.
    + reflexivity.
    + reflexivity.
    + reflexivity.
    + discriminate.
    + discriminate.
    + vm_compute. reflexivity.
    + exact Hinf.
Defined.



(** C7: [/infer] answers 400 to an upload without a file name (and does
    nothing else); it answers 400 to an upload whose persisted size is zero,
    whatever its file name, without running the command; for a declared
    content type that does not start with [audio] it logs a warning and
    goes on as for a request without a declared content type. *)
Theorem validation_of_uploads (env : Env) (req_id : string) (st : State) :
  (forall file,
      filename file = None \/ filename file = Some "" ->
      infer env req_id file st = (Raise (HTTPException 400 "No filename provided"), st)) /\
  (forall file fname,
      filename file = Some fname -> fname <> "" -> body file = "" ->
      upload_persists env req_id fname st = true ->
      fst (infer env req_id file st) = Raise (HTTPException 400 "Uploaded file is empty") /\
      spawned (snd (infer env req_id file st)) = spawned st) /\
  (forall file fname ct,
      filename file = Some fname -> fname <> "" ->
      content_type file = Some ct -> ct <> "" -> PyStr.startswith ct "audio" = false ->
      infer env req_id file st =
        infer env req_id (mk_upload (filename file) None (body file))
          (logged WARNING ("Unexpected content-type: " +:+ ct) st)).
Proof.
  split; [|split].
  - intros file H. apply infer_no_filename. exact H.
  - intros file fname Hf Hne Hb Hp.
    rewrite (infer_empty env req_id fname file st Hf Hne Hb Hp). simpl.
    split; [reflexivity|]. rewrite cleanup_spawned. reflexivity.
  - intros [fn cty b] fname ct Hf Hne Hct Hne' Hsw. simpl in *. subst fn cty.
    unfold infer. simpl. destruct fname as [|c0 fname]; [congruence|].
    destruct ct as [|c1 ct]; [congruence|].
    unfold PyStr.truthy. rewrite Hsw. reflexivity.
Qed.

Lemma validation_witness :
  fst (infer Sample.env_writes_ok Sample.req_id Sample.nameless Sample.idle) =
    Raise (HTTPException 400 "No filename provided") /\
  fst (infer Sample.env_writes_ok Sample.req_id Sample.empty_clip Sample.idle) =
    Raise (HTTPException 400 "Uploaded file is empty") /\
  infer Sample.env_writes_ok Sample.req_id Sample.notes Sample.idle =
    infer Sample.env_writes_ok Sample.req_id (mk_upload (Some "notes.wav") None "RIFF")
      (logged WARNING "Unexpected content-type: text/plain" Sample.idle).
Proof.
  destruct (validation_of_uploads Sample.env_writes_ok Sample.req_id Sample.idle)
    as (Ha & Hb & Hc).
  split; [|split].
  - rewrite (Ha Sample.nameless); [reflexivity|left; reflexivity].
  - apply (Hb Sample.empty_clip "clip.wav"); [reflexivity|discriminate|reflexivity|].
    vm_compute. reflexivity.
  - apply (Hc Sample.notes "notes.wav" "text/plain");
      [reflexivity|discriminate|reflexivity|discriminate|reflexivity].
Defined.

(** C9, as amended: whenever the command has exited with status zero, has
    left no output file and has printed JSON that is not an object (an
    array, a number, a string, a constant), the runner returns that value
    as it is, not wrapped under the [stdout] key.  [/infer] serves it as the
    content of the 200 response when the response can be built from it,
    that is, when every float in it is finite and no string in it holds a
    lone surrogate; otherwise the constructor of the response raises in the
    handler, an error that is no [HTTPException], and the server answers
    500. *)
Theorem non_object_stdout_is_served (env : Env) (ip op : string) (t : Z) (s : State)
  (cmd : string) (c : CompletedProcess) (m' : gmap string node) (v : pyobj) :
  has_placeholders env ->
  Format.format (format_ext env) ip op (INFERENCE_CMD env) = Ok cmd ->
  shell env cmd t (fs s) = (Ok c, m') ->
  returncode c = 0 ->
  m' !! op = None ->
  Json.loads (stdout c) = Ok v ->
  is_object v = false ->
  fst (run_inference_cli env ip op t s) = Ok v /\
  v <> stdout_dict (stdout c) /\
  (forall req_id fname file st,
      ip = input_path_of env req_id fname -> op = output_path_of env req_id ->
      t = default_timeout -> s = persisted env req_id fname file st ->
      filename file = Some fname -> fname <> "" -> body file <> "" ->
      upload_persists env req_id fname st = true ->
      fst (infer env req_id file st) = JSONResponse_of v /\
      (renders v = true -> fst (infer env req_id file st) = Ok (mk_response v 200)) /\
      (renders v = false ->
       (exists e, fst (infer env req_id file st) = Raise e) /\
       http_status (fst (infer env req_id file st)) = 500)).
Proof.
  intros Hp Hfmt Hsh Hrc Hout Hv Hobj.
  pose proof (runner_zero env ip op t s cmd c m' Hp Hfmt Hsh Hrc) as Hrun.
  unfold read_result in Hrun. rewrite Hout, Hv in Hrun.
  split; [rewrite Hrun; reflexivity|].
  split; [intros ->; discriminate|].
  intros req_id fname file st -> -> -> -> Hf Hne Hb Hup.
  rewrite (infer_outcome env req_id fname file st Hf Hne Hb Hup), Hrun. simpl.
  split; [reflexivity|]. split.
  - intros Hr. apply JSONResponse_of_renders, Hr.
  - intros Hr. destruct (JSONResponse_of_raises v Hr) as (e & -> & He).
    split; [exists e; reflexivity|exact He].
Qed.

Lemma non_object_stdout_witness :
  fst (infer Sample.env_prints_array Sample.req_id Sample.clip Sample.idle) =
    Ok (mk_response (PyList [PyInt 1; PyInt 2]) 200).
Proof.
  pose proof (non_object_stdout_is_served Sample.env_prints_array Sample.in_wav
                Sample.out_json default_timeout
                (persisted Sample.env_prints_array Sample.req_id "clip.wav" Sample.clip
                   Sample.idle)
                ("transcribe --in " +:+ Sample.in_wav +:+ " --out " +:+ Sample.out_json)
                (mk_completed 0 "[1, 2]" "")
                (fs (persisted Sample.env_prints_array Sample.req_id "clip.wav" Sample.clip
                       Sample.idle))
                (PyList [PyInt 1; PyInt 2])) as H.
  destruct H as (_ & _ & H).
  - split; vm_compute; reflexivity.
  - vm_compute. reflexivity.
  - reflexivity.
  - reflexivity.
  - vm_compute. reflexivity.
  - vm_compute. reflexivity.
  - reflexivity.
  - destruct (H Sample.req_id "clip.wav" Sample.clip Sample.idle) as (_ & Hok & _).
    + vm_compute. reflexivity.
    + vm_compute. reflexivity.
    + reflexivity.
    + reflexivity.
    + reflexivity.
    + discriminate.
    + discriminate.
    + vm_compute. reflexivity.
    + apply Hok. reflexivity.
Defined.

(** C9, the claim as stated fails: the command exits with status zero,
    writes no output file and prints [1e999], a JSON number and no object.
    The runner returns the number as it is, a float that is infinite, and
    the constructor of the response raises [ValueError] in the handler: the
    server answers 500, not 200.  The same happens for [NaN], and with
    [UnicodeEncodeError] for a string with a lone surrogate. *)
Lemma unrenderable_stdout_is_a_server_error :
  (shell Sample.env_prints_huge
     ("transcribe --in " +:+ Sample.in_wav +:+ " --out " +:+ Sample.out_json) 3600
     (fs (persisted Sample.env_prints_huge Sample.req_id "clip.wav" Sample.clip Sample.idle))
   = (Ok (mk_completed 0 "1e999" ""),
      fs (persisted Sample.env_prints_huge Sample.req_id "clip.wav" Sample.clip Sample.idle)) /\
   fs (persisted Sample.env_prints_huge Sample.req_id "clip.wav" Sample.clip Sample.idle)
     !! Sample.out_json = None /\
   Json.loads "1e999" = Ok (PyFloat "1e999") /\
   is_object (PyFloat "1e999") = false /\
   fst (run_inference_cli Sample.env_prints_huge Sample.in_wav Sample.out_json 3600
          (persisted Sample.env_prints_huge Sample.req_id "clip.wav" Sample.clip Sample.idle))
   = Ok (PyFloat "1e999") /\
   fst (infer Sample.env_prints_huge Sample.req_id Sample.clip Sample.idle) =
     Raise (ValueError "Out of range float values are not JSON compliant") /\
   http_status (fst (infer Sample.env_prints_huge Sample.req_id Sample.clip Sample.idle))
   = 500) /\
  (fst (run_inference_cli Sample.env_prints_nan Sample.in_wav Sample.out_json 3600
          (persisted Sample.env_prints_nan Sample.req_id "clip.wav" Sample.clip Sample.idle))
   = Ok (PyFloat "NaN") /\
   http_status (fst (infer Sample.env_prints_nan Sample.req_id Sample.clip Sample.idle))
   = 500) /\
  (fst (run_inference_cli Sample.env_prints_surrogate Sample.in_wav Sample.out_json 3600
          (persisted Sample.env_prints_surrogate Sample.req_id "clip.wav" Sample.clip
             Sample.idle))
   = Ok (PyStr (Utf8.encode 55296)) /\
   fst (infer Sample.env_prints_surrogate Sample.req_id Sample.clip Sample.idle) =
     Raise (OtherException "UnicodeEncodeError" "surrogates not allowed") /\
   http_status (fst (infer Sample.env_prints_surrogate Sample.req_id Sample.clip Sample.idle))
   = 500).
Proof. repeat split; vm_compute; reflexivity. Qed.

(** C2, as amended: after a zero exit status the result is found in this
    order.  (a) If the output path exists and opens as a file, its contents
    are parsed as JSON and returned, and if they do not parse the result is
    the captured standard output under the key [stdout]; if the path exists
    but does not open for reading (it is a directory, or the operating
    system refuses), the error of [open] leaves the runner.  (b) If the
    output path does not exist, the captured standard output is parsed as
    JSON and returned, and (c) if it does not parse, it is returned under
    the key [stdout].  [/infer] hands a result to the constructor of the
    response: it answers 200 with the result as content when the response
    can be built from it, and 500 when the constructor raises (a float that
    is not finite, a lone surrogate) or when the runner has raised; a command
    that writes [{"ok": true}] yields that object, and text that is not JSON
    and no output file yield the text under [stdout]. *)
Theorem result_of_zero_exit (env : Env) (ip op : string) (t : Z) (s : State)
  (cmd : string) (c : CompletedProcess) (m' : gmap string node) :
  has_placeholders env ->
  Format.format (format_ext env) ip op (INFERENCE_CMD env) = Ok cmd ->
  shell env cmd t (fs s) = (Ok c, m') ->
  returncode c = 0 ->
  let run := fst (run_inference_cli env ip op t s) in
  let wrapped := PyDict [("stdout", PyStr (stdout c))] in
  (forall f,
      m' !! op = Some (File f) -> os_fault env (SysOpenRead op) = None ->
      run = match Json.load f with Ok v => Ok v | Raise _ => Ok wrapped end) /\
  (m' !! op = Some Dir -> os_fault env (SysOpenRead op) = None ->
   run = Raise (OSError "IsADirectoryError" op)) /\
  (forall nd e,
      m' !! op = Some nd -> os_fault env (SysOpenRead op) = Some e ->
      exists e', run = Raise e') /\
  (m' !! op = None ->
   run = match Json.loads (stdout c) with Ok v => Ok v | Raise _ => Ok wrapped end) /\
  (forall req_id fname file st,
      ip = input_path_of env req_id fname -> op = output_path_of env req_id ->
      t = default_timeout -> s = persisted env req_id fname file st ->
      filename file = Some fname -> fname <> "" -> body file <> "" ->
      upload_persists env req_id fname st = true ->
      (forall v, run = Ok v -> fst (infer env req_id file st) = JSONResponse_of v) /\
      (forall v, run = Ok v -> renders v = true ->
       fst (infer env req_id file st) = Ok (mk_response v 200)) /\
      (forall v, run = Ok v -> renders v = false ->
       http_status (fst (infer env req_id file st)) = 500) /\
      (forall e, run = Raise e -> http_status (fst (infer env req_id file st)) = 500) /\
      (m' !! op = Some (File ok_json) -> os_fault env (SysOpenRead op) = None ->
       fst (infer env req_id file st) = Ok (mk_response (PyDict [("ok", PyBool true)]) 200)) /\
      (m' !! op = None -> (exists e, Json.loads (stdout c) = Raise e) ->
       Utf8.valid (stdout c) = true ->
       fst (infer env req_id file st) = Ok (mk_response wrapped 200))).
Proof.
  intros Hp Hfmt Hsh Hrc run wrapped.
  pose proof (runner_zero env ip op t s cmd c m' Hp Hfmt Hsh Hrc) as Hrun.
  assert (Ha : forall f,
      m' !! op = Some (File f) -> os_fault env (SysOpenRead op) = None ->
      run = match Json.load f with Ok v => Ok v | Raise _ => Ok wrapped end).
  { intros f Hop Hnf. unfold run. rewrite Hrun. unfold read_result.
    rewrite Hop, Hnf. simpl. destruct (Json.load f); reflexivity. }
  assert (Hb : m' !! op = None ->
      run = match Json.loads (stdout c) with Ok v => Ok v | Raise _ => Ok wrapped end).
  { intros Hop. unfold run. rewrite Hrun. unfold read_result. rewrite Hop. simpl.
    destruct (Json.loads (stdout c)); reflexivity. }
  split; [exact Ha|]. split.
  { intros Hop Hnf. unfold run. rewrite Hrun. unfold read_result.
    rewrite Hop, Hnf. reflexivity. }
  split.
  { intros nd e Hop Hfault. unfold run. rewrite Hrun. unfold read_result.
    rewrite Hop, Hfault. simpl. destruct e; eexists; reflexivity. }
  split; [exact Hb|].
  intros req_id fname file st -> -> -> -> Hf Hne Hbody Hup.
  pose proof (infer_outcome env req_id fname file st Hf Hne Hbody Hup) as Hinf.
  assert (Hres : forall v, run = Ok v ->
      fst (infer env req_id file st) = JSONResponse_of v).
  { intros v Hv. unfold run in Hv. rewrite Hinf.
    destruct (run_inference_cli env _ _ default_timeout _) as [r s3].
    simpl in Hv. subst r. reflexivity. }
  assert (Hok : forall v, run = Ok v -> renders v = true ->
      fst (infer env req_id file st) = Ok (mk_response v 200)).
  { intros v Hv Hr. rewrite (Hres v Hv). apply JSONResponse_of_renders, Hr. }
  split; [exact Hres|]. split; [exact Hok|]. split.
  { intros v Hv Hr. rewrite (Hres v Hv).
    destruct (JSONResponse_of_raises v Hr) as (e & -> & He). exact He. }
  split.
  { intros e He. unfold run in He. rewrite Hinf.
    destruct (run_inference_cli env _ _ default_timeout _) as [r s3].
    simpl in He. subst r. reflexivity. }
  split.
  - intros Hop Hnf. apply Hok; [|reflexivity].
    rewrite (Ha _ Hop Hnf). vm_compute. reflexivity.
  - intros Hop [e He] Htext. apply Hok; [rewrite (Hb Hop), He; reflexivity|].
    unfold renders, wrapped. simpl. rewrite Htext. reflexivity.
Qed.

Lemma result_of_zero_exit_witness :
  fst (infer Sample.env_writes_ok Sample.req_id Sample.clip Sample.idle) =
    Ok (mk_response (PyDict [("ok", PyBool true)]) 200) /\
  fst (infer Sample.env_prints_text Sample.req_id Sample.clip Sample.idle) =
    Ok (mk_response (PyDict [("stdout", PyStr "hello world")]) 200).
Proof.
  split.
  - pose proof (result_of_zero_exit Sample.env_writes_ok Sample.in_wav Sample.out_json
                  default_timeout
                  (persisted Sample.env_writes_ok Sample.req_id "clip.wav" Sample.clip
                     Sample.idle)
                  ("transcribe --in " +:+ Sample.in_wav +:+ " --out " +:+ Sample.out_json)
                  (mk_completed 0 "" "")
                  (<[Sample.out_json := File ok_json]>
                     (fs (persisted Sample.env_writes_ok Sample.req_id "clip.wav"
                            Sample.clip Sample.idle)))) as H.
    destruct H as (_ & _ & _ & _ & H).
    + split; vm_compute; reflexivity.
    + vm_compute. reflexivity.
    + reflexivity.
    + reflexivity.
    + destruct (H Sample.req_id "clip.wav" Sample.clip Sample.idle)
        as (_ & _ & _ & _ & Hok & _).
      * vm_compute. reflexivity.
      * vm_compute. reflexivity.
      * reflexivity.
      * reflexivity.
      * reflexivity.
      * discriminate.
      * discriminate.
      * vm_compute. reflexivity.
      * apply Hok; [apply lookup_insert_eq|reflexivity].
  - pose proof (result_of_zero_exit Sample.env_prints_text Sample.in_wav Sample.out_json
                  default_timeout
                  (persisted Sample.env_prints_text Sample.req_id "clip.wav" Sample.clip
                     Sample.idle)
                  ("transcribe --in " +:+ Sample.in_wav +:+ " --out " +:+ Sample.out_json)
                  (mk_completed 0 "hello world" "")
                  (fs (persisted Sample.env_prints_text Sample.req_id "clip.wav"
                         Sample.clip Sample.idle))) as H.
    destruct H as (_ & _ & _ & _ & H).
    + split; vm_compute; reflexivity.
    + vm_compute. reflexivity.
    + reflexivity.
    + reflexivity.
    + destruct (H Sample.req_id "clip.wav" Sample.clip Sample.idle)
        as (_ & _ & _ & _ & _ & Hout).
      * vm_compute. reflexivity.
      * vm_compute. reflexivity.
      * reflexivity.
      * reflexivity.
      * reflexivity.
      * discriminate.
      * discriminate.
      * vm_compute. reflexivity.
      * apply Hout; [vm_compute; reflexivity| |reflexivity].
        eexists. vm_compute. reflexivity.
Defined.

(** C2, the claim as stated fails: the command exits with status zero and
    leaves a directory at the output path; the path exists, and the runner
    raises the error of [open] in place of a result, so that [/infer]
    answers 500. *)
Lemma output_directory_is_an_error :
  shell Sample.env_output_dir
    ("transcribe --in " +:+ Sample.in_wav +:+ " --out " +:+ Sample.out_json) 3600
    (fs (persisted Sample.env_output_dir Sample.req_id "clip.wav" Sample.clip Sample.idle))
  = (Ok (mk_completed 0 "" ""),
     <[Sample.out_json := Dir]>
       (fs (persisted Sample.env_output_dir Sample.req_id "clip.wav" Sample.clip
              Sample.idle))) /\
  fst (run_inference_cli Sample.env_output_dir Sample.in_wav Sample.out_json 3600
         (persisted Sample.env_output_dir Sample.req_id "clip.wav" Sample.clip Sample.idle))
  = Raise (OSError "IsADirectoryError" Sample.out_json) /\
  http_status (fst (infer Sample.env_output_dir Sample.req_id Sample.clip Sample.idle)) = 500.
Proof. split; [reflexivity|]. split; vm_compute; reflexivity. Qed.

(** A result that the response cannot be built from: the command writes
    [{"score": NaN}] to the output path, the runner returns the object that
    [json.load] reads, and the server answers 500 after the cleanup. *)
Example unrenderable_result_is_a_server_error :
  fst (run_inference_cli Sample.env_writes_nan Sample.in_wav Sample.out_json 3600
         (persisted Sample.env_writes_nan Sample.req_id "clip.wav" Sample.clip Sample.idle))
  = Ok (PyDict [("score", PyFloat "NaN")]) /\
  fst (infer Sample.env_writes_nan Sample.req_id Sample.clip Sample.idle) =
    Raise (ValueError "Out of range float values are not JSON compliant") /\
  http_status (fst (infer Sample.env_writes_nan Sample.req_id Sample.clip Sample.idle)) = 500 /\
  fs (snd (infer Sample.env_writes_nan Sample.req_id Sample.clip Sample.idle))
    !! Sample.scratch = None.
Proof. repeat split; vm_compute; reflexivity. Qed.

(** C1, as amended: in every [/infer] request that creates its scratch
    directory, on every path out of the handler (a response, a 400, a 500,
    any other exception), the removal is attempted before the handler
    returns and an error of the removal is swallowed: what the handler
    returns or raises is what its [try] returned or raised.  When the
    removal is not refused, the directory is gone on return, with everything
    below it; when it is refused, the directory can remain. *)
Theorem scratch_directory_cleanup (env : Env) (req_id fname : string)
  (file : UploadFile) (st : State) :
  filename file = Some fname -> fname <> "" ->
  scratch_created env req_id st = true ->
  let d := req_dir_of env req_id in
  let start := mk_state (mkdir_fs d (fs st)) (spawned st)
                 (log st ++ content_type_warning file) in
  let work :=
    infer_body env (input_path_of env req_id fname) (output_path_of env req_id) file start in
  let final := snd (infer env req_id file st) in
  fs start !! d = Some Dir /\
  fst (infer env req_id file st) = fst work /\
  final = snd (cleanup env d (snd work)) /\
  (os_fault env (SysRmtree d) = None ->
   fs final !! d <> Some Dir /\
   (fs (snd work) !! d = Some Dir -> forall p, in_tree d p -> fs final !! p = None) /\
   (tree_rooted d (fs (snd work)) -> forall p, OS.under d p = true -> fs final !! p = None)).
Proof.
  intros Hf Hne Hc d start work final.
  assert (Hstart : fs start !! d = Some Dir)
    by (apply (mkdir_created env req_id st Hc)).
  pose proof (infer_created env req_id fname file st Hf Hne Hc) as Hinf.
  rewrite try_finally_cleanup in Hinf. fold d start work in Hinf.
  split; [exact Hstart|].
  split; [rewrite Hinf; reflexivity|].
  split; [unfold final; rewrite Hinf; reflexivity|].
  intros Hnf. unfold final. rewrite Hinf. simpl. rewrite cleanup_spec, Hnf. simpl.
  destruct (fs (snd work) !! d) as [[|f]|] eqn:Hd; simpl.
  - split; [rewrite remove_tree_lookup; [discriminate|left; reflexivity]|].
    split; intros _ p Hp; apply remove_tree_lookup; [exact Hp|right; exact Hp].
  - rewrite Hd. split; [discriminate|]. split; [discriminate|].
    intros Hroot p Hp. destruct (fs (snd work) !! p) eqn:Hl; [|reflexivity].
    rewrite (Hroot p Hp) in Hd; [discriminate|]. rewrite Hl. eexists; reflexivity.
  - rewrite Hd. split; [discriminate|]. split; [discriminate|].
    intros Hroot p Hp. destruct (fs (snd work) !! p) eqn:Hl; [|reflexivity].
    rewrite (Hroot p Hp) in Hd; [discriminate|]. rewrite Hl. eexists; reflexivity.
Qed.

Lemma scratch_directory_cleanup_witness :
  (http_status (fst (infer Sample.env_writes_ok Sample.req_id Sample.clip Sample.idle)) = 200 /\
   fs (snd (infer Sample.env_writes_ok Sample.req_id Sample.clip Sample.idle))
     !! Sample.scratch = None /\
   fs (snd (infer Sample.env_writes_ok Sample.req_id Sample.clip Sample.idle))
     !! Sample.in_wav = None /\
   fs (snd (infer Sample.env_writes_ok Sample.req_id Sample.clip Sample.idle))
     !! Sample.out_json = None) /\
  (http_status (fst (infer Sample.env_writes_ok Sample.req_id Sample.empty_clip Sample.idle))
     = 400 /\
   fs (snd (infer Sample.env_writes_ok Sample.req_id Sample.empty_clip Sample.idle))
     !! Sample.scratch = None) /\
  (http_status (fst (infer Sample.env_fails Sample.req_id Sample.clip Sample.idle)) = 500 /\
   fs (snd (infer Sample.env_fails Sample.req_id Sample.clip Sample.idle))
     !! Sample.scratch = None).
Proof.
  split; [|split].
  - destruct (scratch_directory_cleanup Sample.env_writes_ok Sample.req_id "clip.wav"
                Sample.clip Sample.idle) as (_ & _ & _ & H).
    + reflexivity.
    + discriminate.
    + vm_compute. reflexivity.
    + destruct H as (_ & Hin & _); [reflexivity|].
      split; [vm_compute; reflexivity|].
      split; [|split]; apply Hin; try (vm_compute; reflexivity).
      * left. vm_compute. reflexivity.
      * right. vm_compute. reflexivity.
      * right. vm_compute. reflexivity.
  - destruct (scratch_directory_cleanup Sample.env_writes_ok Sample.req_id "clip.wav"
                Sample.empty_clip Sample.idle) as (_ & _ & _ & H).
    + reflexivity.
    + discriminate.
    + vm_compute. reflexivity.
    + destruct H as (_ & Hin & _); [reflexivity|].
      split; [vm_compute; reflexivity|].
      apply Hin; [vm_compute; reflexivity|]. left. vm_compute. reflexivity.
  - destruct (scratch_directory_cleanup Sample.env_fails Sample.req_id "clip.wav"
                Sample.clip Sample.idle) as (_ & _ & _ & H).
    + reflexivity.
    + discriminate.
    + vm_compute. reflexivity.
    + destruct H as (_ & Hin & _); [reflexivity|].
      split; [vm_compute; reflexivity|].
      apply Hin; [vm_compute; reflexivity|]. left. vm_compute. reflexivity.
Defined.

(** C1, the claim as stated fails: the operating system refuses the removal
    of the scratch directory; the error is swallowed, the handler returns
    its 200 response, and the directory is still there with its files. *)
Lemma refused_removal_leaves_directory :
  fst (infer Sample.env_locked Sample.req_id Sample.clip Sample.idle) =
    Ok (mk_response (PyDict [("ok", PyBool true)]) 200) /\
  fs (snd (infer Sample.env_locked Sample.req_id Sample.clip Sample.idle))
    !! Sample.scratch = Some Dir /\
  fs (snd (infer Sample.env_locked Sample.req_id Sample.clip Sample.idle))
    !! Sample.in_wav = Some (File "RIFF").
Proof. repeat split; vm_compute; reflexivity. Qed.

(** C4, what the code does: the default template has [{output}] but not
    [{input}], so with no [INFERENCE_CMD] in the environment the runner
    raises the configuration error and [/infer] answers a persisted
    non-empty upload with 500, without running any command. *)
Theorem default_template_is_rejected (env : Env) (req_id fname : string)
  (file : UploadFile) (st : State) :
  environ env !! "INFERENCE_CMD" = None ->
  filename file = Some fname -> fname <> "" -> body file <> "" ->
  upload_persists env req_id fname st = true ->
  INFERENCE_CMD env = DEFAULT_INFERENCE_CMD /\
  PyStr.str_in "{input}" DEFAULT_INFERENCE_CMD = false /\
  PyStr.str_in "{output}" DEFAULT_INFERENCE_CMD = true /\
  fst (infer env req_id file st) =
    Raise (HTTPException 500
             "Inference error: INFERENCE_CMD must contain {input} and {output} placeholders") /\
  spawned (snd (infer env req_id file st)) = spawned st.
Proof.
  intros Henv Hf Hne Hb Hp.
  assert (Hcmd : INFERENCE_CMD env = DEFAULT_INFERENCE_CMD)
    by (unfold INFERENCE_CMD, getenv; rewrite Henv; reflexivity).
  split; [exact Hcmd|]. split; [vm_compute; reflexivity|]. split; [vm_compute; reflexivity|].
  rewrite (infer_outcome env req_id fname file st Hf Hne Hb Hp).
  rewrite runner_missing by (left; rewrite Hcmd; vm_compute; reflexivity).
  simpl. split; [reflexivity|]. rewrite cleanup_spawned. reflexivity.
Qed.

Lemma default_template_witness :
  fst (infer Sample.env_default Sample.req_id Sample.clip Sample.idle) =
    Raise (HTTPException 500
             "Inference error: INFERENCE_CMD must contain {input} and {output} placeholders").
Proof.
  refine (proj1 (proj2 (proj2 (proj2
    (default_template_is_rejected Sample.env_default Sample.req_id "clip.wav" Sample.clip
       Sample.idle _ _ _ _ _))))).
  - reflexivity.
  - reflexivity.
  - discriminate.
  - discriminate.
  - vm_compute. reflexivity.
Defined.

(** C10, as amended: when the template, after a beginning that formats,
    opens a replacement field (a single, unescaped brace) whose name is
    neither [input] nor [output], as embedded JSON braces do, the
    substitution raises in the state in which the runner was called (no
    child process is spawned) although both placeholders are present, and
    [/infer] answers a persisted non-empty upload with 500.  Doubled braces
    are escapes and do not raise. *)
Theorem unknown_field_fails_before_spawn (env : Env) (req_id fname : string)
  (file : UploadFile) (st : State) (pre name post s0 : string) (c : ascii) :
  has_placeholders env ->
  INFERENCE_CMD env = pre +:+ "{" +:+ name +:+ String c post ->
  Format.format (format_ext env) (input_path_of env req_id fname)
    (output_path_of env req_id) pre = Ok s0 ->
  field_chars name = true -> unknown_field name = true -> field_end c = true ->
  filename file = Some fname -> fname <> "" -> body file <> "" ->
  upload_persists env req_id fname st = true ->
  exists e,
    Format.format (format_ext env) (input_path_of env req_id fname)
      (output_path_of env req_id) (INFERENCE_CMD env) = Raise e /\
    (forall t s,
        run_inference_cli env (input_path_of env req_id fname) (output_path_of env req_id)
          t s = (Raise e, s)) /\
    fst (infer env req_id file st) =
      Raise (HTTPException 500 ("Inference error: " +:+ exn_str env e)) /\
    spawned (snd (infer env req_id file st)) = spawned st.
Proof.
  intros Hp Hcmd Hpre Hn Hu Hc Hf Hne Hb Hup.
  destruct (format_unknown_field (format_ext env) _ _ pre name c post s0 Hpre Hn Hu Hc)
    as [e He].
  rewrite <- Hcmd in He. exists e.
  assert (Hrun : forall t s,
    run_inference_cli env (input_path_of env req_id fname) (output_path_of env req_id)
      t s = (Raise e, s))
    by (intros; apply runner_format_raises; assumption).
  split; [exact He|]. split; [exact Hrun|].
  rewrite (infer_outcome env req_id fname file st Hf Hne Hb Hup), Hrun. simpl.
  split; [reflexivity|]. rewrite cleanup_spawned. reflexivity.
Qed.

Lemma unknown_field_witness :
  exists e,
    fst (infer Sample.env_json_braces Sample.req_id Sample.clip Sample.idle) =
      Raise (HTTPException 500 ("Inference error: " +:+ exn_str Sample.env_json_braces e)) /\
    spawned (snd (infer Sample.env_json_braces Sample.req_id Sample.clip Sample.idle)) = [].
Proof.
  destruct (unknown_field_fails_before_spawn Sample.env_json_braces Sample.req_id
              "clip.wav" Sample.clip Sample.idle
              "transcribe --opts '" (dq +:+ "beam" +:+ dq) " 4}' {input} {output}"
              "transcribe --opts '" ":"%char) as (e & _ & _ & H1 & H2).
  - split; vm_compute; reflexivity.
  - reflexivity.
  - vm_compute. reflexivity.
  - reflexivity.
  - reflexivity.
  - reflexivity.
  - reflexivity.
  - discriminate.
  - discriminate.
  - vm_compute. reflexivity.
  - exists e. split; [exact H1|exact H2].
Defined.

(** C10, the claim as stated fails: the template holds both placeholders
    and, besides them, the brace-delimited text of a JSON object, written
    with doubled braces; the substitution returns the command line, the
    child process is spawned and [/infer] answers 200. *)
Lemma escaped_braces_do_not_raise :
  INFERENCE_CMD Sample.env_escaped =
    "transcribe --opts '{" +:+ ("{" +:+ dq +:+ "beam" +:+ dq +:+ ": 4}") +:+ "}' {input} {output}" /\
  PyStr.str_in "{input}" (INFERENCE_CMD Sample.env_escaped) = true /\
  PyStr.str_in "{output}" (INFERENCE_CMD Sample.env_escaped) = true /\
  Format.format (format_ext Sample.env_escaped) Sample.in_wav Sample.out_json
    (INFERENCE_CMD Sample.env_escaped) =
    Ok ("transcribe --opts '{" +:+ dq +:+ "beam" +:+ dq +:+ ": 4}' "
        +:+ Sample.in_wav +:+ " " +:+ Sample.out_json) /\
  spawned (snd (infer Sample.env_escaped Sample.req_id Sample.clip Sample.idle)) =
    [("transcribe --opts '{" +:+ dq +:+ "beam" +:+ dq +:+ ": 4}' "
        +:+ Sample.in_wav +:+ " " +:+ Sample.out_json, 3600)] /\
  http_status (fst (infer Sample.env_escaped Sample.req_id Sample.clip Sample.idle)) = 200.
Proof. repeat split; vm_compute; reflexivity. Qed.

(** * Further properties of the handlers *)

(** ** Every way through the handler *)

Section AllPaths.
Context (env : Env).

(** The [try] of [infer], step by step. *)
Lemma infer_body_steps ip op file s :
  infer_body env ip op file s =
    match os_fault env (SysOpenWrite ip), fs s !! ip with
    | Some e, _ => (Raise e, s)
    | None, Some Dir => (Raise (OSError "IsADirectoryError" ip), s)
    | None, _ =>
        match os_fault env (SysStat ip) with
        | Some e => (Raise e, written ip file s)
        | None =>
            match body file with
            | EmptyString =>
                (Raise (HTTPException 400 "Uploaded file is empty"), written ip file s)
            | _ =>
                match run_inference_cli env ip op default_timeout (written ip file s) with
                | (Ok v, s3) => (JSONResponse_of v, s3)
                | (Raise e, s3) =>
                    (Raise (HTTPException 500 ("Inference error: " +:+ exn_str env e)),
                     log_failure s3)
                end
            end
        end
    end.
Proof.
  unfold infer_body, OS.write_bytes, OS.stat_size, written. run_M.
  destruct (os_fault env (SysOpenWrite ip)); simpl; [reflexivity|].
  destruct (fs s !! ip) as [[|f]|]; simpl; [reflexivity| |].
  all: destruct (os_fault env (SysStat ip)); simpl; [reflexivity|].
  all: rewrite lookup_insert_eq.
  all: destruct (body file) as [|c0 b]; simpl; [reflexivity|].
  all: destruct (run_inference_cli env ip op default_timeout _) as [[v|e] s3]; reflexivity.
Qed.

(** The runner, by cases. *)
Lemma runner_cases ip op t s :
  (run_inference_cli env ip op t s = (Raise (RuntimeError placeholders_msg), s) /\
   ~ has_placeholders env) \/
  (exists e,
      has_placeholders env /\
      Format.format (format_ext env) ip op (INFERENCE_CMD env) = Raise e /\
      run_inference_cli env ip op t s = (Raise e, s)) \/
  (exists cmd e m',
      has_placeholders env /\
      Format.format (format_ext env) ip op (INFERENCE_CMD env) = Ok cmd /\
      shell env cmd t (fs s) = (Raise e, m') /\
      run_inference_cli env ip op t s =
        (Raise (reraised e), mk_state m' (spawned s ++ [(cmd, t)]) (log (announced cmd s)))) \/
  (exists cmd c m',
      has_placeholders env /\
      Format.format (format_ext env) ip op (INFERENCE_CMD env) = Ok cmd /\
      shell env cmd t (fs s) = (Ok c, m') /\
      returncode c <> 0 /\
      run_inference_cli env ip op t s =
        (Raise (RuntimeError (failed_msg (returncode c) (stderr c))),
         completed_state cmd t c m' s)) \/
  (exists cmd c m',
      has_placeholders env /\
      Format.format (format_ext env) ip op (INFERENCE_CMD env) = Ok cmd /\
      shell env cmd t (fs s) = (Ok c, m') /\
      returncode c = 0 /\
      run_inference_cli env ip op t s =
        (match read_result env m' op c with
         | Ok v => Ok v
         | Raise e => Raise (reraised e)
         end, completed_state cmd t c m' s)).
Proof.
  destruct (PyStr.str_in "{input}" (INFERENCE_CMD env)) eqn:Hi.
  2: { left. split; [apply runner_missing; left; exact Hi|].
       intros [H _]. congruence. }
  destruct (PyStr.str_in "{output}" (INFERENCE_CMD env)) eqn:Ho.
  2: { left. split; [apply runner_missing; right; exact Ho|].
       intros [_ H]. congruence. }
  assert (Hp : has_placeholders env) by (split; assumption).
  right.
  destruct (Format.format (format_ext env) ip op (INFERENCE_CMD env)) as [cmd|e] eqn:Hf.
  2: { left. exists e. repeat split; try assumption.
       apply runner_format_raises; assumption. }
  right.
  destruct (shell env cmd t (fs s)) as [[c|e] m'] eqn:Hsh.
  - right. destruct (Z.eq_dec (returncode c) 0) as [Hrc|Hrc].
    + right. exists cmd, c, m'. repeat split; try assumption.
      rewrite (runner_zero env ip op t s cmd c m' Hp Hf Hsh Hrc).
      destruct (read_result env m' op c) as [v|e]; [reflexivity|destruct e; reflexivity].
    + left. exists cmd, c, m'. repeat split; try assumption.
      apply runner_nonzero; assumption.
  - left. exists cmd, e, m'. repeat split; try assumption.
    rewrite (runner_runs env ip op t s cmd Hp Hf).
    rewrite (run_try_raises env cmd op t (announced cmd s) e m' Hsh).
    destruct e; reflexivity.
Qed.

End AllPaths.

Section Paths.
Context (env : Env).

Lemma start_scratch_is_dir req_id file st :
  scratch_created env req_id st = true ->
  fs (start_state env req_id file st) !! req_dir_of env req_id = Some Dir.
Proof. intros Hc. apply (mkdir_created env req_id st Hc). Qed.

(** Every way through [infer]. *)
Lemma infer_paths req_id file st :
  ((filename file = None \/ filename file = Some "") /\
   infer env req_id file st = (Raise (HTTPException 400 "No filename provided"), st)) \/
  exists fname,
    filename file = Some fname /\ fname <> "" /\
    ((scratch_created env req_id st = false /\
      exists e m',
        infer env req_id file st =
          (Raise e, mk_state m' (spawned st) (log st ++ content_type_warning file)) /\
        m' !! req_dir_of env req_id = fs st !! req_dir_of env req_id /\
        parents_made (req_dir_of env req_id) (fs st) m' /\
        mkdir_raises env (req_dir_of env req_id) (fs st) e) \/
     (scratch_created env req_id st = true /\
      ((exists e,
          infer env req_id file st =
            (Raise e, snd (cleanup env (req_dir_of env req_id)
                             (start_state env req_id file st)))) \/
       (exists e,
          infer env req_id file st =
            (Raise e, snd (cleanup env (req_dir_of env req_id)
                             (persisted env req_id fname file st)))) \/
       (body file <> "" /\
        infer env req_id file st =
          match run_inference_cli env (input_path_of env req_id fname)
                  (output_path_of env req_id) default_timeout
                  (persisted env req_id fname file st) with
          | (Ok v, s3) =>
              (JSONResponse_of v, snd (cleanup env (req_dir_of env req_id) s3))
          | (Raise e, s3) =>
              (Raise (HTTPException 500 ("Inference error: " +:+ exn_str env e)),
               snd (cleanup env (req_dir_of env req_id) (log_failure s3)))
          end)))).
Proof.
  destruct (filename file) as [[|c0 fname]|] eqn:Hf.
  - left. split; [right; reflexivity|]. apply infer_no_filename. right. exact Hf.
  - right. exists (String c0 fname). split; [reflexivity|]. split; [discriminate|].
    destruct (scratch_created env req_id st) eqn:Hc.
    + right. split; [reflexivity|].
      rewrite (infer_created env req_id (String c0 fname) file st Hf ltac:(discriminate) Hc).
      rewrite try_finally_cleanup, infer_body_steps.
      fold (start_state env req_id file st).
      change (written (input_path_of env req_id (String c0 fname)) file
                (start_state env req_id file st))
        with (persisted env req_id (String c0 fname) file st).
      destruct (os_fault env (SysOpenWrite _)) as [e|].
      { left. exists e. reflexivity. }
      destruct (fs (start_state env req_id file st) !! _) as [[|f]|].
      { left. eexists. reflexivity. }
      all: destruct (os_fault env (SysStat _)) as [e|];
        [right; left; exists e; reflexivity|].
      all: destruct (body file) as [|b0 b];
        [right; left; eexists; reflexivity|].
      all: right; right; split; [discriminate|].
      all: destruct (run_inference_cli env _ _ default_timeout _) as [[v|e] s3];
        reflexivity.
    + left. split; [reflexivity|].
      destruct (infer_not_created env req_id (String c0 fname) st ltac:(discriminate) Hc)
        as (e & m' & Hinf & Hrest).
      exists e, m'. split; [apply Hinf; exact Hf|exact Hrest].
  - left. split; [left; reflexivity|]. apply infer_no_filename. left. exact Hf.
Qed.

End Paths.

(** X1: [/infer] answers with a response only when a command has run and
    has exited with status zero: the upload has a file name and a body, the
    template has formatted, [subprocess.run] was called once with the
    one-hour timeout on the file system that holds the upload, and the
    content of the response is what the runner has read from its result. *)
Theorem response_needs_zero_exit (env : Env) (req_id : string) (file : UploadFile)
  (st : State) (resp : JSONResponse) :
  fst (infer env req_id file st) = Ok resp ->
  exists fname cmd c m',
    filename file = Some fname /\ body file <> "" /\
    Format.format (format_ext env) (input_path_of env req_id fname)
      (output_path_of env req_id) (INFERENCE_CMD env) = Ok cmd /\
    shell env cmd 3600 (fs (persisted env req_id fname file st)) = (Ok c, m') /\
    returncode c = 0 /\
    read_result env m' (output_path_of env req_id) c = Ok (content resp) /\
    status_code resp = 200 /\
    spawned (snd (infer env req_id file st)) = spawned st ++ [(cmd, 3600)].
Proof.
  intros Hok.
  destruct (infer_paths env req_id file st) as [[_ H]|(fname & Hf & Hne & H)].
  { rewrite H in Hok. discriminate. }
  destruct H as [[_ (e & m1 & H & _)]|[_ [[e H]|[[e H]|[Hb H]]]]];
    try (rewrite H in Hok; discriminate).
  rewrite H in Hok |- *. clear H.
  destruct (runner_cases env (input_path_of env req_id fname) (output_path_of env req_id)
              default_timeout (persisted env req_id fname file st))
    as [[H _]|[(e & _ & _ & H)|[(cmd & e & m' & _ & _ & _ & H)|
        [(cmd & c & m' & _ & _ & _ & _ & H)|(cmd & c & m' & _ & Hfmt & Hsh & Hrc & H)]]]];
    rewrite H in Hok |- *; try discriminate.
  destruct (read_result env m' (output_path_of env req_id) c) as [v|e] eqn:Hr;
    [|discriminate].
  simpl in Hok. apply JSONResponse_of_inv in Hok as [-> _].
  exists fname, cmd, c, m'. simpl. rewrite cleanup_spawned. simpl.
  repeat split; assumption.
Qed.

Lemma response_needs_zero_exit_witness :
  exists cmd c m',
    shell Sample.env_writes_ok cmd 3600
      (fs (persisted Sample.env_writes_ok Sample.req_id "clip.wav" Sample.clip Sample.idle))
      = (Ok c, m') /\
    returncode c = 0 /\
    spawned (snd (infer Sample.env_writes_ok Sample.req_id Sample.clip Sample.idle))
      = [(cmd, 3600)].
Proof.
  destruct (response_needs_zero_exit Sample.env_writes_ok Sample.req_id Sample.clip
              Sample.idle (mk_response (PyDict [("ok", PyBool true)]) 200))
    as (fname & cmd & c & m' & Hf & _ & _ & Hsh & Hrc & _ & _ & Hsp).
  - vm_compute. reflexivity.
  - injection Hf as <-. exists cmd, c, m'. repeat split; assumption.
Defined.

(** X2: a request calls [subprocess.run] at most once, and then with the
    formatted template as the command line and 3600 as the timeout. *)
Theorem at_most_one_process (env : Env) (req_id : string) (file : UploadFile)
  (st : State) :
  spawned (snd (infer env req_id file st)) = spawned st \/
  exists fname cmd,
    filename file = Some fname /\
    Format.format (format_ext env) (input_path_of env req_id fname)
      (output_path_of env req_id) (INFERENCE_CMD env) = Ok cmd /\
    spawned (snd (infer env req_id file st)) = spawned st ++ [(cmd, 3600)].
Proof.
  destruct (infer_paths env req_id file st) as [[_ H]|(fname & Hf & Hne & H)].
  { left. rewrite H. reflexivity. }
  destruct H as [[_ (e & m1 & H & _)]|[_ [[e H]|[[e H]|[Hb H]]]]]; rewrite H; clear H;
    try (left; simpl; try rewrite cleanup_spawned; reflexivity).
  destruct (runner_cases env (input_path_of env req_id fname) (output_path_of env req_id)
              default_timeout (persisted env req_id fname file st))
    as [[H _]|[(e & _ & _ & H)|[(cmd & e & m' & _ & Hfmt & _ & H)|
        [(cmd & c & m' & _ & Hfmt & _ & _ & H)|(cmd & c & m' & _ & Hfmt & _ & _ & H)]]]];
    rewrite H; clear H.
  1, 2: left; simpl; rewrite cleanup_spawned; reflexivity.
  1, 2: right; exists fname, cmd; simpl; rewrite cleanup_spawned; simpl;
    repeat split; assumption.
  right. exists fname, cmd.
  destruct (read_result env m' _ c) as [v|e]; simpl; rewrite cleanup_spawned; simpl;
    repeat split; assumption.
Qed.

(** ** The handler and the rest of the file system *)

Lemma remove_tree_outside d (m : gmap string node) p :
  ~ in_tree d p -> OS.remove_tree d m !! p = m !! p.
Proof.
  intros Hout. unfold OS.remove_tree.
  destruct (m !! p) as [nd|] eqn:Hp.
  - apply map_lookup_filter_Some. split; [exact Hp|]. simpl. split.
    + intros ->. apply Hout. left. reflexivity.
    + destruct (OS.under d p) eqn:Hu; [|reflexivity]. exfalso. apply Hout. right. exact Hu.
  - apply map_lookup_filter_None. left. exact Hp.
Qed.

Lemma cleanup_outside env d s p :
  ~ in_tree d p -> fs (snd (cleanup env d s)) !! p = fs s !! p.
Proof.
  intros Hout. rewrite cleanup_spec. simpl.
  destruct (os_fault env (SysRmtree d)); [reflexivity|].
  destruct (fs s !! d) as [[|f]|]; try reflexivity.
  simpl. apply remove_tree_outside. exact Hout.
Qed.

Lemma cleanup_inside env d s p :
  os_fault env (SysRmtree d) = None -> fs s !! d = Some Dir -> in_tree d p ->
  fs (snd (cleanup env d s)) !! p = None.
Proof.
  intros Hnf Hd Hin. rewrite cleanup_spec, Hnf, Hd. simpl.
  apply remove_tree_lookup. exact Hin.
Qed.

(** Outside of the scratch directory, [mkdir] has made directories above
    it that were missing, and nothing else. *)
Lemma start_state_frame env req_id file st p :
  ~ in_tree (req_dir_of env req_id) p ->
  fs (start_state env req_id file st) !! p = fs st !! p \/
  (In p (OS.parents (req_dir_of env req_id)) /\ fs st !! p = None /\
   fs (start_state env req_id file st) !! p = Some Dir).
Proof.
  intros Hout. simpl.
  destruct (mkdir_fs_frame (req_dir_of env req_id) (fs st) p) as [H|([->|Hin] & H)];
    [left; exact H| |right; split; [exact Hin|exact H]].
  exfalso. apply Hout. left. reflexivity.
Qed.

Lemma start_state_outside env req_id file st p :
  ~ in_tree (req_dir_of env req_id) p ->
  ~ In p (OS.parents (req_dir_of env req_id)) \/ is_Some (fs st !! p) ->
  fs (start_state env req_id file st) !! p = fs st !! p.
Proof.
  intros Hout Hp. simpl. apply mkdir_fs_other; [|exact Hp].
  intros ->. apply Hout. left. reflexivity.
Qed.

Lemma persisted_start env req_id fname file st p :
  ~ in_tree (req_dir_of env req_id) p ->
  fs (persisted env req_id fname file st) !! p = fs (start_state env req_id file st) !! p.
Proof.
  intros Hout. simpl. apply lookup_insert_ne.
  intros <-. apply Hout. right. apply input_path_under.
Qed.

Lemma persisted_frame env req_id fname file st p :
  ~ in_tree (req_dir_of env req_id) p ->
  fs (persisted env req_id fname file st) !! p = fs st !! p \/
  (In p (OS.parents (req_dir_of env req_id)) /\ fs st !! p = None /\
   fs (persisted env req_id fname file st) !! p = Some Dir).
Proof.
  intros Hout. rewrite (persisted_start env req_id fname file st p Hout).
  apply start_state_frame. exact Hout.
Qed.

Lemma persisted_outside env req_id fname file st p :
  ~ in_tree (req_dir_of env req_id) p ->
  ~ In p (OS.parents (req_dir_of env req_id)) \/ is_Some (fs st !! p) ->
  fs (persisted env req_id fname file st) !! p = fs st !! p.
Proof.
  intros Hout Hp. rewrite (persisted_start env req_id fname file st p Hout).
  apply start_state_outside; assumption.
Qed.

Lemma persisted_scratch_is_dir env req_id fname file st :
  scratch_created env req_id st = true ->
  fs (persisted env req_id fname file st) !! req_dir_of env req_id = Some Dir.
Proof.
  intros Hc. simpl. rewrite lookup_insert_ne by apply input_path_ne.
  apply (start_scratch_is_dir env req_id file st Hc).
Qed.

(** The runner changes the file system through the child process only. *)
Lemma runner_fs env ip op t s :
  fs (snd (run_inference_cli env ip op t s)) = fs s \/
  exists cmd,
    Format.format (format_ext env) ip op (INFERENCE_CMD env) = Ok cmd /\
    fs (snd (run_inference_cli env ip op t s)) = (shell env cmd t (fs s)).2.
Proof.
  destruct (runner_cases env ip op t s)
    as [[H _]|[(e & _ & _ & H)|[(cmd & e & m' & _ & Hfmt & Hsh & H)|
        [(cmd & c & m' & _ & Hfmt & Hsh & _ & H)|(cmd & c & m' & _ & Hfmt & Hsh & _ & H)]]]];
    rewrite H; clear H.
  1, 2: left; reflexivity.
  all: right; exists cmd; rewrite Hsh; split; [exact Hfmt|reflexivity].
Qed.

(** Outside of the scratch directory, a request leaves what was there, a
    directory above the scratch directory that it had to make, or what its
    child process has left. *)
Lemma infer_outside (env : Env) (req_id : string) (file : UploadFile)
  (st : State) (p : string) :
  ~ in_tree (req_dir_of env req_id) p ->
  fs (snd (infer env req_id file st)) !! p = fs st !! p \/
  (In p (OS.parents (req_dir_of env req_id)) /\ fs st !! p = None /\
   fs (snd (infer env req_id file st)) !! p = Some Dir) \/
  exists fname cmd,
    filename file = Some fname /\
    scratch_created env req_id st = true /\
    Format.format (format_ext env) (input_path_of env req_id fname)
      (output_path_of env req_id) (INFERENCE_CMD env) = Ok cmd /\
    fs (snd (infer env req_id file st)) !! p =
      (shell env cmd 3600 (fs (persisted env req_id fname file st))).2 !! p.
Proof.
  intros Hout.
  destruct (infer_paths env req_id file st) as [[_ H]|(fname & Hf & Hne & H)].
  { left. rewrite H. reflexivity. }
  destruct H as [[_ (e & m1 & H & _ & Hmade & _)]|[Hc [[e H]|[[e H]|[Hb H]]]]];
    rewrite H; clear H.
  - simpl. destruct (Hmade p) as [Hp|Hp]; [left; exact Hp|right; left; exact Hp].
  - simpl. rewrite cleanup_outside by exact Hout.
    destruct (start_state_frame env req_id file st p Hout) as [Hp|Hp];
      [left; exact Hp|right; left; exact Hp].
  - simpl. rewrite cleanup_outside by exact Hout.
    destruct (persisted_frame env req_id fname file st p Hout) as [Hp|Hp];
      [left; exact Hp|right; left; exact Hp].
  - pose proof (runner_fs env (input_path_of env req_id fname) (output_path_of env req_id)
                  default_timeout (persisted env req_id fname file st)) as Hfs.
    destruct (run_inference_cli env _ _ default_timeout _) as [[v|e] s3]; simpl in *;
      rewrite cleanup_outside by exact Hout; simpl;
      (destruct Hfs as [Hfs|(cmd & Hfmt & Hfs)]; rewrite Hfs;
       [destruct (persisted_frame env req_id fname file st p Hout) as [Hp|Hp];
          [left; exact Hp|right; left; exact Hp]
       |right; right; exists fname, cmd; repeat split; assumption]).
Qed.

(** X3: outside of its scratch directory the handler itself makes the
    missing directories above it, as [mkdir(parents=True)] does, and
    creates, changes and deletes nothing else: after a request, a path
    outside of the scratch directory holds what it held before, or it is a
    directory above the scratch directory that was missing and is now
    there (the cleanup does not remove it), or it holds what the child
    process of the request has left there. *)
Theorem handler_stays_inside (env : Env) (req_id : string) (file : UploadFile)
  (st : State) (p : string) :
  ~ in_tree (req_dir_of env req_id) p ->
  fs (snd (infer env req_id file st)) !! p = fs st !! p \/
  (In p (OS.parents (req_dir_of env req_id)) /\ fs st !! p = None /\
   fs (snd (infer env req_id file st)) !! p = Some Dir) \/
  exists fname cmd,
    filename file = Some fname /\
    Format.format (format_ext env) (input_path_of env req_id fname)
      (output_path_of env req_id) (INFERENCE_CMD env) = Ok cmd /\
    fs (snd (infer env req_id file st)) !! p =
      (shell env cmd 3600 (fs (persisted env req_id fname file st))).2 !! p.
Proof.
  intros Hout.
  destruct (infer_outside env req_id file st p Hout)
    as [H|[H|(fname & cmd & Hf & _ & Hfmt & H)]]; [left; exact H|right; left; exact H|].
  right. right. exists fname, cmd. repeat split; assumption.
Qed.

(** X4: a request leaves no trace on disk, once the directories above its
    scratch directory exist: when these are there, nothing stood at or
    below the scratch path, the removal is not refused and the child
    process works inside the scratch directory only, the file system after
    the request is the file system before it, on every path out of the
    handler.  (Directories above the scratch directory that the request had
    to make stay: see [scratch_root_is_left].) *)
Theorem request_leaves_no_trace (env : Env) (req_id : string) (file : UploadFile)
  (st : State) :
  (forall q, In q (OS.parents (req_dir_of env req_id)) -> fs st !! q = Some Dir) ->
  (forall p, in_tree (req_dir_of env req_id) p -> fs st !! p = None) ->
  os_fault env (SysRmtree (req_dir_of env req_id)) = None ->
  child_stays_inside env (req_dir_of env req_id) ->
  fs (snd (infer env req_id file st)) = fs st.
Proof.
  intros Hparents Hfresh Hnf Hchild. set (d := req_dir_of env req_id) in *.
  assert (Hany : forall p, ~ In p (OS.parents d) \/ is_Some (fs st !! p)).
  { intros p. destruct (in_dec string_dec p (OS.parents d)) as [Hin|Hnin];
      [right; rewrite (Hparents p Hin); eexists; reflexivity|left; exact Hnin]. }
  destruct (infer_paths env req_id file st) as [[_ H]|(fname & Hf & Hne & H)].
  { rewrite H. reflexivity. }
  destruct H as [[_ (e & m1 & H & _ & Hmade & _)]|[Hc H]].
  { rewrite H. simpl. apply map_eq. intros p.
    destruct (Hmade p) as [Hp|(Hin & Hn & _)]; [exact Hp|].
    rewrite (Hparents p Hin) in Hn. discriminate. }
  assert (Hgone : forall s,
    fs s !! d = Some Dir -> (forall p, ~ in_tree d p -> fs s !! p = fs st !! p) ->
    fs (snd (cleanup env d s)) = fs st).
  { intros s Hd Hframe. apply map_eq. intros p.
    destruct (decide (p = d)) as [->|Hpd].
    - rewrite (cleanup_inside env d s d Hnf Hd) by (left; reflexivity).
      symmetry. apply Hfresh. left. reflexivity.
    - destruct (OS.under d p) eqn:Hu.
      + rewrite (cleanup_inside env d s p Hnf Hd) by (right; exact Hu).
        symmetry. apply Hfresh. right. exact Hu.
      + assert (Hout : ~ in_tree d p) by (intros [?|?]; congruence).
        rewrite cleanup_outside by exact Hout. apply Hframe. exact Hout. }
  pose proof (start_scratch_is_dir env req_id file st Hc) as Hstart.
  pose proof (persisted_scratch_is_dir env req_id fname file st Hc) as Hpers.
  destruct H as [[e H]|[[e H]|[Hb H]]]; rewrite H; clear H; simpl.
  - apply Hgone; [exact Hstart|]. intros p Hp. apply start_state_outside; [exact Hp|apply Hany].
  - apply Hgone; [exact Hpers|]. intros p Hp. apply persisted_outside; [exact Hp|apply Hany].
  - pose proof (runner_fs env (input_path_of env req_id fname) (output_path_of env req_id)
                  default_timeout (persisted env req_id fname file st)) as Hfs.
    destruct (Hchild
                (match Format.format (format_ext env) (input_path_of env req_id fname)
                         (output_path_of env req_id) (INFERENCE_CMD env) with
                 | Ok cmd => cmd
                 | Raise _ => ""
                 end) default_timeout (fs (persisted env req_id fname file st)) Hpers)
      as [Hd' Hout'].
    assert (Hs3 : fs (snd (run_inference_cli env (input_path_of env req_id fname)
                             (output_path_of env req_id) default_timeout
                             (persisted env req_id fname file st))) !! d = Some Dir /\
                  forall p, ~ in_tree d p ->
                    fs (snd (run_inference_cli env (input_path_of env req_id fname)
                               (output_path_of env req_id) default_timeout
                               (persisted env req_id fname file st))) !! p = fs st !! p).
    { destruct Hfs as [Hfs|(cmd & Hfmt & Hfs)]; rewrite Hfs.
      - split; [exact Hpers|]. intros p Hp. apply persisted_outside; [exact Hp|apply Hany].
      - rewrite Hfmt in Hd', Hout'. split; [exact Hd'|].
        intros p Hp. rewrite (Hout' p Hp). apply persisted_outside; [exact Hp|apply Hany]. }
    destruct (run_inference_cli env _ _ default_timeout _) as [[v|e] s3]; simpl in *;
      apply Hgone; tauto.
Qed.

Lemma handler_stays_inside_witness :
  fs (snd (infer Sample.env_writes_ok Sample.req_id Sample.clip Cases.busy))
    !! Cases.other_wav = Some (File "RIFF").
Proof.
  destruct (handler_stays_inside Sample.env_writes_ok Sample.req_id Sample.clip Cases.busy
              Cases.other_wav) as [H|[(_ & H & _)|(fname & cmd & Hf & Hfmt & H)]].
  - intros [H|H]; vm_compute in H; discriminate.
  - rewrite H. vm_compute. reflexivity.
  - vm_compute in H. discriminate.
  - rewrite H. injection Hf as <-.
    unfold Sample.env_writes_ok, Sample.with_cmd, Sample.exits. simpl.
    vm_compute. reflexivity.
Defined.

(** On a file system without the scratch root, a request makes it, with
    what is above it, and leaves it there: the cleanup removes the scratch
    directory of the request only. *)
Example scratch_root_is_left :
  fs (snd (infer Sample.env_writes_ok Sample.req_id Sample.clip Sample.idle))
    !! "/tmp/csm_api" = Some Dir /\
  fs (snd (infer Sample.env_writes_ok Sample.req_id Sample.clip Sample.idle))
    !! "/tmp" = Some Dir /\
  fs (snd (infer Sample.env_writes_ok Sample.req_id Sample.clip Sample.idle))
    !! Sample.scratch = None /\
  OS.parents Sample.scratch = ["/tmp"; "/tmp/csm_api"].
Proof. repeat split; vm_compute; reflexivity. Qed.

Lemma sample_child_stays_inside :
  child_stays_inside Sample.env_writes_ok (req_dir_of Sample.env_writes_ok Sample.req_id).
Proof.
  intros cmd t m Hd.
  change (req_dir_of Sample.env_writes_ok Sample.req_id) with Sample.scratch in *.
  unfold Sample.env_writes_ok, Sample.with_cmd, Sample.exits. simpl.
  assert (Hin : in_tree Sample.scratch Sample.out_json) by (right; vm_compute; reflexivity).
  split.
  - rewrite lookup_insert_ne; [exact Hd|]. intros H. vm_compute in H. discriminate.
  - intros p Hp. apply lookup_insert_ne. intros <-. exact (Hp Hin).
Qed.

Lemma request_leaves_no_trace_witness :
  fs (snd (infer Sample.env_writes_ok Sample.req_id Sample.clip Cases.busy)) = fs Cases.busy.
Proof.
  apply (request_leaves_no_trace Sample.env_writes_ok Sample.req_id Sample.clip Cases.busy).
  - intros q Hin. vm_compute in Hin.
    destruct Hin as [<-|[<-|[]]]; vm_compute; reflexivity.
  - intros p Hin. unfold Cases.busy. simpl.
    assert (Hlen : (String.length Sample.scratch <= String.length p)%nat)
      by (apply in_tree_longer; exact Hin).
    rewrite !lookup_insert_ne; [apply lookup_empty| | | |].
    + intros <-. vm_compute in Hlen. lia.
    + intros <-. vm_compute in Hlen. lia.
    + intros <-. destruct Hin as [H|H]; vm_compute in H; discriminate.
    + intros <-. destruct Hin as [H|H]; vm_compute in H; discriminate.
  - reflexivity.
  - exact sample_child_stays_inside.
Defined.

(** X5: an error while the upload is saved (the write or the [stat] is
    refused) is not turned into an HTTP error by the handler: it leaves
    [infer] as it is, no command runs, and the cleanup has run, so that with
    a removal that is not refused nothing of the scratch directory is
    left. *)
Theorem saving_errors_leave_the_handler (env : Env) (req_id fname : string)
  (file : UploadFile) (st : State) (e : exn) :
  filename file = Some fname -> fname <> "" ->
  scratch_created env req_id st = true ->
  os_fault env (SysOpenWrite (input_path_of env req_id fname)) = Some e \/
  (os_fault env (SysOpenWrite (input_path_of env req_id fname)) = None /\
   fs st !! input_path_of env req_id fname <> Some Dir /\
   os_fault env (SysStat (input_path_of env req_id fname)) = Some e) ->
  fst (infer env req_id file st) = Raise e /\
  spawned (snd (infer env req_id file st)) = spawned st /\
  (os_fault env (SysRmtree (req_dir_of env req_id)) = None ->
   forall p, in_tree (req_dir_of env req_id) p ->
     fs (snd (infer env req_id file st)) !! p = None).
Proof.
  intros Hf Hne Hc Hfault.
  rewrite (infer_created env req_id fname file st Hf Hne Hc).
  rewrite try_finally_cleanup, infer_body_steps.
  fold (start_state env req_id file st).
  pose proof (start_scratch_is_dir env req_id file st Hc) as Hstart.
  destruct Hfault as [Hw|(Hw & Hnd & Hs)]; rewrite Hw.
  - simpl. split; [reflexivity|]. split; [rewrite cleanup_spawned; reflexivity|].
    intros Hnf p Hp. apply cleanup_inside; assumption.
  - assert (Hip : fs (start_state env req_id file st) !! input_path_of env req_id fname
                  = fs st !! input_path_of env req_id fname)
      by (apply mkdir_fs_inside, input_path_under).
    rewrite Hip, Hs.
    assert (Hdir : fs (written (input_path_of env req_id fname) file
                         (start_state env req_id file st)) !! req_dir_of env req_id
                   = Some Dir)
      by (apply (persisted_scratch_is_dir env req_id fname file st Hc)).
    destruct (fs st !! input_path_of env req_id fname) as [[|f]|]; [congruence| |];
      simpl; (split; [reflexivity|]); (split; [rewrite cleanup_spawned; reflexivity|]);
      intros Hnf p Hp; apply cleanup_inside; assumption.
Qed.

Lemma saving_errors_witness :
  fst (infer Cases.env_disk_full Sample.req_id Sample.clip Sample.idle) =
    Raise (OSError "OSError" Sample.in_wav) /\
  spawned (snd (infer Cases.env_disk_full Sample.req_id Sample.clip Sample.idle)) = [] /\
  fs (snd (infer Cases.env_disk_full Sample.req_id Sample.clip Sample.idle))
    !! Sample.scratch = None.
Proof.
  destruct (saving_errors_leave_the_handler Cases.env_disk_full Sample.req_id "clip.wav"
              Sample.clip Sample.idle (OSError "OSError" Sample.in_wav))
    as (H1 & H2 & H3).
  - reflexivity.
  - discriminate.
  - vm_compute. reflexivity.
  - left. vm_compute. reflexivity.
  - split; [exact H1|]. split; [exact H2|].
    apply H3; [reflexivity|]. left. vm_compute. reflexivity.
Defined.

(** X6: when the scratch directory cannot be created, the error of [mkdir]
    leaves the handler: a call of [os.mkdir] was refused, for the directory
    or for a missing directory above it, or a file stands at its path or
    where a directory above it should be.  Nothing is written, nothing runs
    and nothing is removed; no node at or below the scratch path has
    changed, and the file system differs from the one before the request
    at most by directories above the scratch directory that were missing and
    were made before the error: these stay.  When the directories above the
    scratch directory were all there, the file system is unchanged. *)
Theorem mkdir_error_leaves_the_handler (env : Env) (req_id fname : string)
  (file : UploadFile) (st : State) :
  filename file = Some fname -> fname <> "" ->
  scratch_created env req_id st = false ->
  exists e,
    fst (infer env req_id file st) = Raise e /\
    mkdir_raises env (req_dir_of env req_id) (fs st) e /\
    spawned (snd (infer env req_id file st)) = spawned st /\
    (forall p, in_tree (req_dir_of env req_id) p ->
       fs (snd (infer env req_id file st)) !! p = fs st !! p) /\
    parents_made (req_dir_of env req_id) (fs st) (fs (snd (infer env req_id file st))) /\
    ((forall q, In q (OS.parents (req_dir_of env req_id)) -> is_Some (fs st !! q)) ->
     fs (snd (infer env req_id file st)) = fs st).
Proof.
  intros Hf Hne Hc.
  destruct (infer_not_created env req_id fname st Hne Hc)
    as (e & m' & Hinf & Hd & Hmade & Hraise).
  rewrite (Hinf file Hf). exists e. simpl.
  split; [reflexivity|]. split; [exact Hraise|]. split; [reflexivity|].
  split; [|split; [exact Hmade|]].
  - intros p [->|Hu]; [exact Hd|].
    destruct (Hmade p) as [Hp|(Hin & _)]; [exact Hp|].
    exfalso. apply (parents_outside _ _ Hin). right. exact Hu.
  - intros Hthere. apply map_eq. intros p.
    destruct (Hmade p) as [Hp|(Hin & Hn & _)]; [exact Hp|].
    destruct (Hthere p Hin) as [nd Hnd]. congruence.
Qed.

Lemma mkdir_error_witness :
  (exists e,
     fst (infer Cases.env_read_only Sample.req_id Sample.clip Cases.busy) = Raise e /\
     fs (snd (infer Cases.env_read_only Sample.req_id Sample.clip Cases.busy))
     = fs Cases.busy) /\
  (exists e,
     fst (infer Cases.env_tmp_only Sample.req_id Sample.clip Sample.idle) = Raise e /\
     fs (snd (infer Cases.env_tmp_only Sample.req_id Sample.clip Sample.idle)) !! "/tmp"
     = Some Dir /\
     fs (snd (infer Cases.env_tmp_only Sample.req_id Sample.clip Sample.idle))
       !! Sample.scratch = None).
Proof.
  split.
  - destruct (mkdir_error_leaves_the_handler Cases.env_read_only Sample.req_id "clip.wav"
                Sample.clip Cases.busy) as (e & H1 & _ & _ & _ & _ & H2).
    + reflexivity.
    + discriminate.
    + vm_compute. reflexivity.
    + exists e. split; [exact H1|]. apply H2.
      intros q Hin. vm_compute in Hin.
      destruct Hin as [<-|[<-|[]]]; eexists; vm_compute; reflexivity.
  - destruct (mkdir_error_leaves_the_handler Cases.env_tmp_only Sample.req_id "clip.wav"
                Sample.clip Sample.idle) as (e & H1 & _ & _ & H2 & _).
    + reflexivity.
    + discriminate.
    + vm_compute. reflexivity.
    + exists e. split; [exact H1|]. split; [vm_compute; reflexivity|].
      rewrite H2 by (left; reflexivity). vm_compute. reflexivity.
Defined.

(** A file where the scratch root should be: [mkdir] raises
    [NotADirectoryError] for every request. *)
Example scratch_root_is_a_file :
  fst (infer Sample.env_writes_ok Sample.req_id Sample.clip Cases.blocked) =
    Raise (OSError "NotADirectoryError" Sample.scratch) /\
  spawned (snd (infer Sample.env_writes_ok Sample.req_id Sample.clip Cases.blocked)) = [].
Proof. split; vm_compute; reflexivity. Qed.

(** X7: an exception of [subprocess.run] that is not [TimeoutExpired]
    leaves the runner unchanged, and [/infer] answers 500 with its text
    after the words "Inference error: ". *)
Theorem other_exceptions_are_reraised (env : Env) (ip op : string) (t : Z) (s : State)
  (cmd : string) (e : exn) (m' : gmap string node) :
  has_placeholders env ->
  Format.format (format_ext env) ip op (INFERENCE_CMD env) = Ok cmd ->
  shell env cmd t (fs s) = (Raise e, m') ->
  is_timeout e = false ->
  fst (run_inference_cli env ip op t s) = Raise e /\
  (forall req_id fname file st,
      ip = input_path_of env req_id fname -> op = output_path_of env req_id ->
      t = default_timeout -> s = persisted env req_id fname file st ->
      filename file = Some fname -> fname <> "" -> body file <> "" ->
      upload_persists env req_id fname st = true ->
      fst (infer env req_id file st) =
        Raise (HTTPException 500 ("Inference error: " +:+ exn_str env e))).
Proof.
  intros Hp Hfmt Hsh Hnt.
  assert (Hrun : run_inference_cli env ip op t s =
            (Raise e, mk_state m' (spawned s ++ [(cmd, t)]) (log (announced cmd s)))).
  { rewrite (runner_runs env ip op t s cmd Hp Hfmt).
    rewrite (run_try_raises env cmd op t (announced cmd s) e m' Hsh).
    destruct e; try reflexivity. discriminate. }
  split; [rewrite Hrun; reflexivity|].
  intros req_id fname file st -> -> -> -> Hf Hne Hb Hup.
  rewrite (infer_outcome env req_id fname file st Hf Hne Hb Hup), Hrun. reflexivity.
Qed.

Lemma other_exceptions_witness :
  fst (infer Cases.env_no_shell Sample.req_id Sample.clip Sample.idle) =
    Raise (HTTPException 500 "Inference error: FileNotFoundError: '/bin/sh'").
Proof.
  pose proof (other_exceptions_are_reraised Cases.env_no_shell Sample.in_wav Sample.out_json
                default_timeout
                (persisted Cases.env_no_shell Sample.req_id "clip.wav" Sample.clip
                   Sample.idle)
                ("transcribe --in " +:+ Sample.in_wav +:+ " --out " +:+ Sample.out_json)
                (OSError "FileNotFoundError" "/bin/sh")
                (fs (persisted Cases.env_no_shell Sample.req_id "clip.wav" Sample.clip
                       Sample.idle))) as H.
  destruct H as [_ H].
  - split; vm_compute; reflexivity.
  - vm_compute. reflexivity.
  - reflexivity.
  - reflexivity.
  - apply (H Sample.req_id "clip.wav" Sample.clip Sample.idle).
    + vm_compute. reflexivity.
    + vm_compute. reflexivity.
    + reflexivity.
    + reflexivity.
    + reflexivity.
    + discriminate.
    + discriminate.
    + vm_compute. reflexivity.
Defined.

(** ** Substitution into a template *)

Section Substitution.
Context (fe : string -> string -> option ascii -> string -> result string).
Context (i o : string).

Local Abbreviation scan' := (Format.scan fe i o).

Lemma append_nil_r (s : string) : s +:+ "" = s.
Proof.
  induction s as [|c s IH]; [reflexivity|]. rewrite append_cons, IH. reflexivity.
Qed.

Lemma scan_text out t :
  brace_free t = true -> scan' (Format.FLit out) t = Format.FLit (out +:+ t).
Proof.
  unfold brace_free. revert out. induction t as [|c t IH]; intros out H.
  - simpl. rewrite append_nil_r. reflexivity.
  - simpl in H. apply andb_true_iff in H as [H1 H2].
    apply andb_true_iff in H1 as [Hc1 H1]. apply andb_true_iff in H2 as [Hc2 H2].
    apply negb_true_iff in Hc1, Hc2. simpl. rewrite Hc1, Hc2.
    rewrite IH by (rewrite H1, H2; reflexivity).
    rewrite snoc_append. reflexivity.
Qed.

Lemma scan_input out : scan' (Format.FLit out) "{input}" = Format.FLit (out +:+ i).
Proof. reflexivity. Qed.

Lemma scan_output out : scan' (Format.FLit out) "{output}" = Format.FLit (out +:+ o).
Proof. reflexivity. Qed.

Lemma scan_lbrace out : scan' (Format.FLit out) "{{" = Format.FLit (out +:+ "{").
Proof. reflexivity. Qed.

Lemma scan_rbrace out : scan' (Format.FLit out) "}}" = Format.FLit (out +:+ "}").
Proof. reflexivity. Qed.

Lemma scan_pieces ps out :
  plain_pieces ps = true ->
  scan' (Format.FLit out) (template_of ps) = Format.FLit (out +:+ command_of i o ps).
Proof.
  revert out. induction ps as [|p ps IH]; intros out H.
  - simpl. rewrite append_nil_r. reflexivity.
  - destruct p; cbn [template_of command_of plain_pieces] in H |- *; rewrite scan_app.
    + apply andb_true_iff in H as [Ht H].
      rewrite (scan_text out s Ht), (IH _ H), append_assoc_str. reflexivity.
    + rewrite scan_input, (IH _ H), append_assoc_str. reflexivity.
    + rewrite scan_output, (IH _ H), append_assoc_str. reflexivity.
    + rewrite scan_lbrace, (IH _ H), append_assoc_str. reflexivity.
    + rewrite scan_rbrace, (IH _ H), append_assoc_str. reflexivity.
Qed.

(** A template made of plain text, placeholders and escaped braces formats
    to its command line. *)
Lemma format_pieces ps :
  plain_pieces ps = true ->
  Format.format fe i o (template_of ps) = Ok (command_of i o ps).
Proof.
  intros H. unfold Format.format. rewrite (scan_pieces ps "" H). reflexivity.
Qed.

End Substitution.

Lemma str_in_here (x b : string) : PyStr.str_in x (x +:+ b) = true.
Proof.
  assert (H : forall h, String.prefix x h = true -> PyStr.str_in x h = true)
    by (intros [|c h] Hh; simpl in *; rewrite Hh; reflexivity).
  apply H, prefix_append.
Qed.

Lemma str_in_skip (x a s : string) :
  PyStr.str_in x s = true -> PyStr.str_in x (a +:+ s) = true.
Proof.
  intros H. induction a as [|c a IH]; [exact H|].
  rewrite append_cons. simpl. rewrite IH. apply orb_true_r.
Qed.

Lemma str_in_input ps :
  In Input ps -> PyStr.str_in "{input}" (template_of ps) = true.
Proof.
  induction ps as [|p ps IH]; intros Hin; [destruct Hin|].
  destruct Hin as [->|Hin].
  - apply str_in_here.
  - destruct p; cbn [template_of]; apply str_in_skip, IH, Hin.
Qed.

Lemma str_in_output ps :
  In Output ps -> PyStr.str_in "{output}" (template_of ps) = true.
Proof.
  induction ps as [|p ps IH]; intros Hin; [destruct Hin|].
  destruct Hin as [->|Hin].
  - apply str_in_here.
  - destruct p; cbn [template_of]; apply str_in_skip, IH, Hin.
Qed.

(** X8: for a template made of text without braces, the two placeholders
    (each at least once, in any order and number) and escaped braces, the
    command line that is run is the template with every [{input}] replaced
    by the input path, every [{output}] by the output path and every doubled
    brace by a single one; the paths are put in as they are, whatever
    characters they hold. *)
Theorem placeholders_are_substituted (env : Env) (ps : list piece) :
  INFERENCE_CMD env = template_of ps ->
  plain_pieces ps = true -> In Input ps -> In Output ps ->
  has_placeholders env /\
  forall ip op t s,
    Format.format (format_ext env) ip op (INFERENCE_CMD env) = Ok (command_of ip op ps) /\
    spawned (snd (run_inference_cli env ip op t s)) =
      spawned s ++ [(command_of ip op ps, t)].
Proof.
  intros Hcmd Hplain Hi Ho.
  assert (Hp : has_placeholders env).
  { split; rewrite Hcmd; [apply str_in_input|apply str_in_output]; assumption. }
  split; [exact Hp|]. intros ip op t s.
  assert (Hfmt : Format.format (format_ext env) ip op (INFERENCE_CMD env)
                 = Ok (command_of ip op ps))
    by (rewrite Hcmd; apply format_pieces; exact Hplain).
  split; [exact Hfmt|]. apply runner_spawned; assumption.
Qed.

Lemma placeholders_are_substituted_witness :
  spawned (snd (run_inference_cli Sample.env_escaped "a {b}.wav" "out.json" 5 Sample.idle))
  = [("transcribe --opts '{" +:+ dq +:+ "beam" +:+ dq +:+ ": 4}' a {b}.wav out.json", 5)].
Proof.
  destruct (placeholders_are_substituted Sample.env_escaped
              [Text "transcribe --opts '"; LBrace; Text (dq +:+ "beam" +:+ dq +:+ ": 4");
               RBrace; Text "' "; Input; Text " "; Output]) as [_ H].
  - reflexivity.
  - reflexivity.
  - right; right; right; right; right; left; reflexivity.
  - do 7 right. left; reflexivity.
  - apply (H "a {b}.wav" "out.json" 5 Sample.idle).
Defined.

(** X9: the test for the placeholders is a test for substrings: a template
    that writes them with doubled braces passes it, but then nothing is
    substituted, and the command line that every request runs holds the
    words [{input}] and [{output}] and no path. *)
Theorem doubled_placeholders_pass_the_check (env : Env) (a b c : string) :
  INFERENCE_CMD env = a +:+ "{{input}}" +:+ b +:+ "{{output}}" +:+ c ->
  brace_free a = true -> brace_free b = true -> brace_free c = true ->
  has_placeholders env /\
  forall ip op t s,
    spawned (snd (run_inference_cli env ip op t s)) =
      spawned s ++ [(a +:+ "{input}" +:+ b +:+ "{output}" +:+ c, t)].
Proof.
  intros Hcmd Ha Hb Hc.
  assert (Hp : has_placeholders env).
  { split; rewrite Hcmd.
    - apply str_in_skip.
      change ("{{input}}" +:+ b +:+ "{{output}}" +:+ c)
        with ("{" +:+ "{input}" +:+ "}" +:+ b +:+ "{{output}}" +:+ c).
      apply str_in_skip, str_in_here.
    - apply str_in_skip, str_in_skip, str_in_skip.
      change ("{{output}}" +:+ c) with ("{" +:+ "{output}" +:+ "}" +:+ c).
      apply str_in_skip, str_in_here. }
  split; [exact Hp|]. intros ip op t s.
  apply runner_spawned; [exact Hp|]. rewrite Hcmd.
  pose proof (format_pieces (format_ext env) ip op
                [Text a; LBrace; Text "input"; RBrace; Text b; LBrace; Text "output";
                 RBrace; Text c]) as H.
  cbn [template_of command_of plain_pieces] in H.
  rewrite !append_nil_r in H.
  rewrite Ha, Hb, Hc in H. apply H. reflexivity.
Qed.

Lemma doubled_placeholders_witness :
  spawned (snd (infer Cases.env_doubled Sample.req_id Sample.clip Sample.idle)) =
    [("transcribe --in {input} --out {output}", 3600)].
Proof.
  destruct (doubled_placeholders_pass_the_check Cases.env_doubled
              "transcribe --in " " --out " "") as [Hp H].
  - reflexivity.
  - reflexivity.
  - reflexivity.
  - reflexivity.
  - rewrite (infer_outcome Cases.env_doubled Sample.req_id "clip.wav" Sample.clip Sample.idle)
      by (try reflexivity; try discriminate).
    pose proof (H (input_path_of Cases.env_doubled Sample.req_id "clip.wav")
                  (output_path_of Cases.env_doubled Sample.req_id) default_timeout
                  (persisted Cases.env_doubled Sample.req_id "clip.wav" Sample.clip
                     Sample.idle)) as Hs.
    destruct (run_inference_cli Cases.env_doubled _ _ default_timeout _) as [[v|e] s3];
      simpl in *; rewrite cleanup_spawned; simpl; exact Hs.
Defined.

(** ** Paths and file names *)

Lemma lacks_append c (a b : string) : lacks c (a +:+ b) = lacks c a && lacks c b.
Proof.
  induction a as [|x a IH]; [reflexivity|].
  rewrite append_cons. simpl. rewrite IH, andb_assoc. reflexivity.
Qed.

Lemma parts_lack_slash cur s :
  lacks "/" cur = true -> Forall (fun x => lacks "/" x = true) (Pathlib.parts cur s).
Proof.
  revert cur. induction s as [|c s IH]; intros cur Hcur; simpl.
  - destruct (String.eqb cur "" || String.eqb cur ".")%bool; repeat constructor. exact Hcur.
  - destruct (Ascii.eqb c "/") eqn:Hc.
    + apply Forall_app. split; [|apply IH; reflexivity].
      destruct (String.eqb cur "" || String.eqb cur ".")%bool; repeat constructor.
      exact Hcur.
    + apply IH. unfold PyStr.snoc. rewrite lacks_append, Hcur. simpl. rewrite Hc.
      reflexivity.
Qed.

Lemma name_lacks_slash p : lacks "/" (Pathlib.name p) = true.
Proof.
  unfold Pathlib.name.
  pose proof (parts_lack_slash "" p eq_refl) as H.
  induction H as [|x l Hx Hl IH]; [reflexivity|].
  destruct l as [|y l]; [exact Hx|exact IH].
Qed.

Lemma after_last_lacks c sep s :
  lacks c s = true -> lacks c (Pathlib.after_last sep s).1 = true.
Proof.
  induction s as [|x s IH]; intros H; [reflexivity|].
  simpl in H. apply andb_true_iff in H as [Hx Hs]. simpl.
  destruct (Pathlib.after_last sep s) as [tail [|]]; simpl in *; [apply IH, Hs|].
  destruct (Ascii.eqb x sep); simpl; [apply IH, Hs|].
  rewrite Hx. apply IH, Hs.
Qed.

Lemma suffix_lacks_slash p : lacks "/" (Pathlib.suffix p) = true.
Proof.
  unfold Pathlib.suffix.
  pose proof (after_last_lacks "/" "." (Pathlib.name p) (name_lacks_slash p)) as H.
  destruct (Pathlib.after_last "." (Pathlib.name p)) as [tail [|]]; [|reflexivity].
  simpl in H. destruct (_ && _)%bool; [|reflexivity]. simpl. exact H.
Qed.

Lemma suffix_starts_with_dot p :
  Pathlib.suffix p = "" \/ exists tail, Pathlib.suffix p = String "." tail.
Proof.
  unfold Pathlib.suffix.
  destruct (Pathlib.after_last "." (Pathlib.name p)) as [tail [|]]; [|left; reflexivity].
  destruct (_ && _)%bool; [right; exists tail; reflexivity|left; reflexivity].
Qed.

Lemma append_inj_l (a x y : string) : a +:+ x = a +:+ y -> x = y.
Proof.
  induction a as [|c a IH]; [trivial|]. rewrite !append_cons. intros H.
  injection H as H. apply IH, H.
Qed.

(** X10: whatever the file name of the upload, it is written to the file
    [input<suffix>] directly in the scratch directory: the suffix starts
    with a dot (it is [.wav] when the name has none) and holds no slash, so
    the name cannot lead the write out of the directory, and the path is
    never the output path. *)
Theorem upload_stays_in_scratch (env : Env) (req_id fname : string) :
  exists tail,
    input_path_of env req_id fname =
      req_dir_of env req_id +:+ "/input" +:+ String "." tail /\
    lacks "/" tail = true /\
    (Pathlib.suffix fname = "" -> tail = "wav") /\
    OS.under (req_dir_of env req_id) (input_path_of env req_id fname) = true /\
    input_path_of env req_id fname <> output_path_of env req_id.
Proof.
  assert (Hne : forall sfx,
    req_dir_of env req_id +:+ "/" +:+ "input" +:+ sfx <> output_path_of env req_id).
  { intros sfx H. unfold output_path_of in H. apply append_inj_l in H. discriminate. }
  pose proof (suffix_lacks_slash fname) as Hl.
  pose proof (input_path_under env req_id fname) as Hu.
  unfold input_path_of in *.
  destruct (suffix_starts_with_dot fname) as [He|[tail He]]; rewrite He in *.
  - exists "wav". repeat split; [exact Hu|apply Hne].
  - exists tail. simpl in Hl. repeat split; try assumption; [discriminate|apply Hne].
Qed.

(** ** What the runner logs *)

Lemma text_prefix_is_prefix n s : exists rest, s = text_prefix n s +:+ rest.
Proof.
  revert n. induction s as [|c s IH]; intros n; [exists ""; reflexivity|].
  simpl. destruct ((128 <=? N_of_ascii c) && (N_of_ascii c <? 192))%N.
  - destruct (IH n) as [rest Hr]. exists rest. rewrite append_cons, <- Hr. reflexivity.
  - destruct n as [|n]; [exists (String c s); reflexivity|].
    destruct (IH n) as [rest Hr]. exists rest. rewrite append_cons, <- Hr. reflexivity.
Qed.

Lemma text_prefix_length n s : (text_length (text_prefix n s) <= n)%nat.
Proof.
  revert n. induction s as [|c s IH]; intros n; simpl; [lia|].
  destruct ((128 <=? N_of_ascii c) && (N_of_ascii c <? 192))%N eqn:Hc.
  - simpl. rewrite Hc. apply IH.
  - destruct n as [|n]; simpl; [lia|]. rewrite Hc. specialize (IH n). lia.
Qed.

Lemma text_prefix_short n s : (text_length s <= n)%nat -> text_prefix n s = s.
Proof.
  revert n. induction s as [|c s IH]; intros n H; [reflexivity|].
  simpl in *. destruct ((128 <=? N_of_ascii c) && (N_of_ascii c <? 192))%N.
  - rewrite IH by exact H. reflexivity.
  - destruct n as [|n]; [lia|]. rewrite IH by lia. reflexivity.
Qed.

(** X11: once the command has run to its end, the runner has logged three
    records at level INFO: the command line, then the captured standard
    output and the captured standard error, each cut to its first 2000
    characters (and logged whole when it is not longer). *)
Theorem output_is_logged_truncated (env : Env) (ip op : string) (t : Z) (s : State)
  (cmd : string) (c : CompletedProcess) (m' : gmap string node) :
  has_placeholders env ->
  Format.format (format_ext env) ip op (INFERENCE_CMD env) = Ok cmd ->
  shell env cmd t (fs s) = (Ok c, m') ->
  exists out err,
    log (snd (run_inference_cli env ip op t s)) =
      log s ++ [(INFO, "Running inference command: " +:+ cmd);
                (INFO, "[stdout] " +:+ out); (INFO, "[stderr] " +:+ err)] /\
    (exists rest, stdout c = out +:+ rest) /\ (text_length out <= 2000)%nat /\
    ((text_length (stdout c) <= 2000)%nat -> out = stdout c) /\
    (exists rest, stderr c = err +:+ rest) /\ (text_length err <= 2000)%nat /\
    ((text_length (stderr c) <= 2000)%nat -> err = stderr c).
Proof.
  intros Hp Hfmt Hsh.
  exists (text_prefix 2000 (stdout c)), (text_prefix 2000 (stderr c)).
  split.
  - destruct (Z.eq_dec (returncode c) 0) as [Hrc|Hrc].
    + rewrite (runner_zero env ip op t s cmd c m' Hp Hfmt Hsh Hrc). simpl.
      rewrite <- app_assoc. reflexivity.
    + rewrite (runner_nonzero env ip op t s cmd c m' Hp Hfmt Hsh Hrc). simpl.
      rewrite <- app_assoc. reflexivity.
  - repeat split; try apply text_prefix_is_prefix; try apply text_prefix_length;
      intros H; apply text_prefix_short; exact H.
Qed.

Lemma output_is_logged_witness :
  log (snd (run_inference_cli Sample.env_fails Sample.in_wav Sample.out_json 3600
              Sample.idle)) =
    [(INFO, "Running inference command: transcribe --in " +:+ Sample.in_wav +:+ " --out "
              +:+ Sample.out_json);
     (INFO, "[stdout] "); (INFO, "[stderr] model not found")].
Proof.
  destruct (output_is_logged_truncated Sample.env_fails Sample.in_wav Sample.out_json 3600
              Sample.idle
              ("transcribe --in " +:+ Sample.in_wav +:+ " --out " +:+ Sample.out_json)
              (mk_completed 2 "" "model not found") ∅)
    as (out & err & Hlog & _ & _ & Ho & _ & _ & He).
  - split; vm_compute; reflexivity.
  - vm_compute. reflexivity.
  - reflexivity.
  - rewrite Hlog, (Ho ltac:(simpl; lia)), (He ltac:(vm_compute; lia)). reflexivity.
Defined.

Lemma cleanup_log env d s : log (snd (cleanup env d s)) = log s.
Proof.
  rewrite cleanup_spec. simpl.
  destruct (os_fault env (SysRmtree d)); [reflexivity|].
  destruct (fs s !! d) as [[|f]|]; reflexivity.
Qed.

(** The runner logs at level INFO only. *)
Lemma runner_log env ip op t s :
  exists infos,
    Forall (fun r => r.1 = INFO) infos /\
    log (snd (run_inference_cli env ip op t s)) = log s ++ infos.
Proof.
  destruct (runner_cases env ip op t s)
    as [[H _]|[(e & _ & _ & H)|[(cmd & e & m' & _ & _ & _ & H)|
        [(cmd & c & m' & _ & _ & _ & _ & H)|(cmd & c & m' & _ & _ & _ & _ & H)]]]];
    rewrite H; clear H; simpl.
  1, 2: exists []; split; [constructor|rewrite app_nil_r; reflexivity].
  - eexists. split; [|reflexivity]. repeat constructor.
  - eexists. split; [|rewrite <- app_assoc; reflexivity]. repeat constructor.
  - eexists. split; [|rewrite <- app_assoc; reflexivity]. repeat constructor.
Qed.

(** X12: for a request that reaches the runner, the log grows by the
    content-type warning (if any), then records at level INFO, and then by
    one ERROR record exactly when the runner has raised; the answer is then
    the 500 of the handler, with the text of the error.  When the runner
    has returned a result, no ERROR record is written, whether the response
    is built from the result or the constructor of the response raises: a
    response is never accompanied by an ERROR record, and an error of the
    constructor is not logged by the handler. *)
Theorem failure_is_logged_once (env : Env) (req_id fname : string) (file : UploadFile)
  (st : State) :
  filename file = Some fname -> fname <> "" -> body file <> "" ->
  upload_persists env req_id fname st = true ->
  let run :=
    fst (run_inference_cli env (input_path_of env req_id fname) (output_path_of env req_id)
           default_timeout (persisted env req_id fname file st)) in
  exists infos,
    Forall (fun r => r.1 = INFO) infos /\
    log (snd (infer env req_id file st)) =
      log st ++ content_type_warning file ++ infos ++
      match run with
      | Ok _ => []
      | Raise _ => [(ERROR, "Inference failed")]
      end /\
    fst (infer env req_id file st) =
      match run with
      | Ok v => JSONResponse_of v
      | Raise e => Raise (HTTPException 500 ("Inference error: " +:+ exn_str env e))
      end /\
    (forall resp,
        fst (infer env req_id file st) = Ok resp ->
        log (snd (infer env req_id file st)) = log st ++ content_type_warning file ++ infos).
Proof.
  intros Hf Hne Hb Hup run. unfold run. clear run.
  rewrite (infer_outcome env req_id fname file st Hf Hne Hb Hup).
  destruct (runner_log env (input_path_of env req_id fname) (output_path_of env req_id)
              default_timeout (persisted env req_id fname file st)) as (infos & Hinfo & Hlog).
  exists infos. split; [exact Hinfo|].
  destruct (run_inference_cli env _ _ default_timeout _) as [[v|e] s3]; simpl in *;
    rewrite cleanup_log; simpl; rewrite Hlog, <- !app_assoc.
  - rewrite app_nil_r. repeat split; reflexivity.
  - split; [reflexivity|]. split; [reflexivity|]. intros resp Hresp. discriminate.
Qed.

Lemma failure_is_logged_witness :
  (exists infos,
     Forall (fun r => r.1 = INFO) infos /\
     log (snd (infer Sample.env_fails Sample.req_id Sample.notes Sample.idle)) =
       [(WARNING, "Unexpected content-type: text/plain")] ++ infos
       ++ [(ERROR, "Inference failed")]) /\
  (exists infos,
     Forall (fun r => r.1 = INFO) infos /\
     log (snd (infer Sample.env_prints_nan Sample.req_id Sample.notes Sample.idle)) =
       [(WARNING, "Unexpected content-type: text/plain")] ++ infos /\
     fst (infer Sample.env_prints_nan Sample.req_id Sample.notes Sample.idle) =
       Raise (ValueError "Out of range float values are not JSON compliant")).
Proof.
  split.
  - destruct (failure_is_logged_once Sample.env_fails Sample.req_id "notes.wav" Sample.notes
                Sample.idle) as (infos & Hinfo & Hlog & _).
    + reflexivity.
    + discriminate.
    + discriminate.
    + vm_compute. reflexivity.
    + exists infos. split; [exact Hinfo|]. rewrite Hlog. reflexivity.
  - destruct (failure_is_logged_once Sample.env_prints_nan Sample.req_id "notes.wav"
                Sample.notes Sample.idle) as (infos & Hinfo & Hlog & Hres & _).
    + reflexivity.
    + discriminate.
    + discriminate.
    + vm_compute. reflexivity.
    + assert (Hrun :
        fst (run_inference_cli Sample.env_prints_nan
               (input_path_of Sample.env_prints_nan Sample.req_id "notes.wav")
               (output_path_of Sample.env_prints_nan Sample.req_id) default_timeout
               (persisted Sample.env_prints_nan Sample.req_id "notes.wav" Sample.notes
                  Sample.idle)) = Ok (PyFloat "NaN")) by (vm_compute; reflexivity).
      cbv zeta in Hlog, Hres. rewrite Hrun in Hlog, Hres.
      exists infos. split; [exact Hinfo|]. split.
      * rewrite Hlog, app_nil_r. reflexivity.
      * rewrite Hres. reflexivity.
Defined.

(** ** Two requests *)

(** A node at or below [d] is [d] followed by nothing or by a slash and
    more. *)
Lemma in_tree_split d p :
  in_tree d p -> exists r, p = d +:+ r /\ (r = "" \/ exists r', r = String "/" r').
Proof.
  intros [->|Hu].
  - exists "". split; [symmetry; apply append_nil_r|left; reflexivity].
  - unfold OS.under in Hu. destruct (prefix_split _ _ Hu) as [r ->].
    exists (String "/" r). split; [rewrite append_assoc_str; reflexivity|].
    right. exists r. reflexivity.
Qed.

Lemma slash_free_heads (a b ra rb : string) :
  lacks "/" a = true -> lacks "/" b = true ->
  (ra = "" \/ exists r, ra = String "/" r) ->
  (rb = "" \/ exists r, rb = String "/" r) ->
  a +:+ ra = b +:+ rb -> a = b.
Proof.
  revert b. induction a as [|x a IH]; intros b Ha Hb Hra Hrb H.
  - destruct b as [|y b]; [reflexivity|]. rewrite append_cons in H. simpl in H.
    destruct Hra as [->|[r ->]]; [discriminate|].
    injection H as <- _. simpl in Hb. discriminate.
  - destruct b as [|y b].
    + rewrite append_cons in H. simpl in H.
      destruct Hrb as [->|[r ->]]; [discriminate|].
      injection H as -> _. simpl in Ha. discriminate.
    + rewrite !append_cons in H. injection H as -> H.
      simpl in Ha, Hb. apply andb_true_iff in Ha as [_ Ha], Hb as [_ Hb].
      f_equal. apply (IH b Ha Hb Hra Hrb H).
Qed.

Lemma trees_disjoint env id1 id2 p :
  lacks "/" id1 = true -> lacks "/" id2 = true -> id1 <> id2 ->
  in_tree (req_dir_of env id2) p -> ~ in_tree (req_dir_of env id1) p.
Proof.
  intros H1 H2 Hne Hin2 Hin1.
  destruct (in_tree_split _ _ Hin1) as (r1 & -> & Hr1).
  destruct (in_tree_split _ _ Hin2) as (r2 & Heq & Hr2).
  unfold req_dir_of in Heq. rewrite !append_assoc_str in Heq.
  apply append_inj_l in Heq. rewrite !append_cons in Heq. injection Heq as Heq.
  apply Hne. exact (slash_free_heads id1 id2 r1 r2 H1 H2 Hr1 Hr2 Heq).
Qed.

(** A node of another request's tree is not a directory above the scratch
    directory of a request. *)
Lemma tree_not_above env id1 id2 p :
  lacks "/" id1 = true ->
  in_tree (req_dir_of env id2) p -> ~ In p (OS.parents (req_dir_of env id1)).
Proof.
  intros H1 Hin2 Hin.
  destruct (parents_split _ _ Hin) as [rest Hr].
  destruct (in_tree_split _ _ Hin2) as (r2 & -> & _).
  unfold req_dir_of in Hr. rewrite !append_assoc_str in Hr.
  apply append_inj_l in Hr. rewrite !append_cons in Hr. injection Hr as Hr.
  change ("" +:+ id1) with id1 in Hr.
  change ("" +:+ id2 +:+ r2 +:+ "/" +:+ rest) with (id2 +:+ r2 +:+ "/" +:+ rest) in Hr.
  rewrite Hr, !lacks_append in H1. simpl in H1.
  rewrite !andb_false_r in H1. discriminate.
Qed.

(** X13: requests do not interfere on disk: for two request identifiers
    without a slash that differ, a request under the first, whose child
    process works inside its own scratch directory only, leaves every node
    at or below the scratch directory of the second as it was, cleanup
    included. *)
Theorem requests_do_not_interfere (env : Env) (id1 id2 : string) (file : UploadFile)
  (st : State) (p : string) :
  lacks "/" id1 = true -> lacks "/" id2 = true -> id1 <> id2 ->
  child_stays_inside env (req_dir_of env id1) ->
  in_tree (req_dir_of env id2) p ->
  fs (snd (infer env id1 file st)) !! p = fs st !! p.
Proof.
  intros H1 H2 Hne Hchild Hin.
  pose proof (trees_disjoint env id1 id2 p H1 H2 Hne Hin) as Hout.
  pose proof (tree_not_above env id1 id2 p H1 Hin) as Habove.
  destruct (infer_outside env id1 file st p Hout)
    as [H|[(Hp & _)|(fname & cmd & Hf & Hc & Hfmt & H)]]; [exact H|contradiction|].
  rewrite H.
  destruct (Hchild cmd 3600 (fs (persisted env id1 fname file st))
              (persisted_scratch_is_dir env id1 fname file st Hc)) as [_ Hframe].
  rewrite (Hframe p Hout). apply persisted_outside; [exact Hout|left; exact Habove].
Qed.

Lemma requests_do_not_interfere_witness :
  fs (snd (infer Sample.env_writes_ok Sample.req_id Sample.clip Cases.busy))
    !! Cases.other_wav = fs Cases.busy !! Cases.other_wav.
Proof.
  apply (requests_do_not_interfere Sample.env_writes_ok Sample.req_id Cases.other_id).
  - reflexivity.
  - reflexivity.
  - discriminate.
  - exact sample_child_stays_inside.
  - right. vm_compute. reflexivity.
Defined.

(** ** The file name and the command line *)

Lemma includes_trans (a b c : string) : includes a b -> includes b c -> includes a c.
Proof.
  intros (p1 & q1 & ->) (p2 & q2 & ->). exists (p1 +:+ p2), (q2 +:+ q1).
  rewrite !append_assoc_str. reflexivity.
Qed.

Lemma command_includes_input ip op ps : In Input ps -> includes (command_of ip op ps) ip.
Proof.
  induction ps as [|p ps IH]; intros Hin; [destruct Hin|].
  destruct Hin as [->|Hin].
  - exists "", (command_of ip op ps). reflexivity.
  - destruct p; cbn [command_of]; apply includes_append_l, IH, Hin.
Qed.

(** X14: the suffix of the client's file name reaches the shell: for a
    template of plain text, placeholders and escaped braces, the command
    line handed to [subprocess.run] holds the input path, and with it the
    suffix of the uploaded file name, character for character. *)
Theorem file_suffix_reaches_the_shell (env : Env) (ps : list piece) (req_id fname : string)
  (file : UploadFile) (st : State) :
  INFERENCE_CMD env = template_of ps ->
  plain_pieces ps = true -> In Input ps -> In Output ps ->
  filename file = Some fname -> fname <> "" -> body file <> "" ->
  upload_persists env req_id fname st = true ->
  exists cmd,
    spawned (snd (infer env req_id file st)) = spawned st ++ [(cmd, 3600)] /\
    includes cmd (input_path_of env req_id fname) /\
    (Pathlib.suffix fname <> "" -> includes cmd (Pathlib.suffix fname)).
Proof.
  intros Hcmd Hplain Hi Ho Hf Hne Hb Hup.
  set (ip := input_path_of env req_id fname). set (op := output_path_of env req_id).
  assert (Hp : has_placeholders env).
  { split; rewrite Hcmd; [apply str_in_input|apply str_in_output]; assumption. }
  assert (Hfmt : Format.format (format_ext env) ip op (INFERENCE_CMD env)
                 = Ok (command_of ip op ps))
    by (rewrite Hcmd; apply format_pieces; exact Hplain).
  exists (command_of ip op ps). split; [|split].
  - rewrite (infer_outcome env req_id fname file st Hf Hne Hb Hup). fold ip op.
    pose proof (runner_spawned env ip op default_timeout
                  (persisted env req_id fname file st) _ Hp Hfmt) as Hs.
    destruct (run_inference_cli env ip op default_timeout _) as [[v|e] s3];
      simpl in *; rewrite cleanup_spawned; simpl; exact Hs.
  - apply command_includes_input. exact Hi.
  - intros Hsfx. apply (includes_trans _ ip); [apply command_includes_input; exact Hi|].
    unfold ip, input_path_of.
    destruct (Pathlib.suffix fname) as [|c0 sfx]; [congruence|]. simpl PyStr.truthy.
    rewrite <- !append_assoc_str. apply includes_suffix.
Qed.

Lemma file_suffix_witness :
  exists cmd,
    spawned (snd (infer Sample.env_writes_ok Sample.req_id
                    (mk_upload (Some "a.wav; reboot") None "RIFF") Sample.idle))
      = [(cmd, 3600)] /\
    includes cmd ".wav; reboot".
Proof.
  destruct (file_suffix_reaches_the_shell Sample.env_writes_ok
              [Text "transcribe --in "; Input; Text " --out "; Output]
              Sample.req_id "a.wav; reboot"
              (mk_upload (Some "a.wav; reboot") None "RIFF") Sample.idle)
    as (cmd & Hs & _ & Hi).
  - reflexivity.
  - reflexivity.
  - right; left; reflexivity.
  - do 3 right; left; reflexivity.
  - reflexivity.
  - discriminate.
  - discriminate.
  - vm_compute. reflexivity.
  - exists cmd. split; [exact Hs|]. apply Hi. vm_compute. discriminate.
Defined.

(** ** The answers of the handler *)

(** X15: as long as the upload can be saved, [/infer] answers 400 exactly
    for an upload without a file name or without content; every other
    upload gets the 200 of a response or a 500 (the runner has failed, or
    the response cannot be built from its result). *)
Theorem bad_request_iff_no_name_or_empty (env : Env) (req_id : string) (file : UploadFile)
  (st : State) :
  (forall fname, filename file = Some fname -> upload_persists env req_id fname st = true) ->
  let answer := http_status (fst (infer env req_id file st)) in
  (answer = 400 <->
   filename file = None \/ filename file = Some "" \/ body file = "") /\
  (answer = 200 \/ answer = 400 \/ answer = 500).
Proof.
  intros Hup answer. unfold answer. clear answer.
  destruct (filename file) as [[|c0 fname]|] eqn:Hf.
  - rewrite (infer_no_filename env req_id file st) by (right; exact Hf). simpl.
    split; [split; auto|auto].
  - specialize (Hup _ eq_refl).
    destruct (body file) as [|b0 b] eqn:Hb.
    + rewrite (infer_empty env req_id _ file st Hf ltac:(discriminate) Hb Hup). simpl.
      split; [split; auto|auto].
    + rewrite (infer_outcome env req_id _ file st Hf ltac:(discriminate)
                 ltac:(rewrite Hb; discriminate) Hup).
      destruct (run_inference_cli env _ _ default_timeout _) as [[v|e] s3]; simpl.
      * split; [|destruct (JSONResponse_of_status v) as [H|H]; auto].
        split; [|intros [H|[H|H]]; discriminate].
        destruct (JSONResponse_of_status v) as [H|H]; rewrite H; discriminate.
      * split; [|auto]. split; [discriminate|]. intros [H|[H|H]]; discriminate.
  - rewrite (infer_no_filename env req_id file st) by (left; exact Hf). simpl.
    split; [split; auto|auto].
Qed.

Lemma bad_request_witness :
  http_status (fst (infer Sample.env_fails Sample.req_id Sample.empty_clip Sample.idle)) = 400
  /\ http_status (fst (infer Sample.env_fails Sample.req_id Sample.clip Sample.idle)) = 500.
Proof.
  split.
  - apply (bad_request_iff_no_name_or_empty Sample.env_fails Sample.req_id Sample.empty_clip
             Sample.idle).
    + intros fname H. injection H as <-. vm_compute. reflexivity.
    + right. right. reflexivity.
  - destruct (bad_request_iff_no_name_or_empty Sample.env_fails Sample.req_id Sample.clip
                Sample.idle) as [[H400 _] [H|[H|H]]].
    + intros fname H. injection H as <-. vm_compute. reflexivity.
    + vm_compute in H. discriminate.
    + apply H400 in H. destruct H as [H|[H|H]]; discriminate.
    + exact H.
Defined.

(** The runner reads the file system of its state and nothing else of
    it. *)
Lemma runner_ignores_log env ip op t s1 s2 :
  fs s1 = fs s2 ->
  fst (run_inference_cli env ip op t s1) = fst (run_inference_cli env ip op t s2) /\
  fs (snd (run_inference_cli env ip op t s1)) = fs (snd (run_inference_cli env ip op t s2)).
Proof.
  intros Hfs.
  destruct (runner_cases env ip op t s1)
    as [[H Hnp]|[(e & Hp & Hfmt & H)|[(cmd & e & m' & Hp & Hfmt & Hsh & H)|
        [(cmd & c & m' & Hp & Hfmt & Hsh & Hrc & H)|
         (cmd & c & m' & Hp & Hfmt & Hsh & Hrc & H)]]]]; rewrite H; clear H.
  - assert (Hm : PyStr.str_in "{input}" (INFERENCE_CMD env) = false \/
                 PyStr.str_in "{output}" (INFERENCE_CMD env) = false).
    { unfold has_placeholders in Hnp.
      destruct (PyStr.str_in "{input}" (INFERENCE_CMD env)); [|left; reflexivity].
      destruct (PyStr.str_in "{output}" (INFERENCE_CMD env)); [|right; reflexivity].
      exfalso. apply Hnp. split; reflexivity. }
    rewrite (runner_missing env ip op t s2 Hm). split; [reflexivity|exact Hfs].
  - rewrite (runner_format_raises env ip op t s2 e Hp Hfmt). split; [reflexivity|exact Hfs].
  - rewrite Hfs in Hsh. rewrite (runner_runs env ip op t s2 cmd Hp Hfmt).
    rewrite (run_try_raises env cmd op t (announced cmd s2) e m' Hsh).
    destruct e; split; reflexivity.
  - rewrite Hfs in Hsh.
    rewrite (runner_nonzero env ip op t s2 cmd c m' Hp Hfmt Hsh Hrc). split; reflexivity.
  - rewrite Hfs in Hsh.
    rewrite (runner_zero env ip op t s2 cmd c m' Hp Hfmt Hsh Hrc).
    destruct (read_result env m' op c) as [v|e]; [|destruct e]; split; reflexivity.
Qed.

(** The [try] of [infer] reads the file system of its state and the bytes
    of the upload, and nothing else of them. *)
Lemma infer_body_ignores_log env ip op file1 file2 s1 s2 :
  body file1 = body file2 -> fs s1 = fs s2 ->
  fst (infer_body env ip op file1 s1) = fst (infer_body env ip op file2 s2) /\
  fs (snd (infer_body env ip op file1 s1)) = fs (snd (infer_body env ip op file2 s2)).
Proof.
  intros Hb Hfs. rewrite !infer_body_steps, Hfs, Hb.
  assert (Hw : fs (written ip file1 s1) = fs (written ip file2 s2))
    by (simpl; rewrite Hfs, Hb; reflexivity).
  destruct (os_fault env (SysOpenWrite ip)); [split; [reflexivity|exact Hfs]|].
  destruct (fs s2 !! ip) as [[|f]|]; [split; [reflexivity|exact Hfs]| |].
  all: destruct (os_fault env (SysStat ip)); [split; [reflexivity|exact Hw]|].
  all: destruct (body file2) as [|b0 b]; [split; [reflexivity|exact Hw]|].
  all: destruct (runner_ignores_log env ip op default_timeout _ _ Hw) as [Hr Hf].
  all: destruct (run_inference_cli env ip op default_timeout (written ip file1 s1))
         as [r1 t1];
       destruct (run_inference_cli env ip op default_timeout (written ip file2 s2))
         as [r2 t2]; simpl in Hr, Hf; subst r2.
  all: destruct r1 as [v|e]; split; try reflexivity; exact Hf.
Qed.

(** X16: the declared content type has no influence on the handling: two
    uploads with the same file name and the same bytes get the same answer
    and leave the same file system, whatever their content types. *)
Theorem content_type_is_ignored (env : Env) (req_id : string) (fname : option string)
  (ct1 ct2 : option string) (data : string) (st : State) :
  fst (infer env req_id (mk_upload fname ct1 data) st) =
    fst (infer env req_id (mk_upload fname ct2 data) st) /\
  fs (snd (infer env req_id (mk_upload fname ct1 data) st)) =
    fs (snd (infer env req_id (mk_upload fname ct2 data) st)).
Proof.
  destruct fname as [[|c0 fname]|].
  - rewrite !infer_no_filename by (right; reflexivity). split; reflexivity.
  - destruct (scratch_created env req_id st) eqn:Hc.
    + rewrite (infer_created env req_id (String c0 fname)
                 (mk_upload (Some (String c0 fname)) ct1 data) st eq_refl
                 ltac:(discriminate) Hc).
      rewrite (infer_created env req_id (String c0 fname)
                 (mk_upload (Some (String c0 fname)) ct2 data) st eq_refl
                 ltac:(discriminate) Hc).
      rewrite !try_finally_cleanup. simpl fst. simpl snd.
      match goal with
      | |- fst (infer_body env ?ip ?op ?f1 ?s1) = fst (infer_body env ?ip ?op ?f2 ?s2) /\ _ =>
          destruct (infer_body_ignores_log env ip op f1 f2 s1 s2 eq_refl eq_refl)
            as [Hr Hf]
      end.
      split; [exact Hr|].
      rewrite !cleanup_spec. simpl. rewrite Hf.
      destruct (os_fault env (SysRmtree _)); [exact Hf|].
      destruct (fs _ !! _) as [[|f]|]; simpl; congruence.
    + destruct (infer_not_created env req_id (String c0 fname) st ltac:(discriminate) Hc)
        as (e & m' & Hinf & _).
      rewrite !Hinf by reflexivity. split; reflexivity.
  - rewrite !infer_no_filename by (left; reflexivity). split; reflexivity.
Qed.
